(** * git-worktree-tui: the git extractor and the interaction state machine

    A shallow embedding of [internal/git] (the variant with upstream
    tracking and local-precedence de-duplication) and of
    [internal/tui/model.go] (the variant with the inline delete
    confirmation), together with the properties of the specification
    that concern them.

    Go strings are byte strings: [string] of the Standard Library, one
    [ascii] per byte.  Go's [int] is [Z], and where the program computes
    on an [int] it does not bound itself the wrap-around of the 64-bit
    [int] is written out.  A Go [error] is [option string]: [None] is
    [nil], [Some e] carries [e.Error()]. *)

From Stdlib Require Import ZArith Lia Bool Ascii.
From stdpp Require Import base option list strings gmap.

Local Open Scope string_scope.
Local Open Scope Z_scope.

(** ** Package [strings] of the Go library, as far as the program uses it *)

Module GoStrings.

Fixpoint rev_onto (acc s : string) : string :=
  match s with
  | EmptyString => acc
  | String c r => rev_onto (String c acc) r
  end.

Definition rev (s : string) : string := rev_onto "" s.

(** [cut_prefix p s] is [Some r] when [s = p ++ r]. *)
Fixpoint cut_prefix (p s : string) : option string :=
  match p, s with
  | EmptyString, _ => Some s
  | String a p', String c s' =>
      if Ascii.eqb a c then cut_prefix p' s' else None
  | String _ _, EmptyString => None
  end.

(** [strings.HasPrefix(s, prefix)] *)
Definition HasPrefix (s prefix : string) : bool :=
  match cut_prefix prefix s with Some _ => true | None => false end.

(** [strings.TrimPrefix(s, prefix)] *)
Definition TrimPrefix (s prefix : string) : string :=
  match cut_prefix prefix s with Some r => r | None => s end.

(** [strings.HasSuffix(s, suffix)] *)
Definition HasSuffix (s suffix : string) : bool :=
  HasPrefix (rev s) (rev suffix).

Definition byte (n : nat) : ascii := Ascii.ascii_of_nat n.

Fixpoint of_bytes (l : list nat) : string :=
  match l with
  | [] => EmptyString
  | n :: r => String (byte n) (of_bytes r)
  end.

(** The UTF-8 encodings of the code points for which [unicode.IsSpace]
    holds: tab, LF, VT, FF, CR, space, U+0085, U+00A0, U+1680,
    U+2000..U+200A, U+2028, U+2029, U+202F, U+205F, U+3000. *)
Definition space_runes : list string :=
  map of_bytes
    [ [9]; [10]; [11]; [12]; [13]; [32];
      [194; 133]; [194; 160]; [225; 154; 128];
      [226; 128; 128]; [226; 128; 129]; [226; 128; 130]; [226; 128; 131];
      [226; 128; 132]; [226; 128; 133]; [226; 128; 134]; [226; 128; 135];
      [226; 128; 136]; [226; 128; 137]; [226; 128; 138];
      [226; 128; 168]; [226; 128; 169]; [226; 128; 175];
      [226; 129; 159]; [227; 128; 128] ]%nat.

Fixpoint first_cut (ps : list string) (s : string) : option string :=
  match ps with
  | [] => None
  | p :: ps' =>
      match cut_prefix p s with
      | Some r => Some r
      | None => first_cut ps' s
      end
  end.

(** Drop leading runes of [ps], at most [fuel] of them. *)
Fixpoint trim_runes (ps : list string) (fuel : nat) (s : string) : string :=
  match fuel with
  | O => s
  | S fuel' =>
      match first_cut ps s with
      | Some r => trim_runes ps fuel' r
      | None => s
      end
  end.

Definition TrimLeftSpace (s : string) : string :=
  trim_runes space_runes (String.length s) s.

Definition TrimRightSpace (s : string) : string :=
  rev (trim_runes (map rev space_runes) (String.length s) (rev s)).

(** [strings.TrimSpace(s)]: leading and trailing white space removed. *)
Definition TrimSpace (s : string) : string :=
  TrimRightSpace (TrimLeftSpace s).

(** [cut sep s]: the text before and after the first byte [sep]. *)
Fixpoint cut (sep : ascii) (s : string) : option (string * string) :=
  match s with
  | EmptyString => None
  | String c r =>
      if Ascii.eqb c sep then Some (EmptyString, r)
      else match cut sep r with
           | Some (a, b) => Some (String c a, b)
           | None => None
           end
  end.

(** [strings.Contains(s, sep)] for a separator of one byte. *)
Definition Contains (s : string) (sep : ascii) : bool :=
  match cut sep s with Some _ => true | None => false end.

(** [strings.SplitN(s, sep, n)] for a separator of one byte and [n >= 0]. *)
Fixpoint SplitN (s : string) (sep : ascii) (n : nat) : list string :=
  match n with
  | O => []
  | S O => [s]
  | S n' =>
      match cut sep s with
      | Some (a, b) => a :: SplitN b sep n'
      | None => [s]
      end
  end.

(** [strings.Split(s, sep)] for a separator of one byte. *)
Fixpoint Split (s : string) (sep : ascii) : list string :=
  match s with
  | EmptyString => [EmptyString]
  | String c r =>
      if Ascii.eqb c sep then EmptyString :: Split r sep
      else match Split r sep with
           | h :: t => String c h :: t
           | [] => [String c EmptyString]
           end
  end.

(** [strings.Join(elems, sep)] *)
Fixpoint Join (elems : list string) (sep : string) : string :=
  match elems with
  | [] => EmptyString
  | [x] => x
  | x :: r => x +:+ sep +:+ Join r sep
  end.

End GoStrings.

Definition LF : ascii := GoStrings.byte 10.
Definition CR : ascii := GoStrings.byte 13.
Definition nl : string := String LF EmptyString.

(** The values of Go's [int] on a 64-bit platform, and what an arithmetic
    result becomes in it: the overflow of [+] and [-] wraps around. *)
Definition is_int (z : Z) : Prop := - 2 ^ 63 <= z < 2 ^ 63.

Definition int_wrap (z : Z) : Z := (z + 2 ^ 63) mod 2 ^ 64 - 2 ^ 63.

Arguments int_wrap : simpl never.

(** ** The host: the git subprocess, the file system, the process environment

    Every call that leaves the program is logged in a [Trace].  What the
    outside world answers may depend on everything the program did before
    (a removed worktree is gone from the next listing), so the answers are
    functions of the trace so far. *)

Inductive Event : Type :=
| EvGit (args : list string)        (* exec.Command("git", args...).Output() *)
| EvMkdirAll (path : string).       (* os.MkdirAll(path, 0o755) *)

Definition Trace : Type := list Event.

(** The three outcomes of [cmd.Output()]. *)
Inductive ExecResult : Type :=
| ExecOk (stdout : string)                  (* exit status 0 *)
| ExecExit (errtext stderr : string)        (* *exec.ExitError: err.Error(), ee.Stderr *)
| ExecErr (errtext : string).               (* any other error, e.g. git not on PATH *)

Definition error : Type := option string.

Class Host : Type := {
  exec_git : Trace -> list string -> ExecResult;
  os_MkdirAll : Trace -> string -> error;
  os_Getwd : option string;                 (* [None]: os.Getwd failed *)
  os_Getenv : string -> string;
  filepath_Dir : string -> string;
  filepath_Base : string -> string;
  filepath_Join : string -> string -> string
}.

(** State passing over the trace. *)
Definition M (A : Type) : Type := Trace -> A * Trace.

Definition ret {A : Type} (a : A) : M A := fun t => (a, t).

Definition bind {A B : Type} (m : M A) (f : A -> M B) : M B :=
  fun t => let (a, t') := m t in f a t'.

Notation "x <- m ;; k" := (bind m (fun x => k))
  (at level 100, m at next level, right associativity).

(** The events a computation adds to the trace [t]. *)
Definition events {A : Type} (m : M A) (t : Trace) : Trace :=
  drop (length t) (snd (m t)).

(** ** Package [internal/git] *)

Module git.

Record Worktree : Type := mkWorktree {
  Path : string;
  BranchRef : string;     (* field [Branch] of the Go struct *)
  HEAD : string;
  IsMain : bool
}.

Record Branch : Type := mkBranch {
  Name : string;
  IsRemote : bool;
  Remote : string;
  RemoteRef : string;
  HasUpstream : bool;
  Upstream : string;
  UpstreamRemote : string
}.

Definition Worktree_zero : Worktree := mkWorktree "" "" "" false.
Definition Branch_zero : Branch := mkBranch "" false "" "" false "" "".

Definition set_IsMain (b : bool) (w : Worktree) : Worktree :=
  mkWorktree (Path w) (BranchRef w) (HEAD w) b.

(** [fmt.Errorf("git %v failed: %v\n%s", args, err, string(ee.Stderr))] *)
Definition git_failed (args : list string) (errtext stderr : string) : string :=
  "git [" +:+ GoStrings.Join args " " +:+ "] failed: " +:+ errtext +:+ nl +:+ stderr.

Definition runGit `{Host} (args : list string) : M (string * error) :=
  fun t =>
    (match exec_git t args with
     | ExecOk out => (out, None)
     | ExecExit e stderr => ("", Some (git_failed args e stderr))
     | ExecErr e => ("", Some e)
     end, (t ++ [EvGit args])%list).

(** [bufio.MaxScanTokenSize] *)
Definition MaxScanTokenSize : N := 65536.

(** One trailing carriage return is dropped from a line. *)
Definition dropCR (s : string) : string :=
  match GoStrings.cut_prefix (String CR EmptyString) (GoStrings.rev s) with
  | Some r => GoStrings.rev r
  | None => s
  end.

Fixpoint scan_tokens (segs : list string) : list string :=
  match segs with
  | [] => []
  | [last] =>
      if String.eqb last "" then []
      else if (N.of_nat (String.length last) <? MaxScanTokenSize)%N then [dropCR last]
      else []
  | seg :: rest =>
      if (N.of_nat (String.length seg) <? MaxScanTokenSize)%N
      then dropCR seg :: scan_tokens rest
      else []
  end.

(** The lines [bufio.NewScanner(strings.NewReader(out))] yields with the
    default split function [ScanLines]: the text between newlines, a final
    line without newline when it is not empty, and nothing from the first
    line on that does not fit the scanner's buffer. *)
Definition scan_lines (out : string) : list string :=
  scan_tokens (GoStrings.Split out LF).

(** The variables of the loop of [ListWorktrees]. *)
Record wt_loop : Type := mkLoop {
  wts : list Worktree;
  wt : Worktree;
  inBlock : bool
}.

Definition wt_line (st : wt_loop) (line : string) : wt_loop :=
  if GoStrings.HasPrefix line "worktree " then
    mkLoop (if inBlock st then (wts st ++ [wt st])%list else wts st)
           (mkWorktree (GoStrings.TrimSpace (GoStrings.TrimPrefix line "worktree ")) "" "" true)
           true
  else if GoStrings.HasPrefix line "branch " then
    mkLoop (wts st)
           (mkWorktree (Path (wt st)) (GoStrings.TrimSpace (GoStrings.TrimPrefix line "branch "))
                       (HEAD (wt st)) (IsMain (wt st)))
           (inBlock st)
  else if GoStrings.HasPrefix line "HEAD " then
    mkLoop (wts st)
           (mkWorktree (Path (wt st)) (BranchRef (wt st))
                       (GoStrings.TrimSpace (GoStrings.TrimPrefix line "HEAD ")) (IsMain (wt st)))
           (inBlock st)
  else st.

Definition wt_flush (st : wt_loop) : list Worktree :=
  if inBlock st then (wts st ++ [wt st])%list else wts st.

(** [wts[0].IsMain = true; for i := 1; i < len(wts); i++ { wts[i].IsMain = false }] *)
Definition mark_main (l : list Worktree) : list Worktree :=
  match l with
  | [] => []
  | w :: r => set_IsMain true w :: map (set_IsMain false) r
  end.

(** The loop of [ListWorktrees] and what follows it, on the scanned lines. *)
Definition parse_lines (lines : list string) : list Worktree :=
  mark_main (wt_flush (fold_left wt_line lines (mkLoop [] Worktree_zero false))).

(** The body of [ListWorktrees] after the call of git. *)
Definition parse_worktrees (out : string) : list Worktree :=
  parse_lines (scan_lines out).

(** A line that opens a block, and a line the loop has a case for. *)
Definition opens_block (line : string) : bool := GoStrings.HasPrefix line "worktree ".

(** The number of blocks in the scanned lines. *)
Definition nblocks (lines : list string) : nat := length (List.filter opens_block lines).

Definition recognized (line : string) : bool :=
  GoStrings.HasPrefix line "worktree " || GoStrings.HasPrefix line "branch "
  || GoStrings.HasPrefix line "HEAD ".

Definition worktree_list_args : list string := ["worktree"; "list"; "--porcelain"].

Definition ListWorktrees `{Host} : M (list Worktree * error) :=
  r <- runGit worktree_list_args ;;
  match snd r with
  | Some e => ret ([], Some e)
  | None => ret (parse_worktrees (fst r), None)
  end.

(** [seen[name]] on a Go [map[string]bool]: a missing key reads [false]. *)
Definition seen_get (seen : gmap string bool) (name : string) : bool :=
  default false (seen !! name).

(** [parts[i]] on the slice a [SplitN] returned. *)
Definition part (parts : list string) (i : nat) : string :=
  default "" (parts !! i).

(** The variables both loops of [ListBranchesDetailed] update. *)
Definition br_loop : Type := list Branch * gmap string bool.

(** One round of the loop over the local refs. *)
Definition local_line (st : br_loop) (l0 : string) : br_loop :=
  let l := GoStrings.TrimSpace l0 in
  if String.eqb l "" then st
  else
    let parts := GoStrings.SplitN l "|" 2 in
    let name := if GoStrings.Contains l "|" then GoStrings.TrimSpace (part parts 0) else l in
    let upstreamShort :=
      if GoStrings.Contains l "|" then GoStrings.TrimSpace (part parts 1) else "" in
    let br :=
      if String.eqb upstreamShort "" then mkBranch name false "" "" false "" ""
      else
        let upParts := GoStrings.SplitN upstreamShort "/" 2 in
        mkBranch name false "" "" true upstreamShort
                 (if (1 <=? length upParts)%nat then part upParts 0 else "") in
    ((fst st ++ [br])%list, <[name := true]> (snd st)).

(** One round of the loop over the remote refs. *)
Definition remote_line (st : br_loop) (l0 : string) : br_loop :=
  let l := GoStrings.TrimSpace l0 in
  if String.eqb l "" then st
  else if GoStrings.HasSuffix l "/HEAD" then st
  else
    let parts := GoStrings.SplitN l "/" 2 in
    if negb (length parts =? 2)%nat then st
    else
      let remote := part parts 0 in
      let name := part parts 1 in
      if seen_get (snd st) name then st
      else ((fst st ++ [mkBranch name true remote l false "" ""])%list,
            <[name := true]> (snd st)).

Definition split_lines (out : string) : list string :=
  GoStrings.Split (GoStrings.TrimSpace out) LF.

Definition local_refs_args : list string :=
  ["for-each-ref"; "--sort=-committerdate";
   "--format=%(refname:short)|%(upstream:short)"; "refs/heads"].

Definition remote_refs_args : list string :=
  ["for-each-ref"; "--sort=-committerdate"; "--format=%(refname:short)"; "refs/remotes"].

(** The first loop, entered when the query of the local refs succeeded. *)
Definition local_phase (rl : string * error) : br_loop :=
  match snd rl with
  | None => fold_left local_line (split_lines (fst rl)) ([], ∅)
  | Some _ => ([], ∅)
  end.

(** The second loop, entered when the query of the remote refs succeeded. *)
Definition remote_phase (rr : string * error) (st : br_loop) : br_loop :=
  match snd rr with
  | None => fold_left remote_line (split_lines (fst rr)) st
  | Some _ => st
  end.

(** What [ListBranchesDetailed] makes of the answers to its two queries. *)
Definition merge_branches (rl rr : string * error) : list Branch :=
  fst (remote_phase rr (local_phase rl)).

(** The two answers [ListBranchesDetailed] gets from git. *)
Definition local_answer `{Host} (t : Trace) : string * error :=
  fst (runGit local_refs_args t).

Definition remote_answer `{Host} (t : Trace) : string * error :=
  fst (runGit remote_refs_args (t ++ [EvGit local_refs_args])%list).

Definition ListBranchesDetailed `{Host} : M (list Branch * error) :=
  rl <- runGit local_refs_args ;;
  rr <- runGit remote_refs_args ;;
  ret (merge_branches rl rr, None).

(** A failed [os.MkdirAll] gives up before git is called. *)
Definition MkdirAll `{Host} (path : string) : M error :=
  fun t => (os_MkdirAll t path, (t ++ [EvMkdirAll path])%list).

Definition CreateWorktreeFromRef `{Host} (branch targetDir fromRef : string) : M error :=
  if String.eqb branch "" || String.eqb targetDir "" || String.eqb fromRef ""
  then ret (Some "branch, targetDir and fromRef required")
  else
    e <- MkdirAll (filepath_Dir targetDir) ;;
    match e with
    | Some err => ret (Some err)
    | None =>
        r <- runGit ["worktree"; "add"; "-b"; branch; targetDir; fromRef] ;;
        ret (snd r)
    end.

(** The arguments [CreateWorktree] passes to git. *)
Definition create_args (branch targetDir : string) (createBranch : bool) : list string :=
  if createBranch then ["worktree"; "add"; "-b"; branch; targetDir]
  else ["worktree"; "add"; targetDir; branch].

Definition CreateWorktree `{Host} (branch targetDir : string) (createBranch : bool) : M error :=
  if String.eqb branch "" || String.eqb targetDir ""
  then ret (Some "branch and targetDir required")
  else
    e <- MkdirAll (filepath_Dir targetDir) ;;
    match e with
    | Some err => ret (Some err)
    | None =>
        r <- runGit (create_args branch targetDir createBranch) ;;
        ret (snd r)
    end.

Definition RemoveWorktree `{Host} (path : string) (force : bool) : M error :=
  if String.eqb path "" then ret (Some "path required")
  else
    r <- runGit ((["worktree"; "remove"] ++ (if force then ["--force"] else []))%list
                   ++ [path])%list ;;
    ret (snd r).

Definition DefaultWorktreeDir `{Host} (branch : string) : string :=
  match os_Getwd with
  | None => filepath_Join ".worktrees" branch
  | Some cwd => filepath_Join (filepath_Dir cwd) (filepath_Base cwd +:+ "-" +:+ branch)
  end.

(** Every listed branch has its short name marked in [seen]. *)
Definition names_seen (st : br_loop) : Prop :=
  forall b, b ∈ fst st -> seen_get (snd st) (Name b) = true.

Definition is_local (b : Branch) : Prop := IsRemote b = false /\ RemoteRef b = "".

Definition is_remote (b : Branch) : Prop :=
  IsRemote b = true /\ GoStrings.HasSuffix (RemoteRef b) "/HEAD" = false.

(** [ListBranches]: the short names [git branch] prints. *)
Definition branch_args : list string := ["branch"; "--format"; "%(refname:short)"].

(** One round of the loop of [ListBranches]. *)
Definition branch_line (branches : list string) (l0 : string) : list string :=
  let l := GoStrings.TrimSpace (GoStrings.TrimPrefix l0 "* ") in
  if String.eqb l "" then branches else (branches ++ [l])%list.

Definition ListBranches `{Host} : M (list string * error) :=
  r <- runGit branch_args ;;
  match snd r with
  | Some e => ret ([], Some e)
  | None => ret (fold_left branch_line (split_lines (fst r)) [], None)
  end.

(** The value of the last line of [attrs] that starts with [key], and [d]
    when there is none. *)
Definition attr_value (key : string) (attrs : list string) (d : string) : string :=
  fold_left (fun acc l => if GoStrings.HasPrefix l key
                          then GoStrings.TrimSpace (GoStrings.TrimPrefix l key)
                          else acc) attrs d.

(** The record a block of the listing stands for: the path of its first
    line, the branch and the head of its last [branch] and [HEAD] lines. *)
Definition block_record (b : string * list string) : Worktree :=
  mkWorktree (GoStrings.TrimSpace (GoStrings.TrimPrefix (fst b) "worktree "))
             (attr_value "branch " (snd b) "")
             (attr_value "HEAD " (snd b) "")
             true.

(** A block: a line that opens it, and lines that open none. *)
Definition is_block (b : string * list string) : Prop :=
  opens_block (fst b) = true /\ Forall (fun l => opens_block l = false) (snd b).

Definition block_lines (blocks : list (string * list string)) : list string :=
  concat (map (fun b => fst b :: snd b) blocks).

(** The text of lines that each end in [eol]. *)
Definition unlines (eol : string) (l : list string) : string :=
  fold_right (fun s acc => s +:+ eol +:+ acc) "" l.

(** A line the scanner gives back as it is: no newline in it, no carriage
    return at its end, and short enough for the buffer with its end of line. *)
Definition plain_line (s : string) : Prop :=
  GoStrings.Contains s LF = false /\
  GoStrings.HasSuffix s (String CR EmptyString) = false /\
  (N.of_nat (String.length s) + 1 < MaxScanTokenSize)%N.

(** The entry the first loop of [ListBranchesDetailed] builds from a
    trimmed line that is not empty. *)
Definition local_entry (l : string) : Branch :=
  let parts := GoStrings.SplitN l "|" 2 in
  let name := if GoStrings.Contains l "|" then GoStrings.TrimSpace (part parts 0) else l in
  let upstreamShort :=
    if GoStrings.Contains l "|" then GoStrings.TrimSpace (part parts 1) else "" in
  if String.eqb upstreamShort "" then mkBranch name false "" "" false "" ""
  else mkBranch name false "" "" true upstreamShort
                (if (1 <=? length (GoStrings.SplitN upstreamShort "/" 2))%nat
                 then part (GoStrings.SplitN upstreamShort "/" 2) 0 else "").

Definition nonblank (l : string) : bool := negb (String.eqb l "").

(** What every entry of the listing looks like. *)
Definition entry_ok (b : Branch) : Prop :=
  (HasUpstream b = true <-> Upstream b <> "") /\
  (HasUpstream b = false -> UpstreamRemote b = "") /\
  (IsRemote b = false -> Remote b = "" /\ RemoteRef b = "") /\
  (IsRemote b = true ->
   HasUpstream b = false /\
   RemoteRef b = Remote b +:+ "/" +:+ Name b /\
   GoStrings.Contains (Remote b) "/" = false).

(** The blocks of a listing text: its lines, as the newlines cut them,
    that open a block, however long the lines are. *)
Definition text_blocks (out : string) : nat := nblocks (GoStrings.Split out LF).

(** A text every line of which fits the buffer of the scanner. *)
Definition short_lines (out : string) : Prop :=
  Forall (fun seg => (N.of_nat (String.length seg) < MaxScanTokenSize)%N)
         (GoStrings.Split out LF).

(** A text that neither starts nor ends with a white space character,
    whatever follows or precedes it. *)
Definition starts_clean (s : string) : Prop :=
  forall x, GoStrings.first_cut GoStrings.space_runes (s +:+ x) = None.

Definition ends_clean (s : string) : Prop :=
  forall x, GoStrings.first_cut (map GoStrings.rev GoStrings.space_runes)
                                (GoStrings.rev s +:+ x) = None.

(** A local ref as git has it: its short name and the short name of its
    upstream, empty when it tracks nothing.  The line git prints for it
    under the format [%(refname:short)|%(upstream:short)]. *)
Definition local_ref : Type := string * string.

Definition ref_line (r : local_ref) : string := fst r +:+ "|" +:+ snd r.

(** The text git prints for the local refs [refs], one line each. *)
Definition refs_text (refs : list local_ref) : string := unlines nl (map ref_line refs).

(** What git guarantees of a name it prints: it is on one line and has no
    white space at its ends. *)
Definition printed_name (s : string) : Prop :=
  GoStrings.Contains s LF = false /\ starts_clean s /\ ends_clean s.

(** A local ref whose short name holds no bar. *)
Definition ref_ok (r : local_ref) : Prop :=
  printed_name (fst r) /\ GoStrings.Contains (fst r) "|" = false /\
  (snd r = "" \/ printed_name (snd r)).

End git.

(** ** Package [internal/tui]

    The widgets of the bubbles library are kept as far as the program
    reads them: a list widget is its items and the index of its cursor, a
    text input is its value, focus and width.  What the widgets do with a
    key passed through to them is a parameter ([Widgets]). *)

Module tui.

Record item : Type := mkItem {
  title : string;
  desc : string;
  wt : git.Worktree;
  isAdd : bool;
  br : git.Branch
}.

Inductive state : Type :=
| stateList
| stateAddPick
| stateAddNewInput
| stateConfirmDelete.

(** [list.Model]: [Items()] and [Index()]. *)
Record ListModel : Type := mkList {
  Items : list item;
  Index : Z
}.

(** [textinput.Model]: [Value()], [Focused()], [Width]. *)
Record TextInput : Type := mkInput {
  Value : string;
  Focused : bool;
  Width : Z
}.

Record branchDelegate : Type := mkDelegate {
  editing : bool
}.

Inductive ListId : Type := MainList | BranchList.

(** [tea.Cmd], by what the command will do. *)
Inductive Cmd : Type :=
| CmdNil                                       (* nil *)
| Quit                                         (* tea.Quit *)
| loadWorktrees
| loadBranches
| EnterAltScreen
| NewStatusMessage (l : ListId) (s : string)   (* m.list / m.branches .NewStatusMessage(s) *)
| Batch (c1 c2 : Cmd)                          (* tea.Batch(c1, c2) *)
| ExecProcess (editor path : string).          (* tea.ExecProcess(exec.Command(editor, path), ...) *)

Inductive Color : Type := Sky | Green | Blue | Surface1.

Class Widgets : Type := {
  (** [list.Model.Update] on a key: where the cursor goes, and the command. *)
  list_key : string -> ListModel -> Z * Cmd;
  (** [Index()] after [SetSize(w, h)]. *)
  list_resized : Z -> Z -> ListModel -> Z;
  (** [Index()] after [SetItems] when the old index is outside the new items. *)
  list_reindex : ListModel -> list item -> Z;
  (** [textinput.Model.Update] on a key. *)
  input_key : string -> TextInput -> TextInput * Cmd;
  (** [lipgloss.NewStyle().Foreground(c).Render(s)] *)
  Render : Color -> string -> string
}.

(** Filtering is disabled on both lists, so the widget never changes the
    items on its own: a key only moves the cursor. *)
Definition list_Update `{Widgets} (k : string) (l : ListModel) : ListModel * Cmd :=
  (mkList (Items l) (fst (list_key k l)), snd (list_key k l)).

Definition SetSize `{Widgets} (w h : Z) (l : ListModel) : ListModel :=
  mkList (Items l) (list_resized w h l).

(** [SetItems] keeps the cursor on its index while the index is one of the
    new items. *)
Definition SetItems `{Widgets} (xs : list item) (l : ListModel) : ListModel :=
  mkList xs (if (0 <=? Index l) && (Index l <? Z.of_nat (length xs))
             then Index l else list_reindex l xs).

Definition Select (i : Z) (l : ListModel) : ListModel := mkList (Items l) i.

Definition SelectedItem (l : ListModel) : option item :=
  let i := Index l in
  if (i <? 0) || (length (Items l) =? 0)%nat || (Z.of_nat (length (Items l)) <=? i)
  then None
  else Items l !! Z.to_nat i.

Record model : Type := mkModel {
  m_state : state;                    (* field [state] *)
  m_list : ListModel;                 (* field [list] *)
  branches : ListModel;
  input : TextInput;
  confirmMsg : string;
  selected : git.Worktree;
  branchDel : option branchDelegate;  (* a pointer; [None] is nil *)
  confirmIndex : Z;
  confirmPrev : item;
  frame : Z                           (* the width of the frame style *)
}.

Definition set_state (s : state) (m : model) : model :=
  mkModel s (m_list m) (branches m) (input m) (confirmMsg m) (selected m)
          (branchDel m) (confirmIndex m) (confirmPrev m) (frame m).

Definition set_list (l : ListModel) (m : model) : model :=
  mkModel (m_state m) l (branches m) (input m) (confirmMsg m) (selected m)
          (branchDel m) (confirmIndex m) (confirmPrev m) (frame m).

Definition set_branches (l : ListModel) (m : model) : model :=
  mkModel (m_state m) (m_list m) l (input m) (confirmMsg m) (selected m)
          (branchDel m) (confirmIndex m) (confirmPrev m) (frame m).

Definition set_input (i : TextInput) (m : model) : model :=
  mkModel (m_state m) (m_list m) (branches m) i (confirmMsg m) (selected m)
          (branchDel m) (confirmIndex m) (confirmPrev m) (frame m).

Definition set_selected (w : git.Worktree) (m : model) : model :=
  mkModel (m_state m) (m_list m) (branches m) (input m) (confirmMsg m) w
          (branchDel m) (confirmIndex m) (confirmPrev m) (frame m).

Definition set_branchDel (d : option branchDelegate) (m : model) : model :=
  mkModel (m_state m) (m_list m) (branches m) (input m) (confirmMsg m) (selected m)
          d (confirmIndex m) (confirmPrev m) (frame m).

Definition set_confirmIndex (i : Z) (m : model) : model :=
  mkModel (m_state m) (m_list m) (branches m) (input m) (confirmMsg m) (selected m)
          (branchDel m) i (confirmPrev m) (frame m).

Definition set_confirmPrev (p : item) (m : model) : model :=
  mkModel (m_state m) (m_list m) (branches m) (input m) (confirmMsg m) (selected m)
          (branchDel m) (confirmIndex m) p (frame m).

Definition set_frame (w : Z) (m : model) : model :=
  mkModel (m_state m) (m_list m) (branches m) (input m) (confirmMsg m) (selected m)
          (branchDel m) (confirmIndex m) (confirmPrev m) w.

Inductive Msg : Type :=
| WindowSizeMsg (w h : Z)
| editorDoneMsg (err : error)
| loadedWorktreesMsg (wts : list git.Worktree) (err : error)
| loadedBranchesMsg (brs : list git.Branch) (err : error)
| KeyMsg (k : string)                 (* [k] is [msg.String()] *)
| otherMsg.                           (* any message [Update] has no case for *)

Definition item_zero : item := mkItem "" "" git.Worktree_zero false git.Branch_zero.

Definition initialModel : model :=
  mkModel stateList (mkList [] 0) (mkList [] 0) (mkInput "" false 0) ""
          git.Worktree_zero (Some (mkDelegate false)) (-1) item_zero 0.

Definition Init : Cmd := Batch loadWorktrees EnterAltScreen.

(** The commands [loadWorktrees] and [loadBranches], run by the runtime. *)
Definition run_loadWorktrees `{Host} : M Msg :=
  r <- git.ListWorktrees ;; ret (loadedWorktreesMsg (fst r) (snd r)).

Definition run_loadBranches `{Host} : M Msg :=
  r <- git.ListBranchesDetailed ;; ret (loadedBranchesMsg (fst r) (snd r)).

(** [m.branchDel != nil && m.branchDel.editing] *)
Definition is_editing (m : model) : bool :=
  match branchDel m with
  | Some d => editing d
  | None => false
  end.

(** [m.branchDel.editing = b], the delegate being there. *)
Definition set_editing (b : bool) (m : model) : model :=
  match branchDel m with
  | Some _ => set_branchDel (Some (mkDelegate b)) m
  | None => m
  end.

Definition Blur (i : TextInput) : TextInput := mkInput (Value i) false (Width i).
Definition Focus (i : TextInput) : TextInput := mkInput (Value i) true (Width i).
Definition ClearValue (i : TextInput) : TextInput := mkInput "" (Focused i) (Width i). (* SetValue("") *)

Definition updateAddItemTitle `{Widgets} (val : string) (m : model) : model :=
  match Items (branches m) with
  | [] => m
  | it0 :: rest =>
      if negb (isAdd it0) then m
      else
        let title' :=
          if String.eqb (GoStrings.TrimSpace val) "" && negb (is_editing m)
          then "[+] Create new branch" else val in
        set_branches
          (SetItems (<[0%nat := mkItem title' (desc it0) (wt it0) (isAdd it0) (br it0)]>
                       (Items (branches m)))
                    (branches m)) m
  end.

Definition resetAddItemTitle `{Widgets} (m : model) : model := updateAddItemTitle "" m.

(** The block that puts the snapshot back and ends the confirmation. *)
Definition restore_confirm `{Widgets} (m : model) : model :=
  let items := Items (m_list m) in
  let idx := confirmIndex m in
  set_confirmIndex (-1)
    (if (0 <=? idx) && (idx <? Z.of_nat (length items))
     then set_list (SetItems (<[Z.to_nat idx := confirmPrev m]> items) (m_list m)) m
     else m).

Definition buildEditorCmd `{Host} (path : string) : Cmd + string :=
  let editor := if String.eqb (os_Getenv "VISUAL") "" then os_Getenv "EDITOR"
                else os_Getenv "VISUAL" in
  if String.eqb editor "" then inr "$EDITOR not set"
  else inl (ExecProcess editor path).

Definition strip_refs (branch : string) : string :=
  if GoStrings.HasPrefix branch "refs/heads/" then GoStrings.TrimPrefix branch "refs/heads/"
  else if GoStrings.HasPrefix branch "heads/" then GoStrings.TrimPrefix branch "heads/"
  else if GoStrings.HasPrefix branch "refs/" then GoStrings.TrimPrefix branch "refs/"
  else branch.

Definition worktree_item `{Host} `{Widgets} (w : git.Worktree) : item :=
  let branch := strip_refs (if String.eqb (git.BranchRef w) "" then git.HEAD w
                            else git.BranchRef w) in
  let segs :=
    ((if String.eqb branch "" then [] else [Render Sky "Branch:" +:+ " " +:+ branch])
       ++ [Render Green "Path:" +:+ " " +:+ git.Path w])%list in
  mkItem (filepath_Base (git.Path w)) (GoStrings.Join segs "  ") w false git.Branch_zero.

Definition branch_item `{Widgets} (b : git.Branch) : item :=
  let d :=
    if git.IsRemote b then ""
    else if String.eqb (GoStrings.TrimSpace (git.Upstream b)) "" then Render Surface1 "No remote"
         else Render Blue "Tracking:" +:+ " " +:+ GoStrings.TrimSpace (git.Upstream b) in
  mkItem (git.Name b) d git.Worktree_zero false b.

Definition add_worktree_item : item :=
  mkItem "[+] Add new worktree" "Create from existing or new branch"
         git.Worktree_zero true git.Branch_zero.

Definition add_branch_item : item :=
  mkItem "[+] Create new branch" "Type a new branch name"
         git.Worktree_zero true git.Branch_zero.

(** The entry that asks for the confirmation, in place of [it]. *)
Definition confirmItem (it : item) : item :=
  mkItem ("Are you sure you want to delete: " +:+ title it) "Yes: Enter    No: Esc"
         (wt it) (isAdd it) (br it).

(** [case loadedWorktreesMsg] *)
Definition on_loadedWorktrees `{Host} `{Widgets}
    (wts : list git.Worktree) (err : error) (m : model) : model * Cmd :=
  match err with
  | Some e => (m, NewStatusMessage MainList ("Error: " +:+ e))
  | None =>
      (set_confirmIndex (-1)
         (set_list (SetItems (add_worktree_item :: map worktree_item wts) (m_list m)) m),
       CmdNil)
  end.

(** [case loadedBranchesMsg] *)
Definition on_loadedBranches `{Widgets}
    (brs : list git.Branch) (err : error) (m : model) : model * Cmd :=
  match err with
  | Some e => (m, NewStatusMessage BranchList ("Error: " +:+ e))
  | None =>
      (set_branches (SetItems (add_branch_item :: map branch_item brs) (branches m)) m,
       CmdNil)
  end.

(** [case tea.WindowSizeMsg] *)
Definition on_WindowSize `{Widgets} (w h : Z) (m : model) : model :=
  let fw := if int_wrap (w - 2) <? 0 then 0 else int_wrap (w - 2) in
  let innerW := if int_wrap (w - 4) <? 0 then 0 else int_wrap (w - 4) in
  let innerH := if int_wrap (h - 2) <? 0 then 0 else int_wrap (h - 2) in
  let iw := if int_wrap (innerW - 6) <? 10 then 10 else int_wrap (innerW - 6) in
  set_input (mkInput (Value (input m)) (Focused (input m)) iw)
    (set_branches (SetSize innerW innerH (branches m))
       (set_list (SetSize innerW innerH (m_list m))
          (set_frame fw m))).

(** [case stateList], the key [enter]. *)
Definition list_enter `{Host} `{Widgets} (m : model) : M (model * Cmd) :=
  if negb (confirmIndex m =? -1) && (Index (m_list m) =? confirmIndex m) then
    if negb (String.eqb (git.Path (selected m)) "") then
      err <- git.RemoveWorktree (git.Path (selected m)) true ;;
      match err with
      | Some e => ret (restore_confirm m, NewStatusMessage MainList ("Error: " +:+ e))
      | None =>
          ret (set_confirmIndex (-1) m,
               Batch loadWorktrees
                 (NewStatusMessage MainList
                    ("Removed worktree " +:+ filepath_Base (git.Path (selected m)))))
      end
    else ret (m, CmdNil)
  else
    match SelectedItem (m_list m) with
    | Some it =>
        if isAdd it then ret (set_state stateAddPick m, loadBranches)
        else if negb (String.eqb (git.Path (wt it)) "") then
          match buildEditorCmd (git.Path (wt it)) with
          | inr e => ret (m, NewStatusMessage MainList ("No editor: " +:+ e))
          | inl c => ret (m, c)
          end
        else ret (m, CmdNil)
    | None => ret (m, CmdNil)
    end.

(** [case stateList], the key [d]. *)
Definition list_d `{Widgets} (m : model) : model * Cmd :=
  match SelectedItem (m_list m) with
  | Some it =>
      if isAdd it then (m, CmdNil)
      else if git.IsMain (wt it) then
        (m, NewStatusMessage MainList "Cannot delete main worktree")
      else
        let m1 := if negb (confirmIndex m =? -1) then restore_confirm m else m in
        let m2 := set_selected (wt it) m1 in
        let idx := Index (m_list m2) in
        let m3 := set_confirmPrev it (set_confirmIndex idx m2) in
        (set_list (SetItems (<[Z.to_nat idx := confirmItem it]> (Items (m_list m3)))
                            (m_list m3)) m3,
         CmdNil)
  | None => (m, CmdNil)
  end.

Definition update_list `{Host} `{Widgets} (k : string) (m : model) : M (model * Cmd) :=
  if String.eqb k "q" || String.eqb k "ctrl+c" then ret (m, Quit)
  else if String.eqb k "esc" then
    if negb (confirmIndex m =? -1) then ret (restore_confirm m, CmdNil)
    else ret (m, CmdNil)
  else if String.eqb k "r" then ret (set_confirmIndex (-1) m, loadWorktrees)
  else if String.eqb k "a" then ret (set_state stateAddPick m, loadBranches)
  else if String.eqb k "enter" then list_enter m
  else if String.eqb k "d" then ret (list_d m)
  else ret (set_list (fst (list_Update k (m_list m))) m, snd (list_Update k (m_list m))).

(** [case stateAddPick] while the new branch name is edited. *)
Definition update_editing `{Host} `{Widgets} (k : string) (m : model) : M (model * Cmd) :=
  if String.eqb k "esc" then
    ret (resetAddItemTitle (set_input (Blur (input m)) (set_editing false m)), CmdNil)
  else if String.eqb k "enter" then
    let branch := GoStrings.TrimSpace (Value (input m)) in
    if String.eqb branch "" then ret (m, CmdNil)
    else
      let path := git.DefaultWorktreeDir branch in
      err <- git.CreateWorktree branch path true ;;
      match err with
      | Some e => ret (m, NewStatusMessage BranchList ("Error: " +:+ e))
      | None =>
          ret (set_state stateList
                 (resetAddItemTitle (set_input (Blur (input m)) (set_editing false m))),
               Batch loadWorktrees
                 (NewStatusMessage MainList ("Created worktree " +:+ filepath_Base path)))
      end
  else
    let r := input_key k (input m) in
    ret (updateAddItemTitle (Value (fst r)) (set_input (fst r) m), snd r).

(** Entering the edit of a new branch name: the keys [n] and [enter] on the
    synthetic entry. *)
Definition start_editing `{Widgets} (select0 : bool) (m : model) : model :=
  match branchDel m with
  | Some _ =>
      let m1 := set_input (Focus (ClearValue (input m))) (set_editing true m) in
      let m2 := if select0 then set_branches (Select 0 (branches m1)) m1 else m1 in
      updateAddItemTitle "" m2
  | None => m
  end.

(** [case stateAddPick] while no name is edited. *)
Definition update_pick `{Host} `{Widgets} (k : string) (m : model) : M (model * Cmd) :=
  if String.eqb k "esc" then ret (set_state stateList m, CmdNil)
  else if String.eqb k "n" then ret (start_editing true m, CmdNil)
  else if String.eqb k "enter" then
    match SelectedItem (branches m) with
    | Some it =>
        if isAdd it then ret (start_editing false m, CmdNil)
        else
          let branchName := git.Name (br it) in
          let path := git.DefaultWorktreeDir branchName in
          err <- git.CreateWorktree branchName path false ;;
          match err with
          | Some e => ret (m, NewStatusMessage BranchList ("Error: " +:+ e))
          | None =>
              ret (set_state stateList m,
                   Batch loadWorktrees
                     (NewStatusMessage MainList ("Created worktree " +:+ filepath_Base path)))
          end
    | None => ret (m, CmdNil)
    end
  else ret (set_branches (fst (list_Update k (branches m))) m,
            snd (list_Update k (branches m))).

(** [case stateAddNewInput] *)
Definition update_newInput `{Host} `{Widgets} (k : string) (m : model) : M (model * Cmd) :=
  if String.eqb k "esc" then ret (set_state stateList m, CmdNil)
  else if String.eqb k "enter" then
    let branch := GoStrings.TrimSpace (Value (input m)) in
    if String.eqb branch "" then ret (m, CmdNil)
    else
      let path := git.DefaultWorktreeDir branch in
      err <- git.CreateWorktree branch path true ;;
      match err with
      | Some e => ret (set_state stateList m, NewStatusMessage MainList ("Error: " +:+ e))
      | None =>
          ret (set_state stateList m,
               Batch loadWorktrees
                 (NewStatusMessage MainList ("Created worktree " +:+ filepath_Base path)))
      end
  else ret (set_input (fst (input_key k (input m))) m, snd (input_key k (input m))).

(** [case stateConfirmDelete] *)
Definition update_confirmDelete `{Host} (k : string) (m : model) : M (model * Cmd) :=
  if String.eqb k "esc" then ret (set_state stateList m, CmdNil)
  else if String.eqb k "enter" then
    err <- git.RemoveWorktree (git.Path (selected m)) true ;;
    match err with
    | Some e => ret (set_state stateList m, NewStatusMessage MainList ("Error: " +:+ e))
    | None =>
        ret (set_state stateList m,
             Batch loadWorktrees
               (NewStatusMessage MainList
                  ("Removed worktree " +:+ filepath_Base (git.Path (selected m)))))
    end
  else ret (m, CmdNil).

Definition Update `{Host} `{Widgets} (msg : Msg) (m : model) : M (model * Cmd) :=
  match msg with
  | WindowSizeMsg w h => ret (on_WindowSize w h m, CmdNil)
  | editorDoneMsg _ => ret (m, Quit)
  | loadedWorktreesMsg wts err => ret (on_loadedWorktrees wts err m)
  | loadedBranchesMsg brs err => ret (on_loadedBranches brs err m)
  | KeyMsg k =>
      if String.eqb k "ctrl+c" then ret (m, Quit)
      else
        match m_state m with
        | stateList => update_list k m
        | stateAddPick => if is_editing m then update_editing k m else update_pick k m
        | stateAddNewInput => update_newInput k m
        | stateConfirmDelete => update_confirmDelete k m
        end
  | otherMsg => ret (m, CmdNil)
  end.

(** The states the program can be in: from [initialModel], by any message,
    whatever the outside world has answered so far. *)
Inductive reachable `{Host} `{Widgets} : model -> Prop :=
| reach_init : reachable initialModel
| reach_step (m : model) (msg : Msg) (t : Trace) :
    reachable m -> reachable (fst (fst (Update msg m t))).

(** A call of [git worktree remove]. *)
Definition is_removal (e : Event) : bool :=
  match e with
  | EvGit ("worktree" :: "remove" :: _) => true
  | _ => false
  end.

(** What holds of the confirmation in every state the program reaches: the
    worktree held for removal is not the primary one, the two modes of the
    older dialogs are never entered, and a pending confirmation points at
    the entry of the list that shows the worktree held for removal. *)
Definition confirm_ok (m : model) : Prop :=
  git.IsMain (selected m) = false /\
  (m_state m = stateList \/ m_state m = stateAddPick) /\
  (confirmIndex m <> -1 ->
   0 <= confirmIndex m < Z.of_nat (length (Items (m_list m))) /\
   exists it, Items (m_list m) !! Z.to_nat (confirmIndex m) = Some it /\
              wt it = selected m /\ isAdd it = false).

(** The state [d] starts from once a pending confirmation is put back. *)
Definition settled `{Widgets} (m : model) : model :=
  if negb (confirmIndex m =? -1) then restore_confirm m else m.

(** What a step adds to the trace: nothing, or what one [CreateWorktree]
    adds, or, on [enter] only, what [RemoveWorktree] adds for the worktree
    held for removal, the cursor being on the pending confirmation. *)
Definition step_trace `{Host} (msg : Msg) (m : model) (t t' : Trace) : Prop :=
  t' = t
  \/ (exists b p c, t' = snd (git.CreateWorktree b p c t))
  \/ (msg = KeyMsg "enter" /\
      t' = snd (git.RemoveWorktree (git.Path (selected m)) true t) /\
      ((m_state m = stateList /\ confirmIndex m <> -1 /\
        Index (m_list m) = confirmIndex m)
       \/ m_state m = stateConfirmDelete)).

(** A key passed through to the list of branches, and to the text input. *)
Definition pass_to_branches `{Widgets} (k : string) (m : model) : model * Cmd :=
  (set_branches (mkList (Items (branches m)) (fst (list_key k (branches m)))) m,
   snd (list_key k (branches m))).

Definition pass_to_input `{Widgets} (k : string) (m : model) : model * Cmd :=
  (updateAddItemTitle (Value (fst (input_key k (input m))))
     (set_input (fst (input_key k (input m))) m),
   snd (input_key k (input m))).

(** A list of entries that is empty, or starts with a synthetic entry
    which is its only one. *)
Definition head_add (l : list item) : Prop :=
  match l with
  | [] => True
  | it0 :: rest => isAdd it0 = true /\ Forall (fun it => isAdd it = false) rest
  end.

(** What holds of the two lists and of the editor of the name in every
    state the program reaches. *)
Definition shape_ok (m : model) : Prop :=
  branchDel m <> None /\
  (is_editing m = true -> m_state m = stateAddPick) /\
  head_add (Items (m_list m)) /\
  head_add (Items (branches m)) /\
  (confirmIndex m <> -1 -> isAdd (confirmPrev m) = false).

End tui.

(** ** A sample repository

    One concrete host and one concrete pair of widgets, on which the
    definitions above can be run. *)

Module Sample.

Definition lines (l : list string) : string := GoStrings.Join l nl +:+ nl.

Definition porcelain : string :=
  lines [ "worktree /w/repo"; "HEAD 1111"; "branch refs/heads/main"; "";
          "worktree /w/repo-b1"; "HEAD 2222"; "branch refs/heads/b1"; "locked";
          "";
          "worktree /w/repo-b2"; "HEAD 3333"; "detached";
          "" ].

Definition local_refs : string := lines [ "main|origin/main"; "b1|" ].

Definition remote_refs : string :=
  lines [ "origin/HEAD"; "origin/main"; "origin/release"; "fork/release" ].

(** A git that answers the three listings and accepts every mutation. *)
Definition git_ok (t : Trace) (args : list string) : ExecResult :=
  match args with
  | [ "worktree"; "list"; "--porcelain" ] => ExecOk porcelain
  | [ "for-each-ref"; _; _; "refs/heads" ] => ExecOk local_refs
  | [ "for-each-ref"; _; _; "refs/remotes" ] => ExecOk remote_refs
  | _ => ExecOk ""
  end.

(** A git that is not inside a repository: every call exits with 128. *)
Definition git_outside (t : Trace) (args : list string) : ExecResult :=
  ExecExit "exit status 128" "fatal: not a git repository".

(** A git whose query of the local refs fails while the other calls work. *)
Definition git_no_locals (t : Trace) (args : list string) : ExecResult :=
  match args with
  | [ "for-each-ref"; _; _; "refs/heads" ] =>
      ExecExit "exit status 128" "fatal: bad object"
  | _ => git_ok t args
  end.

(** Package [path/filepath] on a Unix host.  [clean_elems] walks the
    elements of a path between slashes, [stack] holding those kept so far,
    the last one first: empty elements and [.] are dropped, [..] takes
    back the element before it, is dropped at the root, and is kept at
    the start of a relative path. *)
Fixpoint clean_elems (rooted : bool) (stack elems : list string) : list string :=
  match elems with
  | [] => List.rev stack
  | e :: rest =>
      if String.eqb e "" || String.eqb e "." then clean_elems rooted stack rest
      else if String.eqb e ".." then
        match stack with
        | top :: below =>
            if String.eqb top ".." then clean_elems rooted (e :: stack) rest
            else clean_elems rooted below rest
        | [] => if rooted then clean_elems rooted [] rest
                else clean_elems rooted [e] rest
        end
      else clean_elems rooted (e :: stack) rest
  end.

(** [filepath.Clean(p)] *)
Definition clean (p : string) : string :=
  let rooted := GoStrings.HasPrefix p "/" in
  let body := GoStrings.Join (clean_elems rooted [] (GoStrings.Split p "/")) "/" in
  if rooted then "/" +:+ body
  else if String.eqb body "" then "." else body.

(** [filepath.Dir(p)]: the path up to its last slash, cleaned. *)
Definition dir_of (p : string) : string :=
  match GoStrings.cut "/" (GoStrings.rev p) with
  | Some (_, d) => clean (GoStrings.rev d +:+ "/")
  | None => "."
  end.

Fixpoint strip_slashes (s : string) : string :=
  match s with
  | String c r => if Ascii.eqb c "/" then strip_slashes r else s
  | EmptyString => EmptyString
  end.

(** [filepath.Base(p)]: the last element of the path, its trailing slashes
    left out; [.] for the empty path and [/] for a path of slashes. *)
Definition base_of (p : string) : string :=
  if String.eqb p "" then "."
  else
    let r := strip_slashes (GoStrings.rev p) in
    let b := match GoStrings.cut "/" r with
             | Some (b, _) => GoStrings.rev b
             | None => GoStrings.rev r
             end in
    if String.eqb b "" then "/" else b.

(** [filepath.Join(a, b)]: the elements from the first one that is not
    empty on, joined by slashes and cleaned. *)
Definition join2 (a b : string) : string :=
  if negb (String.eqb a "") then clean (a +:+ "/" +:+ b)
  else if negb (String.eqb b "") then clean b
  else "".

Definition host_with (g : Trace -> list string -> ExecResult) : Host :=
  {| exec_git := g;
     os_MkdirAll := fun _ _ => None;
     os_Getwd := Some "/w/repo";
     os_Getenv := fun v => if String.eqb v "EDITOR" then "vi" else "";
     filepath_Dir := dir_of;
     filepath_Base := base_of;
     filepath_Join := join2 |}.

Definition host : Host := host_with git_ok.

(** A host whose git prints two branches, the current one marked. *)
Definition host_branches : Host :=
  host_with (fun _ _ => ExecOk ("* main" +:+ nl +:+ "  b1" +:+ nl +:+ nl)).

(** A host on which no directory can be made. *)
Definition host_readonly : Host :=
  {| exec_git := git_ok;
     os_MkdirAll := fun _ _ => Some "mkdir /w: read-only";
     os_Getwd := Some "/w/repo";
     os_Getenv := fun _ => "";
     filepath_Dir := dir_of;
     filepath_Base := base_of;
     filepath_Join := join2 |}.

(** The byte [c], [n] times. *)
Definition copies (n : N) (c : ascii) : string := N.iter n (String c) "".

(** A listing of two worktrees, the first one locked with a reason that
    makes a line of 65536 bytes. *)
Definition long_porcelain : string :=
  lines [ "worktree /a"; "HEAD 1111"; "locked " +:+ copies 65529 "x"; "";
          "worktree /b"; "HEAD 2222"; "" ].

(** The same listing, the line of the reason one byte shorter. *)
Definition fitting_porcelain : string :=
  lines [ "worktree /a"; "HEAD 1111"; "locked " +:+ copies 65528 "x"; "";
          "worktree /b"; "HEAD 2222"; "" ].

(** A host whose git prints [out], whatever it is asked. *)
Definition host_listing (out : string) : Host := host_with (fun _ _ => ExecOk out).

(** A git with the local branches [a|b] and [a], neither tracking
    anything, and the remote branch [origin/a]. *)
Definition git_bar (t : Trace) (args : list string) : ExecResult :=
  match args with
  | [ "for-each-ref"; _; _; "refs/heads" ] => ExecOk (git.refs_text [("a|b", ""); ("a", "")])
  | [ "for-each-ref"; _; _; "refs/remotes" ] => ExecOk (lines ["origin/a"])
  | _ => ExecOk ""
  end.

(** The widgets as the program sets them up: the lists keep the quit keys
    of their default key map ([q] and [esc], and [ctrl+c] to force it),
    on which [list.Model.Update] answers [tea.Quit]; the cursor moves
    down on [j] and up on [k]; the text input appends a printable key. *)
Definition widgets : tui.Widgets :=
  {| tui.list_key := fun k l =>
       if String.eqb k "q" || String.eqb k "esc" || String.eqb k "ctrl+c"
       then (tui.Index l, tui.Quit)
       else
         (if String.eqb k "j" then
            Z.min (tui.Index l + 1) (Z.of_nat (length (tui.Items l)) - 1)
          else if String.eqb k "k" then Z.max (tui.Index l - 1) 0
          else tui.Index l, tui.CmdNil);
     tui.list_resized := fun _ _ l => tui.Index l;
     tui.list_reindex := fun _ _ => 0;
     tui.input_key := fun k i =>
       (tui.mkInput (tui.Value i +:+ k) (tui.Focused i) (tui.Width i), tui.CmdNil);
     tui.Render := fun _ s => s |}.

(** Run a sequence of messages from a model, on an empty trace each. *)
Definition run (H : Host) (msgs : list tui.Msg) (m : tui.model) : tui.model :=
  fold_left (fun m msg => fst (fst (@tui.Update H widgets msg m []))) msgs m.

(** The list after the worktrees of [porcelain] are loaded. *)
Definition listing : tui.model :=
  run host [fst (@tui.run_loadWorktrees host [])] tui.initialModel.

(** The branch picker after the branches are loaded, the cursor on the
    remote branch [release]. *)
Definition picking : tui.model :=
  run host [tui.KeyMsg "a"; fst (@tui.run_loadBranches host []);
            tui.KeyMsg "j"; tui.KeyMsg "j"; tui.KeyMsg "j"] listing.

(** The list with the cursor on the second worktree. *)
Definition on_b1 : tui.model :=
  run host [tui.KeyMsg "j"; tui.KeyMsg "j"] listing.

(** The same, the removal of the second worktree waiting for its answer. *)
Definition confirming : tui.model := run host [tui.KeyMsg "d"] on_b1.

(** The same, the cursor moved on to the third worktree. *)
Definition on_b2 : tui.model := run host [tui.KeyMsg "j"] confirming.

(** The list with the cursor on the primary worktree. *)
Definition on_main : tui.model := run host [tui.KeyMsg "j"] listing.

(** The branch picker, the name of a new branch being edited and empty. *)
Definition editing_empty : tui.model :=
  run host [tui.KeyMsg "a"; fst (@tui.run_loadBranches host []); tui.KeyMsg "n"] listing.

(** The entry of the remote branch [release] in the branch picker. *)
Definition release_item : tui.item :=
  tui.mkItem "release" "" git.Worktree_zero false
    (git.mkBranch "release" true "origin" "origin/release" false "" "").

(** The entry of the second worktree in the list. *)
Definition b1_item : tui.item :=
  tui.mkItem "repo-b1" "Branch: b1  Path: /w/repo-b1"
    (git.mkWorktree "/w/repo-b1" "refs/heads/b1" "2222" false) false git.Branch_zero.

(** The branch picker with [feature-x] typed as the name of a new branch. *)
Definition typed : tui.model :=
  run host [tui.KeyMsg "a"; fst (@tui.run_loadBranches host []); tui.KeyMsg "n";
            tui.KeyMsg " "; tui.KeyMsg "feature-x"; tui.KeyMsg " "] listing.

End Sample.

(** * Properties *)

Example TrimSpace_ex :
  GoStrings.TrimSpace (" " +:+ nl +:+ "feature-x  " +:+ GoStrings.of_bytes [194; 160]%nat)
  = "feature-x".
Proof. reflexivity. Qed.

Example SplitN_ex : GoStrings.SplitN "origin/feature/x" "/" 2 = ["origin"; "feature/x"].
Proof. reflexivity. Qed.

Example Split_ex : GoStrings.Split ("a" +:+ nl +:+ nl +:+ "b") LF = ["a"; ""; "b"].
Proof. reflexivity. Qed.


(** ** The monad and the trace *)

Lemma events_runGit `{Host} (args : list string) (t : Trace) :
  events (git.runGit args) t = [EvGit args].
Proof.
  unfold events, git.runGit; simpl.
  rewrite drop_app_length. reflexivity.
Qed.

Lemma runGit_trace `{Host} (args : list string) (t : Trace) :
  snd (git.runGit args t) = (t ++ [EvGit args])%list.
Proof. reflexivity. Qed.

Lemma runGit_result `{Host} (args : list string) (t : Trace) :
  fst (git.runGit args t) =
  match exec_git t args with
  | ExecOk out => (out, None)
  | ExecExit e stderr => ("", Some (git.git_failed args e stderr))
  | ExecErr e => ("", Some e)
  end.
Proof. reflexivity. Qed.

(** ** [ListWorktrees] *)

Section Worktrees.

Import git.

Lemma wt_line_flush (st : wt_loop) (line : string) :
  length (wt_flush (wt_line st line)) =
  (length (wt_flush st) + (if opens_block line then 1 else 0))%nat.
Proof.
  unfold wt_line, opens_block, wt_flush.
  destruct (GoStrings.HasPrefix line "worktree ") eqn:Hw; simpl.
  - rewrite length_app. reflexivity.
  - rewrite Nat.add_0_r.
    destruct (GoStrings.HasPrefix line "branch ");
      [cbn [wts wt inBlock]; destruct (inBlock st); rewrite ?length_app; reflexivity|].
    destruct (GoStrings.HasPrefix line "HEAD "); [|reflexivity].
    cbn [wts wt inBlock]; destruct (inBlock st); rewrite ?length_app; reflexivity.
Qed.

Lemma fold_flush (lines : list string) (st : wt_loop) :
  length (wt_flush (fold_left wt_line lines st)) =
  (length (wt_flush st) + nblocks lines)%nat.
Proof.
  revert st. induction lines as [|l lines IH]; intros st; simpl.
  - unfold nblocks. simpl. lia.
  - rewrite IH, wt_line_flush. unfold nblocks. simpl.
    destruct (opens_block l); simpl; lia.
Qed.

Lemma mark_main_length (l : list Worktree) : length (mark_main l) = length l.
Proof. destruct l; simpl; [reflexivity|]. rewrite length_map. reflexivity. Qed.

Lemma mark_main_flags (l : list Worktree) :
  map IsMain (mark_main l) =
  match length l with
  | O => []
  | S n => true :: replicate n false
  end.
Proof.
  destruct l as [|w r]; simpl; [reflexivity|]. f_equal.
  induction r as [|x r IH]; simpl; [reflexivity|]. f_equal. exact IH.
Qed.

Lemma wt_line_unrecognized (st : wt_loop) (line : string) :
  recognized line = false -> wt_line st line = st.
Proof.
  unfold recognized, wt_line. intros Hr.
  apply orb_false_iff in Hr as [Hr Hh]. apply orb_false_iff in Hr as [Hw Hb].
  rewrite Hw, Hb, Hh. reflexivity.
Qed.

Lemma fold_recognized (lines : list string) (st : wt_loop) :
  fold_left wt_line (List.filter recognized lines) st = fold_left wt_line lines st.
Proof.
  revert st. induction lines as [|l lines IH]; intros st; simpl; [reflexivity|].
  destruct (recognized l) eqn:Hr; simpl.
  - apply IH.
  - rewrite (wt_line_unrecognized st l Hr). apply IH.
Qed.

Lemma parse_lines_length (lines : list string) :
  length (parse_lines lines) = nblocks lines.
Proof. unfold parse_lines. rewrite mark_main_length, fold_flush. reflexivity. Qed.

Lemma ListWorktrees_ok `{Host} (t : Trace) (out : string) :
  exec_git t worktree_list_args = ExecOk out ->
  ListWorktrees t = ((parse_worktrees out, None), (t ++ [EvGit worktree_list_args])%list).
Proof.
  intros E. unfold ListWorktrees, bind, runGit. rewrite E. reflexivity.
Qed.

End Worktrees.

(** ** [ListBranchesDetailed] *)

Section Branches.

Import git.

Lemma seen_get_insert (seen : gmap string bool) (n k : string) :
  seen_get (<[n := true]> seen) k = if decide (n = k) then true else seen_get seen k.
Proof.
  unfold seen_get. destruct (decide (n = k)) as [->|Hne].
  - rewrite lookup_insert_eq. reflexivity.
  - rewrite lookup_insert_ne by exact Hne. reflexivity.
Qed.

Lemma names_seen_push (st : br_loop) (b : Branch) :
  names_seen st -> names_seen ((fst st ++ [b])%list, <[Name b := true]> (snd st)).
Proof.
  intros Hs x Hx. simpl in *. rewrite seen_get_insert.
  destruct (decide (Name b = Name x)); [reflexivity|].
  apply elem_of_app in Hx as [Hx|Hx]; [apply Hs, Hx|].
  apply list_elem_of_singleton in Hx. subst x. congruence.
Qed.

Lemma names_seen_fresh (st : br_loop) (n : string) :
  names_seen st -> seen_get (snd st) n = false -> n ∉ map Name (fst st).
Proof.
  intros Hs Hn Hin. apply list_elem_of_fmap in Hin as (b & -> & Hb).
  rewrite (Hs b Hb) in Hn. discriminate.
Qed.

(** A round of the first loop adds at most one entry, a local one. *)
Lemma local_line_spec (st : br_loop) (l : string) :
  local_line st l = st \/
  exists b, is_local b /\
            local_line st l = ((fst st ++ [b])%list, <[Name b := true]> (snd st)).
Proof.
  unfold local_line.
  destruct (String.eqb (GoStrings.TrimSpace l) ""); [left; reflexivity|].
  right. cbv zeta.
  destruct (String.eqb (if GoStrings.Contains _ _ then _ else "") "");
    match goal with
    | |- exists b, _ /\ ((_ ++ [?x])%list, _) = _ => exists x
    end; (split; [|reflexivity]); split; reflexivity.
Qed.

Lemma local_fold (lines : list string) (st : br_loop) :
  names_seen st -> Forall is_local (fst st) ->
  names_seen (fold_left local_line lines st) /\
  Forall is_local (fst (fold_left local_line lines st)).
Proof.
  revert st. induction lines as [|l lines IH]; intros st Hs Hl; simpl; [auto|].
  destruct (local_line_spec st l) as [->|(b & Hb & ->)]; [auto|].
  apply IH.
  - apply names_seen_push, Hs.
  - simpl. apply Forall_app. split; [exact Hl|]. constructor; [exact Hb|constructor].
Qed.

(** A round of the second loop adds at most one entry: a remote one, whose
    ref does not end in [/HEAD] and whose short name was not seen. *)
Lemma remote_line_spec (st : br_loop) (l : string) :
  remote_line st l = st \/
  exists b, is_remote b /\ seen_get (snd st) (Name b) = false /\
            remote_line st l = ((fst st ++ [b])%list, <[Name b := true]> (snd st)).
Proof.
  unfold remote_line.
  destruct (String.eqb (GoStrings.TrimSpace l) ""); [left; reflexivity|].
  destruct (GoStrings.HasSuffix (GoStrings.TrimSpace l) "/HEAD") eqn:Hh; [left; reflexivity|].
  cbv zeta.
  destruct (negb _); [left; reflexivity|].
  destruct (seen_get _ _) eqn:Hseen; [left; reflexivity|].
  right.
  match goal with
  | |- exists b, _ /\ _ /\ ((_ ++ [?x])%list, _) = _ => exists x
  end.
  split; [|split; [|reflexivity]].
  - split; [reflexivity|exact Hh].
  - exact Hseen.
Qed.

Lemma remote_fold (lines : list string) (st : br_loop) :
  names_seen st ->
  exists R,
    fst (fold_left remote_line lines st) = (fst st ++ R)%list /\
    Forall is_remote R /\
    NoDup (map Name R) /\
    (forall b, b ∈ R -> Name b ∉ map Name (fst st)).
Proof.
  revert st. induction lines as [|l lines IH]; intros st Hs; simpl.
  - exists []. rewrite app_nil_r. repeat split; try constructor.
    intros b Hb. inversion Hb.
  - destruct (remote_line_spec st l) as [->|(b & Hb & Hfresh & ->)]; [apply IH, Hs|].
    destruct (IH _ (names_seen_push st b Hs)) as (R & HR & Hrem & Hnd & Hdis).
    simpl in HR, Hdis.
    exists (b :: R). split; [rewrite HR, <- app_assoc; reflexivity|].
    split; [constructor; assumption|]. split.
    + simpl. constructor; [|exact Hnd].
      intros Hin. apply list_elem_of_fmap in Hin as (x & Hx & HxR).
      apply (Hdis x HxR). rewrite map_app. apply elem_of_app. right.
      simpl. rewrite Hx. apply list_elem_of_here.
    + intros x Hx. apply elem_of_cons in Hx as [->|Hx].
      * apply names_seen_fresh; assumption.
      * intros Hin. apply (Hdis x Hx). rewrite map_app. apply elem_of_app. left. exact Hin.
Qed.

Lemma local_phase_spec (rl : string * error) :
  names_seen (local_phase rl) /\ Forall is_local (fst (local_phase rl)).
Proof.
  unfold local_phase.
  assert (names_seen (([], ∅) : br_loop)) as H0 by (intros b Hb; inversion Hb).
  destruct (snd rl); [split; [exact H0|constructor]|].
  apply local_fold; [exact H0|constructor].
Qed.

Lemma remote_phase_spec (rr : string * error) (st : br_loop) :
  names_seen st ->
  exists R,
    fst (remote_phase rr st) = (fst st ++ R)%list /\
    Forall is_remote R /\
    NoDup (map Name R) /\
    (forall b, b ∈ R -> Name b ∉ map Name (fst st)).
Proof.
  intros Hs. unfold remote_phase. destruct (snd rr); [|apply remote_fold, Hs].
  exists []. rewrite app_nil_r. repeat split; try constructor.
  intros b Hb. inversion Hb.
Qed.

Lemma ListBranchesDetailed_eq `{Host} (t : Trace) :
  ListBranchesDetailed t =
  ((merge_branches (local_answer t) (remote_answer t), None),
   (t ++ [EvGit local_refs_args; EvGit remote_refs_args])%list).
Proof.
  unfold ListBranchesDetailed, bind, ret, local_answer, remote_answer, runGit. simpl.
  rewrite <- app_assoc. reflexivity.
Qed.

Lemma filter_name_none (n : string) (R : list Branch) :
  n ∉ map Name R -> List.filter (fun b => String.eqb (Name b) n) R = [].
Proof.
  induction R as [|b R IH]; intros Hn; simpl; [reflexivity|].
  destruct (String.eqb (Name b) n) eqn:E.
  - exfalso. apply Hn. apply String.eqb_eq in E. subst n. simpl. apply list_elem_of_here.
  - apply IH. intros Hin. apply Hn. simpl. apply list_elem_of_further, Hin.
Qed.

(** C5. No entry of the listing holds a remote ref that ends in [/HEAD]. *)
Theorem ListBranchesDetailed_no_HEAD `{Host} (t : Trace) (b : Branch) :
  b ∈ fst (fst (ListBranchesDetailed t)) ->
  GoStrings.HasSuffix (RemoteRef b) "/HEAD" = false.
Proof.
  rewrite ListBranchesDetailed_eq. simpl. unfold merge_branches.
  destruct (local_phase_spec (local_answer t)) as [Hs Hl].
  destruct (remote_phase_spec (remote_answer t) _ Hs) as (R & HR & Hrem & _).
  rewrite HR. intros Hb. apply elem_of_app in Hb as [Hb|Hb].
  - rewrite Forall_forall in Hl. destruct (Hl b Hb) as [_ ->]. reflexivity.
  - rewrite Forall_forall in Hrem. apply (Hrem b Hb).
Qed.

(** C2, as the code has it.  [ListWorktrees] calls git once; when git exits
    with a failure it returns no record and an error that echoes the
    arguments and the text git wrote to its standard error.
    [ListBranchesDetailed] makes each of its two queries once and never
    returns an error: a query that fails adds no entry, and the entries of
    the other query are returned. *)
Theorem extractor_failure_modes `{Host} (t : Trace) :
  (events ListWorktrees t = [EvGit worktree_list_args] /\
   forall e stderr,
     exec_git t worktree_list_args = ExecExit e stderr ->
     fst (ListWorktrees t) = ([], Some (git_failed worktree_list_args e stderr))) /\
  (events ListBranchesDetailed t = [EvGit local_refs_args; EvGit remote_refs_args] /\
   snd (fst (ListBranchesDetailed t)) = None /\
   (forall e stderr,
      exec_git t local_refs_args = ExecExit e stderr ->
      fst (fst (ListBranchesDetailed t)) = fst (remote_phase (remote_answer t) ([], ∅))) /\
   (forall e stderr,
      exec_git (t ++ [EvGit local_refs_args])%list remote_refs_args = ExecExit e stderr ->
      fst (fst (ListBranchesDetailed t)) = fst (local_phase (local_answer t)))).
Proof.
  split; [split|split; [|split; [|split]]].
  - unfold events, ListWorktrees, bind, runGit.
    destruct (exec_git t worktree_list_args); simpl; rewrite drop_app_length; reflexivity.
  - intros e stderr E. unfold ListWorktrees, bind, runGit. rewrite E. reflexivity.
  - unfold events. rewrite ListBranchesDetailed_eq. simpl. apply drop_app_length.
  - rewrite ListBranchesDetailed_eq. reflexivity.
  - intros e stderr E. rewrite ListBranchesDetailed_eq. simpl.
    unfold merge_branches, local_phase, local_answer. rewrite runGit_result, E. reflexivity.
  - intros e stderr E. rewrite ListBranchesDetailed_eq. simpl.
    unfold merge_branches, remote_phase, remote_answer. rewrite runGit_result, E. reflexivity.
Qed.

End Branches.

Lemma ListBranchesDetailed_no_HEAD_witness :
  GoStrings.HasSuffix "origin/release" "/HEAD" = false.
Proof.
  apply (@ListBranchesDetailed_no_HEAD Sample.host []
           (git.mkBranch "release" true "origin" "origin/release" false "" "")).
  assert (fst (fst (@git.ListBranchesDetailed Sample.host [])) =
          [git.mkBranch "main" false "" "" true "origin/main" "origin";
           git.mkBranch "b1" false "" "" false "" "";
           git.mkBranch "release" true "origin" "origin/release" false "" ""]) as E
    by (vm_compute; reflexivity).
  rewrite E, !elem_of_cons. auto.
Defined.

(** With a git that is outside a repository, [ListWorktrees] fails with the
    arguments and the text of the standard error in the message. *)
Lemma extractor_failure_modes_witness :
  fst (@git.ListWorktrees (Sample.host_with Sample.git_outside) []) =
  ([], Some ("git [worktree list --porcelain] failed: exit status 128" +:+ nl
             +:+ "fatal: not a git repository")).
Proof.
  apply (proj2 (proj1 (@extractor_failure_modes (Sample.host_with Sample.git_outside) []))
           "exit status 128" "fatal: not a git repository").
  reflexivity.
Defined.

(** C2 as stated fails for [ListBranchesDetailed]: the query of the local
    refs exits with a failure, and the call returns the remote entries
    and no error. *)
Lemma ListBranchesDetailed_hides_failure :
  let H := Sample.host_with Sample.git_no_locals in
  exec_git [] git.local_refs_args = ExecExit "exit status 128" "fatal: bad object" /\
  fst (git.ListBranchesDetailed []) =
    ([git.mkBranch "main" true "origin" "origin/main" false "" "";
      git.mkBranch "release" true "origin" "origin/release" false "" ""], None) /\
  snd (fst (git.ListBranchesDetailed [])) <>
    Some (git.git_failed git.local_refs_args "exit status 128" "fatal: bad object").
Proof.
  split; [reflexivity|]. split; [reflexivity|]. discriminate.
Qed.

(** ** The mutation operations and the trace *)

Section Mutations.

Import git.

Context `{Host}.

Lemma events_of_snd {A : Type} (c : M A) (t evs : Trace) :
  snd (c t) = (t ++ evs)%list -> events c t = evs.
Proof. unfold events. intros ->. apply drop_app_length. Qed.

Lemma CreateWorktree_trace (branch targetDir : string) (createBranch : bool) (t : Trace) :
  snd (CreateWorktree branch targetDir createBranch t) = t
  \/ snd (CreateWorktree branch targetDir createBranch t) =
     (t ++ [EvMkdirAll (filepath_Dir targetDir)])%list
  \/ snd (CreateWorktree branch targetDir createBranch t) =
     (t ++ [EvMkdirAll (filepath_Dir targetDir);
            EvGit (create_args branch targetDir createBranch)])%list.
Proof.
  unfold CreateWorktree.
  destruct (String.eqb branch "" || String.eqb targetDir ""); [left; reflexivity|].
  right. unfold bind, MkdirAll, ret.
  destruct (os_MkdirAll t (filepath_Dir targetDir)); [left; reflexivity|].
  right. unfold runGit, create_args. simpl. rewrite <- app_assoc.
  destruct createBranch; reflexivity.
Qed.

Lemma CreateWorktree_events (branch targetDir : string) (createBranch : bool) (t : Trace) :
  forall e, e ∈ events (CreateWorktree branch targetDir createBranch) t ->
    e = EvMkdirAll (filepath_Dir targetDir)
    \/ e = EvGit (create_args branch targetDir createBranch).
Proof.
  intros e.
  destruct (CreateWorktree_trace branch targetDir createBranch t) as [E|[E|E]].
  - rewrite (events_of_snd _ t []) by (rewrite app_nil_r; exact E). inversion 1.
  - rewrite (events_of_snd _ t _ E), list_elem_of_singleton. auto.
  - rewrite (events_of_snd _ t _ E), !elem_of_cons. intros [->|[->|He]]; auto. inversion He.
Qed.

Lemma CreateWorktree_ok (branch targetDir : string) (createBranch : bool) (t : Trace) :
  branch <> "" -> targetDir <> "" -> os_MkdirAll t (filepath_Dir targetDir) = None ->
  events (CreateWorktree branch targetDir createBranch) t =
  [EvMkdirAll (filepath_Dir targetDir); EvGit (create_args branch targetDir createBranch)].
Proof.
  intros Hb Hd Hm. apply events_of_snd. unfold CreateWorktree.
  apply String.eqb_neq in Hb, Hd. rewrite Hb, Hd. simpl.
  unfold bind, MkdirAll, ret. rewrite Hm. unfold runGit, create_args. simpl.
  rewrite <- app_assoc. destruct createBranch; reflexivity.
Qed.

Lemma RemoveWorktree_trace (path : string) (t : Trace) :
  snd (RemoveWorktree path true t) = t
  \/ snd (RemoveWorktree path true t) =
     (t ++ [EvGit ["worktree"; "remove"; "--force"; path]])%list.
Proof.
  unfold RemoveWorktree. destruct (String.eqb path ""); [left; reflexivity|].
  right. reflexivity.
Qed.

End Mutations.

(** ** The state machine *)

(** Decide the comparisons of two string literals. *)
Ltac eqb_lit :=
  repeat match goal with
    | |- context [String.eqb ?a ?b] =>
        let v := eval vm_compute in (String.eqb a b) in
        match v with
        | true => change (String.eqb a b) with true
        | false => change (String.eqb a b) with false
        end
    end;
  cbn [orb andb negb].

Section Machine.

Import tui.

Context `{Host} `{Widgets}.

Lemma Update_key (k : string) (m : model) :
  String.eqb k "ctrl+c" = false ->
  Update (KeyMsg k) m =
  match m_state m with
  | stateList => update_list k m
  | stateAddPick => if is_editing m then update_editing k m else update_pick k m
  | stateAddNewInput => update_newInput k m
  | stateConfirmDelete => update_confirmDelete k m
  end.
Proof. intros E. unfold Update. rewrite E. reflexivity. Qed.

Lemma Update_pick_enter (m : model) (t : Trace) (it : item) :
  m_state m = stateAddPick -> is_editing m = false ->
  SelectedItem (branches m) = Some it -> isAdd it = false ->
  Update (KeyMsg "enter") m t =
  let path := git.DefaultWorktreeDir (git.Name (br it)) in
  let r := git.CreateWorktree (git.Name (br it)) path false t in
  (match fst r with
   | None =>
       (set_state stateList m,
        Batch loadWorktrees
          (NewStatusMessage MainList ("Created worktree " +:+ filepath_Base path)))
   | Some e => (m, NewStatusMessage BranchList ("Error: " +:+ e))
   end, snd r).
Proof.
  intros Hst Hed Hsel Hadd. rewrite Update_key by reflexivity.
  rewrite Hst, Hed. unfold update_pick. eqb_lit. rewrite Hsel, Hadd.
  unfold bind. cbv zeta.
  destruct (git.CreateWorktree _ _ false t) as [[e|] t']; reflexivity.
Qed.

(** C1, as the code has it.  In the branch picker, no name being edited,
    [enter] on a branch entry, remote or local, calls
    [CreateWorktree(name, DefaultWorktreeDir(name), false)] with the short
    name of the branch: the only call of git it can make is
    [git worktree add <dir> <name>].  When the call succeeds the machine
    returns to the list with a refresh and a notice; when it fails the
    machine shows the error and stays in the picker. *)
Theorem pick_enter_uses_short_name (m : model) (t : Trace) (it : item) :
  m_state m = stateAddPick -> is_editing m = false ->
  SelectedItem (branches m) = Some it -> isAdd it = false ->
  let name := git.Name (br it) in
  let path := git.DefaultWorktreeDir name in
  let r := git.CreateWorktree name path false t in
  Update (KeyMsg "enter") m t =
    (match fst r with
     | None =>
         (set_state stateList m,
          Batch loadWorktrees
            (NewStatusMessage MainList ("Created worktree " +:+ filepath_Base path)))
     | Some e => (m, NewStatusMessage BranchList ("Error: " +:+ e))
     end, snd r) /\
  (forall args, EvGit args ∈ events (Update (KeyMsg "enter") m) t ->
                args = ["worktree"; "add"; path; name]) /\
  (name <> "" -> path <> "" -> os_MkdirAll t (filepath_Dir path) = None ->
   events (Update (KeyMsg "enter") m) t =
   [EvMkdirAll (filepath_Dir path); EvGit ["worktree"; "add"; path; name]]).
Proof.
  intros Hst Hed Hsel Hadd name path r.
  pose proof (Update_pick_enter m t it Hst Hed Hsel Hadd) as E. cbv zeta in E.
  fold name path in E. fold r in E.
  assert (events (Update (KeyMsg "enter") m) t = events (git.CreateWorktree name path false) t)
    as Ev by (unfold events; rewrite E; reflexivity).
  split; [exact E|]. split.
  - intros args Hin. rewrite Ev in Hin.
    apply CreateWorktree_events in Hin as [Hin|Hin]; [discriminate|].
    injection Hin as ->. reflexivity.
  - intros Hn Hp Hm. rewrite Ev. apply CreateWorktree_ok; assumption.
Qed.

Lemma Update_editing_enter (m : model) (t : Trace) :
  m_state m = stateAddPick -> is_editing m = true ->
  Update (KeyMsg "enter") m t =
  let branch := GoStrings.TrimSpace (Value (input m)) in
  if String.eqb branch "" then ((m, CmdNil), t)
  else
    let path := git.DefaultWorktreeDir branch in
    let r := git.CreateWorktree branch path true t in
    (match fst r with
     | None =>
         (set_state stateList
            (resetAddItemTitle (set_input (Blur (input m)) (set_editing false m))),
          Batch loadWorktrees
            (NewStatusMessage MainList ("Created worktree " +:+ filepath_Base path)))
     | Some e => (m, NewStatusMessage BranchList ("Error: " +:+ e))
     end, snd r).
Proof.
  intros Hst Hed. rewrite Update_key by reflexivity.
  rewrite Hst, Hed. unfold update_editing. eqb_lit. cbv zeta.
  destruct (String.eqb (GoStrings.TrimSpace (Value (input m))) ""); [reflexivity|].
  unfold bind.
  destruct (git.CreateWorktree _ _ true t) as [[e|] t']; reflexivity.
Qed.

(** C6. While a new branch name is edited, [enter] with a buffer that
    trims to a non-empty name [b] (such as [feature-x]) calls
    [CreateWorktree(b, DefaultWorktreeDir(b), true)]: the only call of git
    is [git worktree add -b b <dir>], and with the working directory
    [cwd] the directory is the parent of [cwd] joined with
    [<base of cwd>-b].  With a buffer that trims to nothing, [enter]
    calls nothing and changes nothing. *)
Theorem editing_enter_creates_branch (m : model) (t : Trace) (b : string) :
  m_state m = stateAddPick -> is_editing m = true ->
  GoStrings.TrimSpace (Value (input m)) = b ->
  (b <> "" ->
   let path := git.DefaultWorktreeDir b in
   let r := git.CreateWorktree b path true t in
   Update (KeyMsg "enter") m t =
     (match fst r with
      | None =>
          (set_state stateList
             (resetAddItemTitle (set_input (Blur (input m)) (set_editing false m))),
           Batch loadWorktrees
             (NewStatusMessage MainList ("Created worktree " +:+ filepath_Base path)))
      | Some e => (m, NewStatusMessage BranchList ("Error: " +:+ e))
      end, snd r) /\
   (forall args, EvGit args ∈ events (Update (KeyMsg "enter") m) t ->
                 args = ["worktree"; "add"; "-b"; b; path]) /\
   (forall cwd, os_Getwd = Some cwd ->
                path = filepath_Join (filepath_Dir cwd) (filepath_Base cwd +:+ "-" +:+ b))) /\
  (b = "" -> Update (KeyMsg "enter") m t = ((m, CmdNil), t)).
Proof.
  intros Hst Hed Hb.
  pose proof (Update_editing_enter m t Hst Hed) as E. cbv zeta in E. rewrite Hb in E.
  split.
  - intros Hne path r. apply String.eqb_neq in Hne. rewrite Hne in E.
    fold path in E. fold r in E.
    split; [exact E|]. split.
    + intros args Hin.
      assert (events (Update (KeyMsg "enter") m) t = events (git.CreateWorktree b path true) t)
        as Ev by (unfold events; rewrite E; reflexivity).
      rewrite Ev in Hin. apply CreateWorktree_events in Hin as [Hin|Hin]; [discriminate|].
      injection Hin as ->. reflexivity.
    + intros cwd Hcwd. unfold path, git.DefaultWorktreeDir. rewrite Hcwd. reflexivity.
  - intros ->. exact E.
Qed.

(** C10, as the code has it.  In the list, [q] ends the program as
    [ctrl+c] does.  In the branch picker the machine has no case for [q]:
    the key is passed to the list of branches, as every key is that the
    picker has no case for; the mode and the entries stay, and the command
    is the one the list answers, so that [q] ends the program there
    exactly when the list answers [tea.Quit] to it.  While a name is
    edited [q] is passed to the text input, as every key is that the
    editor has no case for: the mode stays, the buffer is the one the
    input answers, and so is the command. *)
Theorem q_by_mode (m : model) (t : Trace) :
  (m_state m = stateList ->
   Update (KeyMsg "q") m t = ((m, Quit), t) /\
   Update (KeyMsg "q") m t = Update (KeyMsg "ctrl+c") m t) /\
  (m_state m = stateAddPick -> is_editing m = false ->
   Update (KeyMsg "q") m t = (pass_to_branches "q" m, t) /\
   m_state (fst (pass_to_branches "q" m)) = stateAddPick /\
   Items (branches (fst (pass_to_branches "q" m))) = Items (branches m) /\
   snd (fst (Update (KeyMsg "q") m t)) = snd (list_key "q" (branches m)) /\
   (snd (fst (Update (KeyMsg "q") m t)) = Quit <-> snd (list_key "q" (branches m)) = Quit) /\
   forall k, k ∉ ["ctrl+c"; "esc"; "n"; "enter"] ->
             Update (KeyMsg k) m t = (pass_to_branches k m, t)) /\
  (m_state m = stateAddPick -> is_editing m = true ->
   Update (KeyMsg "q") m t = (pass_to_input "q" m, t) /\
   m_state (fst (pass_to_input "q" m)) = stateAddPick /\
   Value (input (fst (pass_to_input "q" m))) = Value (fst (input_key "q" (input m))) /\
   snd (fst (Update (KeyMsg "q") m t)) = snd (input_key "q" (input m)) /\
   forall k, k ∉ ["ctrl+c"; "esc"; "enter"] ->
             Update (KeyMsg k) m t = (pass_to_input k m, t)).
Proof.
  split; [|split].
  - intros Hst. split; [|rewrite Update_key by reflexivity]; unfold Update; eqb_lit;
      rewrite ?Hst; unfold update_list; eqb_lit; reflexivity.
  - intros Hst Hed.
    assert (forall k, k ∉ ["ctrl+c"; "esc"; "n"; "enter"] ->
                      Update (KeyMsg k) m t = (pass_to_branches k m, t)) as Hk.
    { intros k Hk. rewrite !not_elem_of_cons in Hk. destruct Hk as (Hc & He & Hn & Hen & _).
      apply String.eqb_neq in Hc, He, Hn, Hen.
      rewrite Update_key by exact Hc. rewrite Hst, Hed. unfold update_pick.
      rewrite He, Hn, Hen. reflexivity. }
    assert (Update (KeyMsg "q") m t = (pass_to_branches "q" m, t)) as Hq.
    { apply Hk. rewrite !not_elem_of_cons. repeat split; try discriminate. inversion 1. }
    split; [exact Hq|]. split; [exact Hst|]. split; [reflexivity|].
    rewrite Hq. split; [reflexivity|]. split; [reflexivity|exact Hk].
  - intros Hst Hed.
    assert (forall k, k ∉ ["ctrl+c"; "esc"; "enter"] ->
                      Update (KeyMsg k) m t = (pass_to_input k m, t)) as Hk.
    { intros k Hk. rewrite !not_elem_of_cons in Hk. destruct Hk as (Hc & He & Hen & _).
      apply String.eqb_neq in Hc, He, Hen.
      rewrite Update_key by exact Hc. rewrite Hst, Hed. unfold update_editing.
      rewrite He, Hen. reflexivity. }
    assert (Update (KeyMsg "q") m t = (pass_to_input "q" m, t)) as Hq.
    { apply Hk. rewrite !not_elem_of_cons. repeat split; try discriminate. inversion 1. }
    assert (forall v m', m_state (updateAddItemTitle v m') = m_state m' /\
                         input (updateAddItemTitle v m') = input m') as Hu.
    { intros v m'. unfold updateAddItemTitle.
      destruct (Items (branches m')) as [|it0 rest]; [split; reflexivity|].
      destruct (negb (isAdd it0)); split; reflexivity. }
    split; [exact Hq|]. split; [|split; [|split; [|exact Hk]]].
    + unfold pass_to_input. cbn [fst]. rewrite (proj1 (Hu _ _)). exact Hst.
    + unfold pass_to_input. cbn [fst]. rewrite (proj2 (Hu _ _)). reflexivity.
    + rewrite Hq. reflexivity.
Qed.

End Machine.

(** ** The delete confirmation *)

Section Confirm.

Import tui.

Context `{Host} `{Widgets}.

Lemma SelectedItem_Some (l : ListModel) (it : item) :
  SelectedItem l = Some it ->
  0 <= Index l < Z.of_nat (length (Items l)) /\ Items l !! Z.to_nat (Index l) = Some it.
Proof.
  unfold SelectedItem. cbv zeta.
  destruct (Index l <? 0) eqn:E1; [discriminate|].
  destruct (length (Items l) =? 0)%nat; [discriminate|].
  destruct (Z.of_nat (length (Items l)) <=? Index l) eqn:E3; [discriminate|].
  simpl. intros E. split; [lia|exact E].
Qed.

Lemma SetItems_Index (xs : list item) (l : ListModel) :
  0 <= Index l < Z.of_nat (length xs) -> Index (SetItems xs l) = Index l.
Proof.
  intros Hr. unfold SetItems. simpl.
  destruct (0 <=? Index l) eqn:E1; [|lia].
  destruct (Index l <? Z.of_nat (length xs)) eqn:E2; [reflexivity|lia].
Qed.

(** [restore_confirm] ends the confirmation and touches nothing but the
    entry of the list the confirmation was on. *)
Lemma restore_confirm_frame (m : model) :
  confirmIndex (restore_confirm m) = -1 /\
  m_state (restore_confirm m) = m_state m /\
  selected (restore_confirm m) = selected m /\
  confirmPrev (restore_confirm m) = confirmPrev m /\
  branches (restore_confirm m) = branches m /\
  length (Items (m_list (restore_confirm m))) = length (Items (m_list m)).
Proof.
  unfold restore_confirm. cbv zeta.
  destruct (_ && _); simpl; rewrite ?length_insert; repeat split; reflexivity.
Qed.

Lemma restore_confirm_Items (m : model) :
  0 <= confirmIndex m < Z.of_nat (length (Items (m_list m))) ->
  Items (m_list (restore_confirm m)) =
  <[Z.to_nat (confirmIndex m) := confirmPrev m]> (Items (m_list m)).
Proof.
  intros Hr. unfold restore_confirm. cbv zeta.
  destruct (0 <=? confirmIndex m) eqn:E1; [|lia].
  destruct (confirmIndex m <? Z.of_nat (length (Items (m_list m)))) eqn:E2; [|lia].
  reflexivity.
Qed.

Lemma restore_confirm_Index (m : model) :
  0 <= Index (m_list m) < Z.of_nat (length (Items (m_list m))) ->
  Index (m_list (restore_confirm m)) = Index (m_list m).
Proof.
  intros Hr. unfold restore_confirm. cbv zeta.
  destruct (_ && _); simpl; [|reflexivity].
  destruct (0 <=? Index (m_list m)) eqn:E1; [|lia].
  rewrite length_insert.
  destruct (Index (m_list m) <? Z.of_nat (length (Items (m_list m)))) eqn:E2; [reflexivity|lia].
Qed.

(** [d] on an entry that can be removed. *)
Lemma list_d_spec (m : model) (it : item) :
  SelectedItem (m_list m) = Some it -> isAdd it = false -> git.IsMain (wt it) = false ->
  let m' := fst (list_d m) in
  snd (list_d m) = CmdNil /\
  Items (m_list m') =
    <[Z.to_nat (Index (m_list m)) := confirmItem it]> (Items (m_list (settled m))) /\
  confirmIndex m' = Index (m_list m) /\
  confirmPrev m' = it /\
  selected m' = wt it /\
  m_state m' = m_state m /\
  branches m' = branches m.
Proof.
  intros Hsel Hadd Hmain. destruct (SelectedItem_Some _ _ Hsel) as [Hr Hit].
  unfold list_d. rewrite Hsel, Hadd, Hmain. cbv zeta. fold (settled m).
  assert (Index (m_list (settled m)) = Index (m_list m)) as Hidx.
  { unfold settled. destruct (negb _); [apply restore_confirm_Index, Hr|reflexivity]. }
  assert (m_state (settled m) = m_state m /\ branches (settled m) = branches m) as [Hs Hb].
  { unfold settled. destruct (negb _); [|auto].
    destruct (restore_confirm_frame m) as (_ & ? & _ & _ & ? & _). auto. }
  simpl. rewrite Hidx. repeat split; auto.
Qed.

Lemma Update_list_d (m : model) (t : Trace) :
  m_state m = stateList -> Update (KeyMsg "d") m t = (list_d m, t).
Proof.
  intros Hst. rewrite Update_key by reflexivity. rewrite Hst.
  unfold update_list. eqb_lit. reflexivity.
Qed.

Lemma Update_list_esc (m : model) (t : Trace) :
  m_state m = stateList ->
  Update (KeyMsg "esc") m t =
  ((if negb (confirmIndex m =? -1) then restore_confirm m else m, CmdNil), t).
Proof.
  intros Hst. rewrite Update_key by reflexivity. rewrite Hst.
  unfold update_list. eqb_lit. destruct (negb _); reflexivity.
Qed.

(** C8. From the list with no confirmation pending, [d] on an entry that is
    neither the synthetic one nor the primary worktree puts the
    confirmation text on that entry, and [esc] after it gives back the
    list as it was: every entry, so every title and description, is the
    one from before [d], and no confirmation is pending. *)
Theorem confirm_then_cancel (m : model) (t t' : Trace) (it : item) :
  m_state m = stateList -> confirmIndex m = -1 ->
  SelectedItem (m_list m) = Some it -> isAdd it = false -> git.IsMain (wt it) = false ->
  let m1 := fst (fst (Update (KeyMsg "d") m t)) in
  let m2 := fst (fst (Update (KeyMsg "esc") m1 t')) in
  (Items (m_list m1) =
     <[Z.to_nat (Index (m_list m)) := confirmItem it]> (Items (m_list m)) /\
   confirmIndex m1 = Index (m_list m) /\ confirmPrev m1 = it) /\
  Items (m_list m2) = Items (m_list m) /\
  map title (Items (m_list m2)) = map title (Items (m_list m)) /\
  map desc (Items (m_list m2)) = map desc (Items (m_list m)) /\
  confirmIndex m2 = -1 /\ m_state m2 = stateList.
Proof.
  intros Hst Hci Hsel Hadd Hmain m1 m2.
  destruct (SelectedItem_Some _ _ Hsel) as [Hr Hit].
  destruct (list_d_spec m it Hsel Hadd Hmain) as (_ & HI & HC & HP & _ & HS & _).
  unfold settled in HI. rewrite Hci in HI. simpl in HI.
  assert (m1 = fst (list_d m)) as E1 by (unfold m1; rewrite Update_list_d by exact Hst; reflexivity).
  rewrite <- E1 in HI, HC, HP, HS. rewrite Hst in HS.
  assert (m2 = restore_confirm m1) as E2.
  { unfold m2. rewrite Update_list_esc by exact HS.
    destruct (confirmIndex m1 =? -1) eqn:E; [lia|reflexivity]. }
  assert (Items (m_list m2) = Items (m_list m)) as HI2.
  { rewrite E2, restore_confirm_Items by (rewrite HI, length_insert, HC; exact Hr).
    rewrite HI, HC, HP, list_insert_insert_eq. apply list_insert_id, Hit. }
  split; [auto|]. split; [exact HI2|]. rewrite HI2. split; [reflexivity|].
  split; [reflexivity|]. rewrite E2.
  destruct (restore_confirm_frame m1) as (? & ? & _). split; congruence.
Qed.

(** [d] on an entry while the confirmation of another entry is pending. *)
Lemma second_d (m : model) (t : Trace) (it : item) :
  m_state m = stateList ->
  confirmIndex m <> -1 ->
  0 <= confirmIndex m < Z.of_nat (length (Items (m_list m))) ->
  SelectedItem (m_list m) = Some it -> isAdd it = false -> git.IsMain (wt it) = false ->
  let m1 := fst (fst (Update (KeyMsg "d") m t)) in
  Items (m_list m1) =
    <[Z.to_nat (Index (m_list m)) := confirmItem it]>
      (<[Z.to_nat (confirmIndex m) := confirmPrev m]> (Items (m_list m))) /\
  confirmIndex m1 = Index (m_list m) /\ confirmPrev m1 = it /\ selected m1 = wt it.
Proof.
  intros Hst Hne Hr Hsel Hadd Hmain m1.
  destruct (list_d_spec m it Hsel Hadd Hmain) as (_ & HI & HC & HP & HW & _).
  assert (m1 = fst (list_d m)) as E1 by (unfold m1; rewrite Update_list_d by exact Hst; reflexivity).
  rewrite <- E1 in HI, HC, HP, HW.
  unfold settled in HI. destruct (confirmIndex m =? -1) eqn:E; [lia|]. cbn [negb] in HI.
  rewrite restore_confirm_Items in HI by exact Hr. auto.
Qed.

(** With the confirmation of another entry pending, [d] and [esc] leave
    the list with that entry put back as well. *)
Lemma cancel_after_second_d (m : model) (t t' : Trace) (it : item) :
  m_state m = stateList ->
  confirmIndex m <> -1 ->
  0 <= confirmIndex m < Z.of_nat (length (Items (m_list m))) ->
  SelectedItem (m_list m) = Some it -> Index (m_list m) <> confirmIndex m ->
  isAdd it = false -> git.IsMain (wt it) = false ->
  let m1 := fst (fst (Update (KeyMsg "d") m t)) in
  let m2 := fst (fst (Update (KeyMsg "esc") m1 t')) in
  Items (m_list m2) = <[Z.to_nat (confirmIndex m) := confirmPrev m]> (Items (m_list m)) /\
  confirmIndex m2 = -1.
Proof.
  intros Hst Hne Hr Hsel Hidx Hadd Hmain m1 m2.
  destruct (SelectedItem_Some _ _ Hsel) as [Hr' Hit].
  destruct (second_d m t it Hst Hne Hr Hsel Hadd Hmain) as (HI & HC & HP & _).
  fold m1 in HI, HC, HP.
  assert (m_state m1 = stateList) as HS.
  { unfold m1. rewrite Update_list_d by exact Hst.
    destruct (list_d_spec m it Hsel Hadd Hmain) as (_ & _ & _ & _ & _ & HS & _).
    simpl. rewrite HS. exact Hst. }
  assert (m2 = restore_confirm m1) as E2.
  { unfold m2. rewrite Update_list_esc by exact HS.
    destruct (confirmIndex m1 =? -1) eqn:E; [lia|reflexivity]. }
  rewrite E2. split; [|apply restore_confirm_frame].
  rewrite restore_confirm_Items by (rewrite HI, !length_insert, HC; exact Hr').
  rewrite HI, HC, HP, list_insert_insert_eq. apply list_insert_id.
  rewrite list_lookup_insert_ne by lia. exact Hit.
Qed.

End Confirm.

(** ** What every reachable state satisfies *)

Section Invariant.

Import tui.

Context `{Host} `{Widgets}.

Lemma confirm_ok_keep (m m' : model) :
  confirm_ok m ->
  selected m' = selected m ->
  (m_state m' = m_state m \/ m_state m' = stateList \/ m_state m' = stateAddPick) ->
  (confirmIndex m' = -1 \/
   (confirmIndex m' = confirmIndex m /\ Items (m_list m') = Items (m_list m))) ->
  confirm_ok m'.
Proof.
  intros (Hmain & Hst & Hc) Hsel Hst' Hci. unfold confirm_ok.
  rewrite Hsel. split; [exact Hmain|]. split.
  - destruct Hst' as [->|Hst']; assumption.
  - destruct Hci as [->|[-> ->]]; [intros []; reflexivity|exact Hc].
Qed.

Lemma updateAddItemTitle_frame (v : string) (m : model) :
  m_state (updateAddItemTitle v m) = m_state m /\
  m_list (updateAddItemTitle v m) = m_list m /\
  selected (updateAddItemTitle v m) = selected m /\
  confirmIndex (updateAddItemTitle v m) = confirmIndex m.
Proof.
  unfold updateAddItemTitle. destruct (Items (branches m)) as [|it0 rest]; [auto|].
  destruct (negb (isAdd it0)); simpl; auto.
Qed.

Lemma set_editing_frame (b : bool) (m : model) :
  m_state (set_editing b m) = m_state m /\
  m_list (set_editing b m) = m_list m /\
  selected (set_editing b m) = selected m /\
  confirmIndex (set_editing b m) = confirmIndex m.
Proof. unfold set_editing. destruct (branchDel m); simpl; auto. Qed.

Lemma start_editing_frame (s0 : bool) (m : model) :
  m_state (start_editing s0 m) = m_state m /\
  m_list (start_editing s0 m) = m_list m /\
  selected (start_editing s0 m) = selected m /\
  confirmIndex (start_editing s0 m) = confirmIndex m.
Proof.
  unfold start_editing. destruct (branchDel m) eqn:E; [|auto].
  match goal with |- context [updateAddItemTitle ?v ?x] =>
    destruct (updateAddItemTitle_frame v x) as (-> & -> & -> & ->) end.
  destruct (set_editing_frame true m) as (E1 & E2 & E3 & E4).
  destruct s0; simpl; rewrite ?E1, ?E2, ?E3, ?E4; auto.
Qed.

Lemma ok_restore_confirm (m : model) : confirm_ok m -> confirm_ok (restore_confirm m).
Proof.
  intros Hm. destruct (restore_confirm_frame m) as (E1 & E2 & E3 & _).
  apply (confirm_ok_keep m); auto.
Qed.

Lemma ok_list_d (m : model) : confirm_ok m -> confirm_ok (fst (list_d m)).
Proof.
  intros Hm. destruct (SelectedItem (m_list m)) as [it|] eqn:Hsel;
    [|unfold list_d; rewrite Hsel; exact Hm].
  destruct (isAdd it) eqn:Hadd; [unfold list_d; rewrite Hsel, Hadd; exact Hm|].
  destruct (git.IsMain (wt it)) eqn:Hmain;
    [unfold list_d; rewrite Hsel, Hadd, Hmain; exact Hm|].
  destruct (SelectedItem_Some _ _ Hsel) as [Hr Hit].
  destruct (list_d_spec m it Hsel Hadd Hmain) as (_ & HI & HC & HP & HW & HS & _).
  assert (length (Items (m_list (settled m))) = length (Items (m_list m))) as Hlen.
  { unfold settled. destruct (negb _); [|reflexivity].
    apply (restore_confirm_frame m). }
  destruct Hm as (_ & Hst & _). unfold confirm_ok.
  rewrite HW, HS, HC, HI, length_insert, Hlen.
  split; [exact Hmain|]. split; [exact Hst|]. intros _. split; [exact Hr|].
  exists (confirmItem it). split; [|auto].
  apply list_lookup_insert_eq. lia.
Qed.

Lemma ok_list_enter (m : model) (t : Trace) :
  confirm_ok m -> confirm_ok (fst (fst (list_enter m t))).
Proof.
  intros Hm. unfold list_enter.
  destruct (negb (confirmIndex m =? -1) && (Index (m_list m) =? confirmIndex m)).
  - destruct (negb (String.eqb (git.Path (selected m)) "")); [|exact Hm].
    unfold bind. destruct (git.RemoveWorktree _ true t) as [[e|] t']; simpl.
    + apply ok_restore_confirm, Hm.
    + apply (confirm_ok_keep m); auto.
  - destruct (SelectedItem (m_list m)) as [it|]; [|exact Hm].
    destruct (isAdd it); [apply (confirm_ok_keep m); simpl; auto|].
    destruct (negb _); [|exact Hm].
    destruct (buildEditorCmd _); exact Hm.
Qed.

Lemma ok_update_list (k : string) (m : model) (t : Trace) :
  confirm_ok m -> confirm_ok (fst (fst (update_list k m t))).
Proof.
  intros Hm. unfold update_list.
  destruct (String.eqb k "q" || String.eqb k "ctrl+c"); [exact Hm|].
  destruct (String.eqb k "esc").
  { destruct (negb _); [apply ok_restore_confirm, Hm|exact Hm]. }
  destruct (String.eqb k "r"); [apply (confirm_ok_keep m); simpl; auto|].
  destruct (String.eqb k "a"); [apply (confirm_ok_keep m); simpl; auto|].
  destruct (String.eqb k "enter"); [apply ok_list_enter, Hm|].
  destruct (String.eqb k "d"); [apply ok_list_d, Hm|].
  apply (confirm_ok_keep m); simpl; auto.
Qed.

Lemma ok_update_editing (k : string) (m : model) (t : Trace) :
  confirm_ok m -> confirm_ok (fst (fst (update_editing k m t))).
Proof.
  intros Hm. unfold update_editing, resetAddItemTitle.
  destruct (set_editing_frame false m) as (E1 & E2 & E3 & E4).
  destruct (String.eqb k "esc").
  { simpl. match goal with |- context [updateAddItemTitle ?v ?x] =>
      destruct (updateAddItemTitle_frame v x) as (F1 & F2 & F3 & F4) end.
    simpl in F1, F2, F3, F4.
    apply (confirm_ok_keep m); [exact Hm|congruence|left; congruence|].
    right. split; congruence. }
  destruct (String.eqb k "enter").
  { cbv zeta. destruct (String.eqb _ ""); [exact Hm|].
    unfold bind. destruct (git.CreateWorktree _ _ true t) as [[e|] t']; [exact Hm|].
    simpl. match goal with |- context [updateAddItemTitle ?v ?x] =>
      destruct (updateAddItemTitle_frame v x) as (F1 & F2 & F3 & F4) end.
    simpl in F1, F2, F3, F4.
    apply (confirm_ok_keep m); [exact Hm|simpl; congruence|simpl; auto|].
    right. simpl. split; congruence. }
  simpl. match goal with |- context [updateAddItemTitle ?v ?x] =>
    destruct (updateAddItemTitle_frame v x) as (F1 & F2 & F3 & F4) end.
  simpl in F1, F2, F3, F4.
  apply (confirm_ok_keep m); [exact Hm|congruence|left; congruence|].
  right. split; congruence.
Qed.

Lemma ok_update_pick (k : string) (m : model) (t : Trace) :
  confirm_ok m -> confirm_ok (fst (fst (update_pick k m t))).
Proof.
  intros Hm. unfold update_pick.
  destruct (String.eqb k "esc"); [apply (confirm_ok_keep m); simpl; auto|].
  assert (forall s0, confirm_ok (start_editing s0 m)) as Hstart.
  { intros s0. destruct (start_editing_frame s0 m) as (F1 & F2 & F3 & F4).
    apply (confirm_ok_keep m); [exact Hm|congruence|left; congruence|].
    right. split; congruence. }
  destruct (String.eqb k "n"); [apply Hstart|].
  destruct (String.eqb k "enter").
  { destruct (SelectedItem (branches m)) as [it|]; [|exact Hm].
    destruct (isAdd it); [apply Hstart|].
    cbv zeta. unfold bind.
    destruct (git.CreateWorktree _ _ false t) as [[e|] t']; [exact Hm|].
    apply (confirm_ok_keep m); simpl; auto. }
  apply (confirm_ok_keep m); simpl; auto.
Qed.

Lemma ok_Update (msg : Msg) (m : model) (t : Trace) :
  confirm_ok m -> confirm_ok (fst (fst (Update msg m t))).
Proof.
  intros Hm. destruct msg as [w h|e|ws e|bs e|k|]; simpl.
  - apply (confirm_ok_keep m); simpl; auto.
  - exact Hm.
  - destruct e; simpl; [exact Hm|]. apply (confirm_ok_keep m); simpl; auto.
  - destruct e; simpl; [exact Hm|]. apply (confirm_ok_keep m); simpl; auto.
  - destruct (String.eqb k "ctrl+c"); [exact Hm|].
    pose proof Hm as (_ & [Hst|Hst] & _); rewrite Hst.
    + apply ok_update_list, Hm.
    + destruct (is_editing m); [apply ok_update_editing|apply ok_update_pick]; exact Hm.
  - exact Hm.
Qed.

Lemma reachable_confirm_ok (m : model) : reachable m -> confirm_ok m.
Proof.
  induction 1 as [|m msg t Hr IH].
  - unfold confirm_ok, initialModel. simpl. split; [reflexivity|]. split; [auto|].
    intros []. reflexivity.
  - apply ok_Update, IH.
Qed.

End Invariant.

(** ** What a step asks of git *)

(** A step that runs one [CreateWorktree]. *)
Ltac creates :=
  cbv zeta; unfold bind;
  match goal with
  | |- context [@git.CreateWorktree ?h ?b ?p ?c ?t] =>
      right; left; exists b, p, c;
      destruct (@git.CreateWorktree h b p c t) as [[?|] ?]; reflexivity
  end.

Section Removal.

Import tui.

Context `{Host} `{Widgets}.

Lemma trace_list_enter (m : model) (t : Trace) :
  m_state m = stateList -> step_trace (KeyMsg "enter") m t (snd (list_enter m t)).
Proof.
  intros Hst. unfold list_enter.
  destruct (negb (confirmIndex m =? -1) && (Index (m_list m) =? confirmIndex m)) eqn:E.
  - destruct (negb (String.eqb (git.Path (selected m)) "")); [|left; reflexivity].
    right. right. split; [reflexivity|]. split.
    + unfold bind. destruct (git.RemoveWorktree _ true t) as [[e|] t']; reflexivity.
    + left. apply andb_true_iff in E as [E1 E2]. split; [exact Hst|]. split; lia.
  - destruct (SelectedItem (m_list m)) as [it|]; [|left; reflexivity].
    destruct (isAdd it); [left; reflexivity|].
    destruct (negb (String.eqb (git.Path (wt it)) "")); [|left; reflexivity].
    destruct (buildEditorCmd _); left; reflexivity.
Qed.

Lemma trace_Update (msg : Msg) (m : model) (t : Trace) :
  step_trace msg m t (snd (Update msg m t)).
Proof.
  destruct msg as [w h|e|ws e|bs e|k|]; simpl; try (left; reflexivity).
  destruct (String.eqb k "ctrl+c"); [left; reflexivity|].
  destruct (m_state m) eqn:Hst.
  - unfold update_list.
    destruct (String.eqb k "q" || String.eqb k "ctrl+c"); [left; reflexivity|].
    destruct (String.eqb k "esc"); [destruct (negb _); left; reflexivity|].
    destruct (String.eqb k "r"); [left; reflexivity|].
    destruct (String.eqb k "a"); [left; reflexivity|].
    destruct (String.eqb k "enter") eqn:E.
    { apply String.eqb_eq in E. subst k. apply trace_list_enter, Hst. }
    destruct (String.eqb k "d"); left; reflexivity.
  - destruct (is_editing m).
    + unfold update_editing.
      destruct (String.eqb k "esc"); [left; reflexivity|].
      destruct (String.eqb k "enter"); [|left; reflexivity].
      cbv zeta. destruct (String.eqb _ ""); [left; reflexivity|].
      creates.
    + unfold update_pick.
      destruct (String.eqb k "esc"); [left; reflexivity|].
      destruct (String.eqb k "n"); [left; reflexivity|].
      destruct (String.eqb k "enter"); [|left; reflexivity].
      destruct (SelectedItem (branches m)) as [it|]; [|left; reflexivity].
      destruct (isAdd it); [left; reflexivity|].
      creates.
  - unfold update_newInput.
    destruct (String.eqb k "esc"); [left; reflexivity|].
    destruct (String.eqb k "enter"); [|left; reflexivity].
    cbv zeta. destruct (String.eqb _ ""); [left; reflexivity|].
    creates.
  - unfold update_confirmDelete.
    destruct (String.eqb k "esc"); [left; reflexivity|].
    destruct (String.eqb k "enter") eqn:E; [|left; reflexivity].
    apply String.eqb_eq in E. subst k.
    right. right. split; [reflexivity|]. split; [|right; exact Hst].
    unfold bind. destruct (git.RemoveWorktree _ true t) as [[e|] t']; reflexivity.
Qed.

Lemma Update_list_d_primary (m : model) (t : Trace) (it : item) :
  m_state m = stateList -> SelectedItem (m_list m) = Some it ->
  isAdd it = false -> git.IsMain (wt it) = true ->
  Update (KeyMsg "d") m t =
  ((m, NewStatusMessage MainList "Cannot delete main worktree"), t).
Proof.
  intros Hst Hsel Hadd Hmain. rewrite Update_list_d by exact Hst.
  unfold list_d. rewrite Hsel, Hadd, Hmain. reflexivity.
Qed.

(** C7. [d] in the list on the primary worktree gives a notice and nothing
    else: the state is the same, the mode is the list, nothing is asked of
    git.  And in every state the program reaches, a step that asks git to
    remove a worktree is [enter] on the entry that carries the pending
    confirmation, and the worktree it removes is the one of that entry,
    which is not the primary one. *)
Theorem primary_never_removed :
  (forall (m : model) (t : Trace) (it : item),
     m_state m = stateList -> SelectedItem (m_list m) = Some it ->
     isAdd it = false -> git.IsMain (wt it) = true ->
     Update (KeyMsg "d") m t =
       ((m, NewStatusMessage MainList "Cannot delete main worktree"), t) /\
     events (Update (KeyMsg "d") m) t = []) /\
  (forall (m : model) (msg : Msg) (t : Trace) (e : Event),
     reachable m ->
     e ∈ events (Update msg m) t -> is_removal e = true ->
     msg = KeyMsg "enter" /\
     e = EvGit ["worktree"; "remove"; "--force"; git.Path (selected m)] /\
     exists it, SelectedItem (m_list m) = Some it /\ wt it = selected m /\
                isAdd it = false /\ git.IsMain (wt it) = false).
Proof.
  split.
  - intros m t it Hst Hsel Hadd Hmain.
    pose proof (Update_list_d_primary m t it Hst Hsel Hadd Hmain) as E.
    split; [exact E|]. unfold events. rewrite E. simpl. apply drop_all.
  - intros m msg t e Hreach Hin Hrem.
    apply reachable_confirm_ok in Hreach as (Hmain & Hst & Hc).
    destruct (trace_Update msg m t) as [E|[(b & p & c & E)|(Hmsg & E & Hcond)]].
    + rewrite (events_of_snd _ t []) in Hin by (rewrite app_nil_r; exact E). inversion Hin.
    + assert (events (Update msg m) t = events (git.CreateWorktree b p c) t) as Ev
        by (unfold events; rewrite E; reflexivity).
      rewrite Ev in Hin. apply CreateWorktree_events in Hin as [->| ->]; [discriminate|].
      destruct c; discriminate.
    + destruct Hcond as [(_ & Hne & Hidx)|Hcd]; [|destruct Hst; congruence].
      destruct (Hc Hne) as (Hr & it & Hit & Hwt & Hadd).
      destruct (RemoveWorktree_trace (git.Path (selected m)) t) as [E'|E'];
        rewrite E' in E.
      * rewrite (events_of_snd _ t []) in Hin by (rewrite app_nil_r; exact E). inversion Hin.
      * rewrite (events_of_snd _ t _ E) in Hin. apply list_elem_of_singleton in Hin.
        split; [exact Hmsg|]. split; [exact Hin|].
        exists it. split; [|split; [exact Hwt|split; [exact Hadd|congruence]]].
        unfold SelectedItem. cbv zeta. rewrite Hidx.
        destruct (confirmIndex m <? 0) eqn:E1; [lia|].
        destruct (length (Items (m_list m)) =? 0)%nat eqn:E2;
          [apply Nat.eqb_eq in E2; lia|].
        destruct (Z.of_nat (length (Items (m_list m))) <=? confirmIndex m) eqn:E3; [lia|].
        exact Hit.
Qed.

(** C9. In every state the program reaches there is one slot for a pending
    confirmation, empty or on an entry of the list.  [d] on a second entry
    while the confirmation of a first one is pending puts the snapshot of
    the first entry back and then the confirmation text on the second.
    [r] in the list, and a listing that was loaded, leave no confirmation
    pending. *)
Theorem one_pending_confirmation :
  (forall m : model,
     reachable m ->
     confirmIndex m = -1 \/ 0 <= confirmIndex m < Z.of_nat (length (Items (m_list m)))) /\
  (forall (m : model) (t : Trace) (it : item),
     m_state m = stateList ->
     confirmIndex m <> -1 ->
     0 <= confirmIndex m < Z.of_nat (length (Items (m_list m))) ->
     SelectedItem (m_list m) = Some it -> Index (m_list m) <> confirmIndex m ->
     isAdd it = false -> git.IsMain (wt it) = false ->
     let m1 := fst (fst (Update (KeyMsg "d") m t)) in
     Items (m_list m1) =
       <[Z.to_nat (Index (m_list m)) := confirmItem it]>
         (<[Z.to_nat (confirmIndex m) := confirmPrev m]> (Items (m_list m))) /\
     Items (m_list m1) !! Z.to_nat (confirmIndex m) = Some (confirmPrev m) /\
     confirmIndex m1 = Index (m_list m) /\ confirmPrev m1 = it) /\
  (forall (m : model) (t : Trace),
     m_state m = stateList ->
     Update (KeyMsg "r") m t = ((set_confirmIndex (-1) m, loadWorktrees), t)) /\
  (forall (m : model) (t : Trace) (ws : list git.Worktree),
     confirmIndex (fst (fst (Update (loadedWorktreesMsg ws None) m t))) = -1).
Proof.
  split; [|split; [|split]].
  - intros m Hreach. apply reachable_confirm_ok in Hreach as (_ & _ & Hc).
    destruct (Z.eq_dec (confirmIndex m) (-1)) as [E|E]; [left; exact E|].
    right. apply (Hc E).
  - intros m t it Hst Hne Hr Hsel Hidx Hadd Hmain m1.
    destruct (second_d m t it Hst Hne Hr Hsel Hadd Hmain) as (HI & HC & HP & _).
    fold m1 in HI, HC, HP. split; [exact HI|]. split; [|auto].
    destruct (SelectedItem_Some _ _ Hsel) as [Hr' _].
    rewrite HI, list_lookup_insert_ne by lia.
    apply list_lookup_insert_eq. lia.
  - intros m t Hst. rewrite Update_key by reflexivity. rewrite Hst.
    unfold update_list. eqb_lit. reflexivity.
  - intros m t ws. reflexivity.
Qed.

End Removal.

(** ** The sample repository, run *)

Lemma run_reachable (msgs : list tui.Msg) (m : tui.model) :
  @tui.reachable Sample.host Sample.widgets m ->
  @tui.reachable Sample.host Sample.widgets (Sample.run Sample.host msgs m).
Proof.
  revert m. induction msgs as [|msg msgs IH]; intros m Hm; [exact Hm|].
  apply IH. apply (@tui.reach_step Sample.host Sample.widgets m msg [] Hm).
Qed.

Lemma confirming_reachable : @tui.reachable Sample.host Sample.widgets Sample.confirming.
Proof. repeat apply run_reachable. constructor. Qed.

(** [enter] on the remote branch [release] asks git for
    [worktree add /w/repo-release release]. *)
Lemma pick_enter_uses_short_name_witness :
  events (@tui.Update Sample.host Sample.widgets (tui.KeyMsg "enter") Sample.picking) [] =
  [EvMkdirAll "/w"; EvGit ["worktree"; "add"; "/w/repo-release"; "release"]].
Proof.
  refine (proj2 (proj2 (@pick_enter_uses_short_name Sample.host Sample.widgets
                          Sample.picking [] Sample.release_item _ _ _ _)) _ _ _);
    try (vm_compute; reflexivity); vm_compute; discriminate.
Defined.

(** C1 as stated fails: the entry under the cursor is the remote branch
    [origin/release], and [enter] does not do what [CreateWorktreeFromRef]
    with the remote ref does: it passes git neither [-b] nor the ref. *)
Lemma pick_enter_remote_not_from_ref :
  tui.SelectedItem (tui.branches Sample.picking) = Some Sample.release_item /\
  git.IsRemote (tui.br Sample.release_item) = true /\
  events (@tui.Update Sample.host Sample.widgets (tui.KeyMsg "enter") Sample.picking) [] =
    [EvMkdirAll "/w"; EvGit ["worktree"; "add"; "/w/repo-release"; "release"]] /\
  events (@git.CreateWorktreeFromRef Sample.host "release" "/w/repo-release" "origin/release") [] =
    [EvMkdirAll "/w";
     EvGit ["worktree"; "add"; "-b"; "release"; "/w/repo-release"; "origin/release"]] /\
  events (@tui.Update Sample.host Sample.widgets (tui.KeyMsg "enter") Sample.picking) [] <>
  events (@git.CreateWorktreeFromRef Sample.host "release" "/w/repo-release" "origin/release") [].
Proof.
  split; [vm_compute; reflexivity|]. split; [reflexivity|].
  split; [vm_compute; reflexivity|]. split; [vm_compute; reflexivity|].
  vm_compute. discriminate.
Qed.

(** With [ feature-x ] typed, [enter] creates the branch [feature-x] in
    [/w/repo-feature-x]; with nothing typed, [enter] does nothing. *)
Lemma editing_enter_creates_branch_witness :
  (git.DefaultWorktreeDir (H := Sample.host) "feature-x" = "/w/repo-feature-x" /\
   snd (@tui.Update Sample.host Sample.widgets (tui.KeyMsg "enter") Sample.typed []) =
     [EvMkdirAll "/w"; EvGit ["worktree"; "add"; "-b"; "feature-x"; "/w/repo-feature-x"]]) /\
  @tui.Update Sample.host Sample.widgets (tui.KeyMsg "enter") Sample.editing_empty [] =
    ((Sample.editing_empty, tui.CmdNil), []).
Proof.
  split.
  - destruct (proj1 (@editing_enter_creates_branch Sample.host Sample.widgets
                       Sample.typed [] "feature-x" eq_refl eq_refl eq_refl))
      as (E & _ & Hdir); [discriminate|].
    split; [exact (Hdir "/w/repo" eq_refl)|]. rewrite E. vm_compute. reflexivity.
  - apply (proj2 (@editing_enter_creates_branch Sample.host Sample.widgets
                    Sample.editing_empty [] "" eq_refl eq_refl eq_refl)).
    reflexivity.
Defined.

(** [d] on the primary worktree changes nothing, and the removal asked for
    after [d] and [enter] on the second worktree is the removal of the
    second worktree. *)
Lemma primary_never_removed_witness :
  @tui.Update Sample.host Sample.widgets (tui.KeyMsg "d") Sample.on_main [] =
    ((Sample.on_main, tui.NewStatusMessage tui.MainList "Cannot delete main worktree"), []) /\
  git.Path (tui.selected Sample.confirming) = "/w/repo-b1" /\
  exists it, tui.SelectedItem (tui.m_list Sample.confirming) = Some it /\
             git.IsMain (tui.wt it) = false.
Proof.
  destruct (@primary_never_removed Sample.host Sample.widgets) as [Hd Hrm].
  split.
  - apply (Hd Sample.on_main []
             (tui.mkItem "repo" "Branch: main  Path: /w/repo"
                (git.mkWorktree "/w/repo" "refs/heads/main" "1111" true) false
                git.Branch_zero));
      vm_compute; reflexivity.
  - destruct (Hrm Sample.confirming (tui.KeyMsg "enter") []
                (EvGit ["worktree"; "remove"; "--force"; "/w/repo-b1"])
                confirming_reachable)
      as (_ & He & it & Hsel & _ & _ & Hmain).
    + vm_compute. apply list_elem_of_here.
    + reflexivity.
    + split; [reflexivity|].
      exists it. split; assumption.
Defined.

(** [d] and [esc] on the second worktree give back the list. *)
Lemma confirm_then_cancel_witness :
  tui.Items (tui.m_list
    (Sample.run Sample.host [tui.KeyMsg "d"; tui.KeyMsg "esc"] Sample.on_b1)) =
  tui.Items (tui.m_list Sample.on_b1).
Proof.
  apply (@confirm_then_cancel Sample.host Sample.widgets Sample.on_b1 [] []
           Sample.b1_item); vm_compute; reflexivity.
Defined.

(** The confirmation of the second worktree pending, [d] on the third
    puts the second entry back. *)
Lemma one_pending_confirmation_witness :
  (tui.confirmIndex Sample.confirming = -1 \/
   0 <= tui.confirmIndex Sample.confirming
     < Z.of_nat (length (tui.Items (tui.m_list Sample.confirming)))) /\
  tui.Items (tui.m_list (Sample.run Sample.host [tui.KeyMsg "d"] Sample.on_b2)) !! 2%nat =
    Some Sample.b1_item /\
  tui.confirmIndex (Sample.run Sample.host [tui.KeyMsg "d"] Sample.on_b2) = 3 /\
  tui.confirmIndex (Sample.run Sample.host [tui.KeyMsg "r"] Sample.on_b2) = -1.
Proof.
  destruct (@one_pending_confirmation Sample.host Sample.widgets) as (Hone & Hsec & Hr & _).
  split; [apply Hone, confirming_reachable|].
  destruct (Hsec Sample.on_b2 []
              (tui.mkItem "repo-b2" "Branch: 3333  Path: /w/repo-b2"
                 (git.mkWorktree "/w/repo-b2" "" "3333" false) false git.Branch_zero))
    as (_ & Hback & Hci & _); try (vm_compute; reflexivity).
  - vm_compute. discriminate.
  - vm_compute. split; [discriminate|reflexivity].
  - vm_compute. discriminate.
  - split; [exact Hback|]. split; [exact Hci|].
    change (tui.confirmIndex
              (fst (fst (@tui.Update Sample.host Sample.widgets (tui.KeyMsg "r")
                           Sample.on_b2 []))) = -1).
    rewrite Hr by (vm_compute; reflexivity). reflexivity.
Defined.

(** [q] ends the program from the list, and from the branch picker, whose
    list answers [tea.Quit] to it; in the editor of the name it is typed. *)
Lemma q_by_mode_witness :
  @tui.Update Sample.host Sample.widgets (tui.KeyMsg "q") Sample.listing [] =
    ((Sample.listing, tui.Quit), []) /\
  snd (fst (@tui.Update Sample.host Sample.widgets (tui.KeyMsg "q") Sample.picking [])) =
    tui.Quit /\
  @tui.Update Sample.host Sample.widgets (tui.KeyMsg "x") Sample.picking [] =
    ((Sample.picking, tui.CmdNil), []) /\
  tui.Value (tui.input (fst (fst
    (@tui.Update Sample.host Sample.widgets (tui.KeyMsg "q") Sample.typed [])))) =
    " feature-x q" /\
  snd (fst (@tui.Update Sample.host Sample.widgets (tui.KeyMsg "q") Sample.typed [])) =
    tui.CmdNil.
Proof.
  split; [|split; [|split]].
  - apply (proj1 (@q_by_mode Sample.host Sample.widgets Sample.listing [])).
    vm_compute. reflexivity.
  - pose proof (proj1 (proj2 (@q_by_mode Sample.host Sample.widgets Sample.picking []))
                  ltac:(vm_compute; reflexivity) ltac:(vm_compute; reflexivity))
      as (_ & _ & _ & _ & Hq & _).
    apply Hq. vm_compute. reflexivity.
  - pose proof (proj1 (proj2 (@q_by_mode Sample.host Sample.widgets Sample.picking []))
                  ltac:(vm_compute; reflexivity) ltac:(vm_compute; reflexivity))
      as (_ & _ & _ & _ & _ & Hk).
    rewrite (Hk "x").
    + vm_compute. reflexivity.
    + rewrite !not_elem_of_cons. repeat split; try discriminate. inversion 1.
  - pose proof (proj2 (proj2 (@q_by_mode Sample.host Sample.widgets Sample.typed []))
                  ltac:(vm_compute; reflexivity) ltac:(vm_compute; reflexivity))
      as (E & _ & _ & Hc & _).
    split; [rewrite E; vm_compute; reflexivity|].
    rewrite Hc. vm_compute. reflexivity.
Defined.

(** C10 as stated fails in the branch picker: the lists keep the quit keys
    of their widget, the picker passes [q] on to its list, and the program
    ends as it does from the list. *)
Lemma picker_q_quits :
  tui.m_state Sample.picking = tui.stateAddPick /\
  @tui.is_editing Sample.picking = false /\
  @tui.Update Sample.host Sample.widgets (tui.KeyMsg "q") Sample.picking [] =
    ((Sample.picking, tui.Quit), []) /\
  @tui.Update Sample.host Sample.widgets (tui.KeyMsg "q") Sample.picking [] =
    @tui.Update Sample.host Sample.widgets (tui.KeyMsg "ctrl+c") Sample.picking [].
Proof. vm_compute. repeat split; reflexivity. Qed.

(** [d] twice on the same entry and then [esc]: the confirmation is over,
    and the entry keeps the question as its title. *)
Remark d_twice_keeps_the_question :
  let m := Sample.run Sample.host [tui.KeyMsg "d"; tui.KeyMsg "d"; tui.KeyMsg "esc"]
             Sample.on_b1 in
  tui.confirmIndex m = -1 /\
  map tui.title (tui.Items (tui.m_list m)) =
    ["[+] Add new worktree"; "repo"; "Are you sure you want to delete: repo-b1"; "repo-b2"].
Proof. vm_compute. split; reflexivity. Qed.

(** * Further properties of the code *)

(** ** Byte strings *)

Lemma append_cons (c : ascii) (a b : string) : String c a +:+ b = String c (a +:+ b).
Proof. reflexivity. Qed.

Lemma append_nil_l (b : string) : "" +:+ b = b.
Proof. reflexivity. Qed.

(** Simplify, unfolding the append of byte strings on its way. *)
Ltac ssimpl := repeat (progress (simpl; rewrite ?append_cons, ?append_nil_l)).

Section Bytes.

Import GoStrings.

Lemma append_nil_r (s : string) : s +:+ "" = s.
Proof. induction s as [|c s IH]; ssimpl; [reflexivity|]. f_equal. exact IH. Qed.

Lemma append_assoc (a b c : string) : (a +:+ b) +:+ c = a +:+ (b +:+ c).
Proof. induction a as [|x a IH]; ssimpl; [reflexivity|]. f_equal. exact IH. Qed.

Lemma cut_prefix_app (p x : string) : cut_prefix p (p +:+ x) = Some x.
Proof.
  induction p as [|c p IH]; ssimpl; [reflexivity|].
  rewrite Ascii.eqb_refl. exact IH.
Qed.

Lemma cut_prefix_Some (p s r : string) : cut_prefix p s = Some r -> s = p +:+ r.
Proof.
  revert s. induction p as [|c p IH]; intros s; ssimpl.
  - intros E. injection E as ->. reflexivity.
  - destruct s as [|d s]; [discriminate|].
    destruct (Ascii.eqb c d) eqn:E; [|discriminate].
    apply Ascii.eqb_eq in E. subst d. intros Hc. rewrite (IH s Hc). reflexivity.
Qed.

Lemma rev_onto_app (acc a b : string) :
  rev_onto acc (a +:+ b) = rev_onto (rev_onto acc a) b.
Proof. revert acc. induction a as [|c a IH]; intros acc; ssimpl; [reflexivity|]. apply IH. Qed.

Lemma rev_onto_rev_onto (a b s : string) :
  rev_onto b (rev_onto a s) = rev_onto (s +:+ b) a.
Proof.
  revert a b. induction s as [|c s IH]; intros a b; ssimpl; [reflexivity|].
  rewrite IH. reflexivity.
Qed.

Lemma rev_rev (s : string) : rev (rev s) = s.
Proof. unfold rev. rewrite rev_onto_rev_onto. ssimpl. apply append_nil_r. Qed.

Lemma cut_Some (sep : ascii) (s a b : string) :
  cut sep s = Some (a, b) -> s = a +:+ String sep b /\ Contains a sep = false.
Proof.
  revert a. induction s as [|c s IH]; intros a; ssimpl; [discriminate|].
  destruct (Ascii.eqb c sep) eqn:E.
  - apply Ascii.eqb_eq in E. subst c. intros Hc. injection Hc as <- <-.
    split; reflexivity.
  - destruct (cut sep s) as [[a' b']|] eqn:Hc; [|discriminate].
    intros Hi. injection Hi as <- <-. destruct (IH a' eq_refl) as [-> Hn].
    split; [reflexivity|]. unfold Contains in *. ssimpl. rewrite E.
    destruct (cut sep a'); [discriminate|reflexivity].
Qed.

Lemma cut_app (sep : ascii) (a b : string) :
  Contains a sep = false -> cut sep (a +:+ String sep b) = Some (a, b).
Proof.
  unfold Contains. induction a as [|c a IH]; ssimpl.
  - intros _. rewrite Ascii.eqb_refl. reflexivity.
  - destruct (Ascii.eqb c sep); [discriminate|].
    destruct (cut sep a) as [[x y]|] eqn:Hc; [discriminate|].
    intros _. rewrite IH by reflexivity. reflexivity.
Qed.

Lemma Contains_app (sep : ascii) (a b : string) :
  Contains a sep = false -> Contains b sep = false -> Contains (a +:+ b) sep = false.
Proof.
  unfold Contains. induction a as [|c a IH]; ssimpl; [auto|].
  destruct (Ascii.eqb c sep); [discriminate|].
  destruct (cut sep a) as [[x y]|]; [discriminate|].
  intros _ Hb. specialize (IH eq_refl Hb).
  destruct (cut sep (a +:+ b)) as [[x y]|]; [discriminate|reflexivity].
Qed.

Lemma Split_nonempty (s : string) (sep : ascii) : Split s sep <> [].
Proof.
  destruct s as [|c s]; ssimpl; [discriminate|].
  destruct (Ascii.eqb c sep); [discriminate|].
  destruct (Split s sep); discriminate.
Qed.

Lemma Split_plain (s : string) (sep : ascii) :
  Contains s sep = false -> Split s sep = [s].
Proof.
  unfold Contains. induction s as [|c s IH]; ssimpl; [reflexivity|].
  destruct (Ascii.eqb c sep); [discriminate|].
  destruct (cut sep s) as [[x y]|]; [discriminate|].
  intros _. rewrite IH by reflexivity. reflexivity.
Qed.

Lemma Split_app (a rest : string) (sep : ascii) :
  Contains a sep = false -> Split (a +:+ String sep rest) sep = a :: Split rest sep.
Proof.
  unfold Contains. induction a as [|c a IH]; ssimpl.
  - intros _. rewrite Ascii.eqb_refl. reflexivity.
  - destruct (Ascii.eqb c sep); [discriminate|].
    destruct (cut sep a) as [[x y]|]; [discriminate|].
    intros _. rewrite IH by reflexivity. reflexivity.
Qed.

Lemma SplitN_2 (s : string) (sep : ascii) :
  SplitN s sep 2 = match cut sep s with
                   | Some (a, b) => [a; b]
                   | None => [s]
                   end.
Proof. ssimpl. destruct (cut sep s) as [[a b]|]; reflexivity. Qed.

(** Two of the three keys of the listing never start the same line. *)
Lemma branch_not_HEAD (l : string) :
  HasPrefix l "branch " = true -> HasPrefix l "HEAD " = false.
Proof.
  unfold HasPrefix. destruct l as [|c l]; [intros _; reflexivity|].
  change (cut_prefix "branch " (String c l))
    with (if Ascii.eqb "b" c then cut_prefix "ranch " l else None).
  change (cut_prefix "HEAD " (String c l))
    with (if Ascii.eqb "H" c then cut_prefix "EAD " l else None).
  destruct (Ascii.eqb "b" c) eqn:E; [|intros E'; discriminate E'].
  apply Ascii.eqb_eq in E. subst c. reflexivity.
Qed.

End Bytes.

(** ** The listing of worktrees, line by line and block by block *)

Section Lines.

Import git.

Lemma dropCR_plain (s : string) :
  GoStrings.HasSuffix s (String CR EmptyString) = false -> dropCR s = s.
Proof.
  unfold GoStrings.HasSuffix, GoStrings.HasPrefix, dropCR.
  change (GoStrings.rev (String CR "")) with (String CR "").
  destruct (GoStrings.cut_prefix (String CR "") (GoStrings.rev s));
    [intros E; discriminate E|reflexivity].
Qed.

Lemma dropCR_CR (s : string) : dropCR (s +:+ String CR EmptyString) = s.
Proof.
  unfold dropCR, GoStrings.rev. rewrite rev_onto_app.
  change (GoStrings.rev_onto (GoStrings.rev_onto "" s) (String CR ""))
    with (String CR "" +:+ GoStrings.rev s).
  rewrite cut_prefix_app. apply rev_rev.
Qed.

Lemma scan_tokens_cons (seg x : string) (rest : list string) :
  scan_tokens (seg :: x :: rest) =
  if (N.of_nat (String.length seg) <? MaxScanTokenSize)%N
  then dropCR seg :: scan_tokens (x :: rest) else [].
Proof. reflexivity. Qed.

Lemma scan_line (s rest : string) :
  GoStrings.Contains s LF = false ->
  (N.of_nat (String.length s) <? MaxScanTokenSize)%N = true ->
  scan_lines (s +:+ String LF rest) = dropCR s :: scan_lines rest.
Proof.
  intros Hn Hl. unfold scan_lines. rewrite Split_app by exact Hn.
  pose proof (Split_nonempty rest LF) as Hne.
  destruct (GoStrings.Split rest LF) as [|x r]; [congruence|].
  rewrite scan_tokens_cons, Hl. reflexivity.
Qed.

Lemma length_append (a b : string) :
  String.length (a +:+ b) = (String.length a + String.length b)%nat.
Proof. induction a as [|c a IH]; ssimpl; [reflexivity|]. rewrite IH. reflexivity. Qed.

Lemma scan_lines_LF (l : list string) (rest : string) :
  Forall plain_line l -> scan_lines (unlines nl l +:+ rest) = (l ++ scan_lines rest)%list.
Proof.
  induction 1 as [|s l (Hn & Hc & Hl) _ IH]; [reflexivity|].
  cbn [unlines fold_right]. fold (unlines nl l).
  rewrite !append_assoc. change (nl +:+ (unlines nl l +:+ rest))
    with (String LF (unlines nl l +:+ rest)).
  rewrite scan_line; [|exact Hn|apply N.ltb_lt; lia].
  rewrite dropCR_plain by exact Hc. rewrite IH. reflexivity.
Qed.

Lemma scan_lines_CRLF (l : list string) (rest : string) :
  Forall plain_line l ->
  scan_lines (unlines (String CR nl) l +:+ rest) = (l ++ scan_lines rest)%list.
Proof.
  induction 1 as [|s l (Hn & Hc & Hl) _ IH]; [reflexivity|].
  cbn [unlines fold_right]. fold (unlines (String CR nl) l).
  rewrite !append_assoc.
  change (String CR nl +:+ (unlines (String CR nl) l +:+ rest))
    with (String CR "" +:+ String LF (unlines (String CR nl) l +:+ rest)).
  rewrite <- append_assoc. rewrite scan_line.
  - rewrite dropCR_CR, IH. reflexivity.
  - apply Contains_app; [exact Hn|reflexivity].
  - apply N.ltb_lt. rewrite length_append. simpl String.length. lia.
Qed.

(** X1. The scanner of [ListWorktrees] gives back the lines of a text
    whose lines end in a newline, or in a carriage return and a newline;
    a last line without a newline is one more line. *)
Theorem scan_lines_unlines (l : list string) (last : string) :
  Forall plain_line l -> plain_line last -> last <> "" ->
  scan_lines (unlines nl l) = l /\
  scan_lines (unlines (String CR nl) l) = l /\
  scan_lines (unlines nl l +:+ last) = (l ++ [last])%list.
Proof.
  intros Hl (Hn & Hc & Hlen) Hne.
  pose proof (scan_lines_LF l "" Hl) as E1.
  pose proof (scan_lines_CRLF l "" Hl) as E2.
  rewrite append_nil_r in E1, E2.
  split; [rewrite E1; apply app_nil_r|]. split; [rewrite E2; apply app_nil_r|].
  rewrite scan_lines_LF by exact Hl. f_equal.
  unfold scan_lines. rewrite Split_plain by exact Hn. simpl.
  apply String.eqb_neq in Hne. rewrite Hne.
  assert ((N.of_nat (String.length last) <? MaxScanTokenSize)%N = true) as ->
    by (apply N.ltb_lt; lia).
  rewrite dropCR_plain by exact Hc. reflexivity.
Qed.

(** Lines that open no block leave the finished records and the block
    flag alone. *)
Lemma fold_attrs (attrs : list string) (st : wt_loop) :
  Forall (fun l => opens_block l = false) attrs ->
  fold_left wt_line attrs st =
  mkLoop (wts st)
         (mkWorktree (Path (wt st))
                     (attr_value "branch " attrs (BranchRef (wt st)))
                     (attr_value "HEAD " attrs (HEAD (wt st)))
                     (IsMain (wt st)))
         (inBlock st).
Proof.
  intros Ha. revert st. induction Ha as [|l attrs Hl _ IH]; intros st.
  - destruct st as [ws [p b h i] ib]. reflexivity.
  - cbn [fold_left]. rewrite IH. unfold opens_block in Hl.
    unfold wt_line, attr_value. rewrite Hl. cbn [fold_left].
    destruct (GoStrings.HasPrefix l "branch ") eqn:Hb.
    + rewrite (branch_not_HEAD l Hb). reflexivity.
    + destruct (GoStrings.HasPrefix l "HEAD "); reflexivity.
Qed.

Lemma fold_blocks (blocks : list (string * list string)) (st : wt_loop) :
  Forall is_block blocks ->
  wt_flush (fold_left wt_line (block_lines blocks) st) =
  (wt_flush st ++ map block_record blocks)%list.
Proof.
  intros Hb. revert st. induction Hb as [|[h attrs] blocks [Hh Ha] _ IH]; intros st.
  - simpl. rewrite app_nil_r. reflexivity.
  - unfold block_lines. cbn [map concat fst snd]. fold (block_lines blocks).
    cbn [app fold_left]. rewrite fold_left_app, IH. simpl in Hh, Ha.
    rewrite fold_attrs by exact Ha.
    assert (wt_line st h =
            mkLoop (wt_flush st)
                   (mkWorktree (GoStrings.TrimSpace (GoStrings.TrimPrefix h "worktree "))
                               "" "" true) true) as ->
      by (unfold wt_line; unfold opens_block in Hh; rewrite Hh; reflexivity).
    unfold wt_flush at 1. cbn [inBlock wts wt Path BranchRef HEAD IsMain].
    rewrite <- app_assoc. reflexivity.
Qed.

(** X2. The records of a listing are those of its blocks, one by one:
    a record takes its path from the line that opens its block and its
    branch and head from the last such lines of its own block, empty when
    the block has none; nothing passes from one block to the next, and
    lines before the first block count for nothing. *)
Theorem parse_lines_blocks (pre : list string) (blocks : list (string * list string)) :
  Forall (fun l => opens_block l = false) pre ->
  Forall is_block blocks ->
  parse_lines (pre ++ block_lines blocks) = mark_main (map block_record blocks).
Proof.
  intros Hpre Hb. unfold parse_lines.
  rewrite fold_left_app, (fold_attrs pre) by exact Hpre.
  rewrite fold_blocks by exact Hb. reflexivity.
Qed.

Lemma fold_branch_line (lines : list string) (acc : list string) :
  fold_left branch_line lines acc =
  (acc ++ List.filter nonblank
            (map (fun l => GoStrings.TrimSpace (GoStrings.TrimPrefix l "* ")) lines))%list.
Proof.
  revert acc. induction lines as [|l lines IH]; intros acc; simpl.
  - rewrite app_nil_r. reflexivity.
  - rewrite IH. unfold branch_line, nonblank.
    destruct (String.eqb _ ""); simpl; [reflexivity|].
    rewrite <- app_assoc. reflexivity.
Qed.

(** X3. [ListBranches] asks git once.  When git fails it returns no name
    and the error with the arguments and the text of the standard error;
    otherwise it returns, in the order of the lines, the trimmed lines
    without a leading [* ], the empty ones left out. *)
Theorem ListBranches_names `{Host} (t : Trace) :
  events ListBranches t = [EvGit branch_args] /\
  (forall e stderr,
     exec_git t branch_args = ExecExit e stderr ->
     fst (ListBranches t) = ([], Some (git_failed branch_args e stderr))) /\
  (forall out,
     exec_git t branch_args = ExecOk out ->
     fst (ListBranches t) =
       (List.filter nonblank
          (map (fun l => GoStrings.TrimSpace (GoStrings.TrimPrefix l "* "))
               (split_lines out)), None) /\
     Forall (fun n => n <> "") (fst (fst (ListBranches t)))).
Proof.
  split; [|split].
  - unfold events, ListBranches, bind, runGit.
    destruct (exec_git t branch_args); simpl; rewrite drop_app_length; reflexivity.
  - intros e stderr E. unfold ListBranches, bind, runGit. rewrite E. reflexivity.
  - intros out E.
    assert (fst (ListBranches t) =
            (List.filter nonblank
               (map (fun l => GoStrings.TrimSpace (GoStrings.TrimPrefix l "* "))
                    (split_lines out)), None)) as R.
    { unfold ListBranches, bind, runGit. rewrite E. simpl.
      rewrite fold_branch_line. reflexivity. }
    split; [exact R|]. rewrite R. simpl. apply Forall_forall. intros n Hn.
    apply list_elem_of_In, List.filter_In in Hn as [_ Hn].
    unfold nonblank in Hn. apply negb_true_iff, String.eqb_neq in Hn. exact Hn.
Qed.

End Lines.

(** ** The mutation operations *)

Section MutationOutcomes.

Import git.

Context `{Host}.

(** What git's answer becomes in the hands of [runGit]. *)
Lemma runGit_error (args : list string) (t : Trace) :
  snd (fst (runGit args t)) =
  match exec_git t args with
  | ExecOk _ => None
  | ExecExit e stderr => Some (git_failed args e stderr)
  | ExecErr e => Some e
  end.
Proof. unfold runGit. simpl. destruct (exec_git t args); reflexivity. Qed.

(** X4. A mutation that lacks an argument returns its own error and does
    nothing: no directory is made and git is not called.  A creation whose
    parent directory cannot be made returns that error, and git is not
    called either. *)
Theorem mutations_that_cannot_run (t : Trace) :
  (forall branch targetDir createBranch,
     branch = "" \/ targetDir = "" ->
     CreateWorktree branch targetDir createBranch t =
       (Some "branch and targetDir required", t)) /\
  (forall branch targetDir fromRef,
     branch = "" \/ targetDir = "" \/ fromRef = "" ->
     CreateWorktreeFromRef branch targetDir fromRef t =
       (Some "branch, targetDir and fromRef required", t)) /\
  (forall force, RemoveWorktree "" force t = (Some "path required", t)) /\
  (forall branch targetDir createBranch err,
     branch <> "" -> targetDir <> "" ->
     os_MkdirAll t (filepath_Dir targetDir) = Some err ->
     CreateWorktree branch targetDir createBranch t =
       (Some err, (t ++ [EvMkdirAll (filepath_Dir targetDir)])%list)) /\
  (forall branch targetDir fromRef err,
     branch <> "" -> targetDir <> "" -> fromRef <> "" ->
     os_MkdirAll t (filepath_Dir targetDir) = Some err ->
     CreateWorktreeFromRef branch targetDir fromRef t =
       (Some err, (t ++ [EvMkdirAll (filepath_Dir targetDir)])%list)).
Proof.
  split; [|split; [|split; [|split]]].
  - intros b d c [-> | ->]; unfold CreateWorktree; [reflexivity|].
    rewrite String.eqb_refl, orb_true_r. reflexivity.
  - intros b d r [-> | [-> | ->]]; unfold CreateWorktreeFromRef; [reflexivity| |];
      rewrite String.eqb_refl, ?orb_true_r; reflexivity.
  - intros force. reflexivity.
  - intros b d c err Hb Hd Hm. apply String.eqb_neq in Hb, Hd.
    unfold CreateWorktree. rewrite Hb, Hd. cbn [orb]. unfold bind, MkdirAll, ret. rewrite Hm. reflexivity.
  - intros b d r err Hb Hd Hr Hm. apply String.eqb_neq in Hb, Hd, Hr.
    unfold CreateWorktreeFromRef. rewrite Hb, Hd, Hr. cbn [orb]. unfold bind, MkdirAll, ret. rewrite Hm. reflexivity.
Qed.

(** X5. A mutation that can run makes the parent directory first, where
    it creates, and then calls git once: [worktree add <dir> <branch>],
    [worktree add -b <branch> <dir>] for a new branch,
    [worktree add -b <branch> <dir> <ref>] from a ref,
    [worktree remove [--force] <path>].  Its error is the one of that
    call: none when git succeeds, the echo of the arguments and of the
    standard error when git exits with a failure. *)
Theorem mutations_that_run (t : Trace) :
  (forall (branch targetDir : string) (createBranch : bool),
     branch <> "" -> targetDir <> "" ->
     os_MkdirAll t (filepath_Dir targetDir) = None ->
     let t1 := (t ++ [EvMkdirAll (filepath_Dir targetDir)])%list in
     let args := if createBranch then ["worktree"; "add"; "-b"; branch; targetDir]
                 else ["worktree"; "add"; targetDir; branch] in
     CreateWorktree branch targetDir createBranch t =
       (snd (fst (runGit args t1)), (t1 ++ [EvGit args])%list)) /\
  (forall branch targetDir fromRef,
     branch <> "" -> targetDir <> "" -> fromRef <> "" ->
     os_MkdirAll t (filepath_Dir targetDir) = None ->
     let t1 := (t ++ [EvMkdirAll (filepath_Dir targetDir)])%list in
     let args := ["worktree"; "add"; "-b"; branch; targetDir; fromRef] in
     CreateWorktreeFromRef branch targetDir fromRef t =
       (snd (fst (runGit args t1)), (t1 ++ [EvGit args])%list)) /\
  (forall (path : string) (force : bool),
     path <> "" ->
     let args := if force then ["worktree"; "remove"; "--force"; path]
                 else ["worktree"; "remove"; path] in
     RemoveWorktree path force t = (snd (fst (runGit args t)), (t ++ [EvGit args])%list)) /\
  (forall args t',
     snd (fst (runGit args t')) =
     match exec_git t' args with
     | ExecOk _ => None
     | ExecExit e stderr => Some (git_failed args e stderr)
     | ExecErr e => Some e
     end).
Proof.
  split; [|split; [|split]].
  - intros b d c Hb Hd Hm t1 args. apply String.eqb_neq in Hb, Hd.
    unfold CreateWorktree. rewrite Hb, Hd. cbn [orb]. unfold bind, MkdirAll, ret. rewrite Hm. simpl.
    unfold create_args. destruct c; reflexivity.
  - intros b d r Hb Hd Hr Hm t1 args. apply String.eqb_neq in Hb, Hd, Hr.
    unfold CreateWorktreeFromRef. rewrite Hb, Hd, Hr. cbn [orb]. unfold bind, MkdirAll, ret. rewrite Hm. reflexivity.
  - intros p force Hp args. apply String.eqb_neq in Hp.
    unfold RemoveWorktree. rewrite Hp. unfold bind, ret. destruct force; reflexivity.
  - intros args t'. apply runGit_error.
Qed.

End MutationOutcomes.

Lemma mutations_that_cannot_run_witness :
  @git.CreateWorktree Sample.host "" "/w/x" true [] =
    (Some "branch and targetDir required", []) /\
  @git.CreateWorktreeFromRef Sample.host "x" "/w/x" "" [] =
    (Some "branch, targetDir and fromRef required", []) /\
  @git.CreateWorktree Sample.host_readonly "x" "/w/x" false [] =
    (Some "mkdir /w: read-only", [EvMkdirAll "/w"]).
Proof.
  split; [|split].
  - apply (proj1 (@mutations_that_cannot_run Sample.host [])). left. reflexivity.
  - apply (proj1 (proj2 (@mutations_that_cannot_run Sample.host []))).
    right. right. reflexivity.
  - exact (proj1 (proj2 (proj2 (proj2 (@mutations_that_cannot_run Sample.host_readonly []))))
             "x" "/w/x" false "mkdir /w: read-only"
             ltac:(discriminate) ltac:(discriminate) eq_refl).
Defined.

Lemma mutations_that_run_witness :
  @git.RemoveWorktree (Sample.host_with Sample.git_outside) "/w/repo-b1" true [] =
    (Some ("git [worktree remove --force /w/repo-b1] failed: exit status 128" +:+ nl
           +:+ "fatal: not a git repository"),
     [EvGit ["worktree"; "remove"; "--force"; "/w/repo-b1"]]) /\
  @git.CreateWorktreeFromRef Sample.host "release" "/w/repo-release" "origin/release" [] =
    (None, [EvMkdirAll "/w";
            EvGit ["worktree"; "add"; "-b"; "release"; "/w/repo-release"; "origin/release"]]).
Proof.
  split.
  - apply (proj1 (proj2 (proj2 (@mutations_that_run (Sample.host_with Sample.git_outside) [])))
             "/w/repo-b1" true). discriminate.
  - apply (proj1 (proj2 (@mutations_that_run Sample.host []))
             "release" "/w/repo-release" "origin/release");
      [discriminate|discriminate|discriminate|reflexivity].
Defined.

Lemma scan_lines_unlines_witness :
  git.scan_lines ("worktree /w/repo" +:+ String CR nl +:+ "HEAD 1111" +:+ String CR nl) =
    ["worktree /w/repo"; "HEAD 1111"] /\
  git.scan_lines ("worktree /w/repo" +:+ nl +:+ "bare") = ["worktree /w/repo"; "bare"].
Proof.
  assert (git.plain_line "worktree /w/repo" /\ git.plain_line "HEAD 1111" /\
          git.plain_line "bare") as (P1 & P2 & P3)
    by (repeat split; vm_compute; reflexivity).
  split.
  - apply (proj1 (proj2 (scan_lines_unlines ["worktree /w/repo"; "HEAD 1111"] "bare"
                           ltac:(repeat constructor; assumption) P3 ltac:(discriminate)))).
  - apply (proj2 (proj2 (scan_lines_unlines ["worktree /w/repo"] "bare"
                           ltac:(repeat constructor; assumption) P3 ltac:(discriminate)))).
Defined.

(** A detached worktree after one on a branch has no branch of its own. *)
Lemma parse_lines_blocks_witness :
  git.parse_lines ["warning"; "worktree /w/repo"; "branch refs/heads/main"; "HEAD 1111";
                   "worktree /w/d"; "HEAD 2222"; "detached"] =
  [git.mkWorktree "/w/repo" "refs/heads/main" "1111" true;
   git.mkWorktree "/w/d" "" "2222" false].
Proof.
  apply (parse_lines_blocks ["warning"]
           [("worktree /w/repo", ["branch refs/heads/main"; "HEAD 1111"]);
            ("worktree /w/d", ["HEAD 2222"; "detached"])]).
  - repeat constructor.
  - repeat constructor.
Defined.

Lemma ListBranches_names_witness :
  fst (@git.ListBranches Sample.host_branches []) = (["main"; "b1"], None) /\
  fst (@git.ListBranches (Sample.host_with Sample.git_outside) []) =
    ([], Some ("git [branch --format %(refname:short)] failed: exit status 128" +:+ nl
               +:+ "fatal: not a git repository")).
Proof.
  split.
  - exact (proj1 (proj2 (proj2 (@ListBranches_names Sample.host_branches []))
                    ("* main" +:+ nl +:+ "  b1" +:+ nl +:+ nl) eq_refl)).
  - apply (proj1 (proj2 (@ListBranches_names (Sample.host_with Sample.git_outside) []))
             "exit status 128" "fatal: not a git repository"). reflexivity.
Defined.

(** ** The entries of the branch listing *)

Section Entries.

Import git.

Lemma local_line_entry (st : br_loop) (l0 : string) :
  local_line st l0 =
  if nonblank (GoStrings.TrimSpace l0)
  then ((fst st ++ [local_entry (GoStrings.TrimSpace l0)])%list,
        <[Name (local_entry (GoStrings.TrimSpace l0)) := true]> (snd st))
  else st.
Proof.
  unfold local_line, nonblank, local_entry. cbv zeta.
  destruct (String.eqb (GoStrings.TrimSpace l0) ""); [reflexivity|]. cbn [negb].
  destruct (String.eqb (if GoStrings.Contains _ _ then _ else "") ""); reflexivity.
Qed.

Lemma local_fold_entries (lines : list string) (st : br_loop) :
  fst (fold_left local_line lines st) =
  (fst st ++ map local_entry (List.filter nonblank (map GoStrings.TrimSpace lines)))%list.
Proof.
  revert st. induction lines as [|l lines IH]; intros st; simpl.
  - rewrite app_nil_r. reflexivity.
  - rewrite IH, local_line_entry.
    destruct (nonblank (GoStrings.TrimSpace l)); [|reflexivity].
    simpl. rewrite <- app_assoc. reflexivity.
Qed.

Lemma local_entry_ok (l : string) : entry_ok (local_entry l) /\ IsRemote (local_entry l) = false.
Proof.
  unfold local_entry. cbv zeta.
  destruct (String.eqb (if GoStrings.Contains _ _ then _ else "") "") eqn:E.
  - split; [|reflexivity]. unfold entry_ok. simpl.
    intuition (discriminate || congruence).
  - split; [|reflexivity]. unfold entry_ok. simpl. apply String.eqb_neq in E.
    intuition (discriminate || congruence).
Qed.

(** A round of the second loop, with all that the new entry is. *)
Lemma remote_line_entry (st : br_loop) (l : string) :
  remote_line st l = st \/
  exists b, IsRemote b = true /\ entry_ok b /\ RemoteRef b = GoStrings.TrimSpace l /\
            seen_get (snd st) (Name b) = false /\
            remote_line st l = ((fst st ++ [b])%list, <[Name b := true]> (snd st)).
Proof.
  unfold remote_line. cbv zeta.
  destruct (String.eqb (GoStrings.TrimSpace l) ""); [left; reflexivity|].
  destruct (GoStrings.HasSuffix (GoStrings.TrimSpace l) "/HEAD"); [left; reflexivity|].
  rewrite SplitN_2.
  destruct (GoStrings.cut "/" (GoStrings.TrimSpace l)) as [[a b]|] eqn:Hc;
    [|left; reflexivity].
  cbn [length Nat.eqb negb].
  change (part [a; b] 0%nat) with a. change (part [a; b] 1%nat) with b.
  destruct (seen_get (snd st) b) eqn:Hs; [left; reflexivity|].
  right. exists (mkBranch b true a (GoStrings.TrimSpace l) false "" "").
  destruct (cut_Some _ _ _ _ Hc) as [Hl Ha].
  split; [reflexivity|]. split; [|split; [reflexivity|split; [exact Hs|reflexivity]]].
  unfold entry_ok. simpl. intuition (discriminate || congruence).
Qed.

Lemma remote_fold_entries (lines : list string) (st : br_loop) :
  names_seen st ->
  exists R,
    fst (fold_left remote_line lines st) = (fst st ++ R)%list /\
    Forall (fun b => IsRemote b = true /\ entry_ok b) R /\
    NoDup (map Name R) /\
    map RemoteRef R `sublist_of` map GoStrings.TrimSpace lines.
Proof.
  revert st. induction lines as [|l lines IH]; intros st Hs; simpl.
  - exists []. rewrite app_nil_r. repeat split; constructor.
  - destruct (remote_line_entry st l) as [->|(b & Hr & Hok & Href & Hfresh & ->)].
    + destruct (IH st Hs) as (R & HR & HF & Hnd & Hsub).
      exists R. repeat split; try assumption. apply sublist_cons, Hsub.
    + pose proof (remote_fold lines _ (names_seen_push st b Hs))
        as (R0 & HR0 & _ & _ & Hdis).
      destruct (IH _ (names_seen_push st b Hs)) as (R & HR & HF & Hnd & Hsub).
      assert (R0 = R) as -> by (rewrite HR0 in HR; apply app_inv_head in HR; exact HR).
      simpl in HR, Hdis. exists (b :: R).
      split; [rewrite HR, <- app_assoc; reflexivity|].
      split; [constructor; [split; assumption|exact HF]|]. split.
      * simpl. constructor; [|exact Hnd].
        intros Hin. apply list_elem_of_fmap in Hin as (x & Hx & HxR).
        apply (Hdis x HxR). rewrite map_app. apply elem_of_app. right.
        simpl. rewrite Hx. apply list_elem_of_here.
      * simpl. rewrite Href. apply sublist_skip, Hsub.
Qed.

Lemma filter_remote_app (L R : list Branch) :
  Forall (fun b => IsRemote b = false) L -> Forall (fun b => IsRemote b = true) R ->
  List.filter IsRemote (L ++ R) = R /\
  List.filter (fun b => negb (IsRemote b)) (L ++ R) = L.
Proof.
  intros HL HR. rewrite !List.filter_app. split.
  - assert (List.filter IsRemote L = []) as ->.
    { induction HL as [|b L Hb _ IH]; simpl; [reflexivity|]. rewrite Hb. exact IH. }
    simpl. induction HR as [|b R Hb _ IH]; simpl; [reflexivity|]. rewrite Hb, IH. reflexivity.
  - assert (List.filter (fun b => negb (IsRemote b)) R = []) as ->.
    { induction HR as [|b R Hb _ IH]; simpl; [reflexivity|]. rewrite Hb. exact IH. }
    rewrite app_nil_r.
    induction HL as [|b L Hb _ IH]; simpl; [reflexivity|]. rewrite Hb, IH. reflexivity.
Qed.

(** The listing, cut in its two parts, with what the loops say of each. *)
Lemma listing_parts `{Host} (t : Trace) :
  exists R,
    fst (fst (ListBranchesDetailed t)) = (fst (local_phase (local_answer t)) ++ R)%list /\
    Forall (fun b => IsRemote b = false /\ entry_ok b) (fst (local_phase (local_answer t))) /\
    Forall (fun b => IsRemote b = true /\ entry_ok b) R /\
    NoDup (map Name R) /\
    (forall out, remote_answer t = (out, None) ->
                 map RemoteRef R `sublist_of` map GoStrings.TrimSpace (split_lines out)).
Proof.
  rewrite ListBranchesDetailed_eq. simpl. unfold merge_branches.
  destruct (local_phase_spec (local_answer t)) as [Hs _].
  assert (Forall (fun b => IsRemote b = false /\ entry_ok b)
                 (fst (local_phase (local_answer t)))) as HL.
  { unfold local_phase. destruct (snd (local_answer t)); [constructor|].
    rewrite local_fold_entries. simpl. apply Forall_forall. intros b Hb.
    apply list_elem_of_fmap in Hb as (l & -> & _).
    destruct (local_entry_ok l). split; assumption. }
  unfold remote_phase at 1.
  destruct (remote_answer t) as [out [e|]] eqn:Hr; simpl.
  - exists []. rewrite app_nil_r. repeat split; try constructor; try exact HL.
    intros out' E. discriminate E.
  - destruct (remote_fold_entries (split_lines out) _ Hs) as (R & HR & HF & Hnd & Hsub).
    exists R. repeat split; try assumption.
    intros out' E. injection E as <-. exact Hsub.
Qed.

(** X6. Every entry of the branch listing is well formed: it has an
    upstream exactly when the name of its upstream is not empty; a local
    entry names no remote and no remote ref; the remote ref of a remote
    entry is the name of its remote, a slash and its short name, the name
    of the remote holding no slash, and it has no upstream. *)
Theorem listing_entries_well_formed `{Host} (t : Trace) (b : Branch) :
  b ∈ fst (fst (ListBranchesDetailed t)) -> entry_ok b.
Proof.
  destruct (listing_parts t) as (R & -> & HL & HR & _).
  rewrite Forall_forall in HL, HR. intros Hb.
  apply elem_of_app in Hb as [Hb|Hb]; [apply (HL b Hb)|apply (HR b Hb)].
Qed.

(** X7. The local entries of the listing are the lines git printed for the
    local refs, in git's order: one entry for each line that is not blank,
    built from the trimmed line. *)
Theorem locals_follow_git_order `{Host} (t : Trace) (out : string) :
  exec_git t local_refs_args = ExecOk out ->
  List.filter (fun b => negb (IsRemote b)) (fst (fst (ListBranchesDetailed t))) =
  map local_entry (List.filter nonblank (map GoStrings.TrimSpace (split_lines out))).
Proof.
  intros E. destruct (listing_parts t) as (R & -> & HL & HR & _).
  rewrite (proj2 (filter_remote_app _ R
                    (Forall_impl _ _ _ HL (fun b Hb => proj1 Hb))
                    (Forall_impl _ _ _ HR (fun b Hb => proj1 Hb)))).
  unfold local_phase, local_answer. rewrite runGit_result, E. simpl.
  rewrite local_fold_entries. reflexivity.
Qed.

(** X8. A line [name|upstream] of the local refs gives the entry of the
    trimmed name with the trimmed upstream, and the remote of the
    upstream is what stands before its first slash; a line without a bar
    gives the entry of the whole line, without upstream. *)
Theorem local_entry_decodes (name upstream l : string) :
  (GoStrings.Contains name "|" = false ->
   let b := local_entry (name +:+ "|" +:+ upstream) in
   Name b = GoStrings.TrimSpace name /\
   Upstream b = GoStrings.TrimSpace upstream /\
   HasUpstream b = nonblank (GoStrings.TrimSpace upstream) /\
   (forall r rest, GoStrings.Contains r "/" = false ->
                   GoStrings.TrimSpace upstream = r +:+ "/" +:+ rest ->
                   UpstreamRemote b = r)) /\
  (GoStrings.Contains l "|" = false ->
   local_entry l = mkBranch l false "" "" false "" "").
Proof.
  split.
  - intros Hn b. subst b. unfold local_entry. cbv zeta.
    change (name +:+ "|" +:+ upstream) with (name +:+ String "|" upstream).
    assert (GoStrings.Contains (name +:+ String "|" upstream) "|" = true) as HC
      by (unfold GoStrings.Contains; rewrite (cut_app "|" name upstream Hn); reflexivity).
    rewrite SplitN_2, (cut_app "|" name upstream Hn), HC.
    change (part [name; upstream] 0%nat) with name.
    change (part [name; upstream] 1%nat) with upstream.
    unfold nonblank.
    destruct (String.eqb (GoStrings.TrimSpace upstream) "") eqn:E.
    + apply String.eqb_eq in E. rewrite E. simpl.
      repeat split; try reflexivity.
      intros r rest _ Hr. destruct r; discriminate Hr.
    + cbn [Name Upstream HasUpstream UpstreamRemote negb].
      repeat split; try reflexivity.
      intros r rest Hr ->.
      change (r +:+ "/" +:+ rest) with (r +:+ String "/" rest).
      rewrite SplitN_2, (cut_app "/" r rest Hr). reflexivity.
  - intros Hn. unfold local_entry. cbv zeta. rewrite Hn. reflexivity.
Qed.

(** X9. The remote entries of the listing have distinct short names, also
    across remotes, and stand in the order in which git printed their
    refs: their remote refs are, in order, some of the trimmed lines. *)
Theorem remotes_distinct_in_git_order `{Host} (t : Trace) :
  NoDup (map Name (List.filter IsRemote (fst (fst (ListBranchesDetailed t))))) /\
  (forall out,
     exec_git (t ++ [EvGit local_refs_args])%list remote_refs_args = ExecOk out ->
     map RemoteRef (List.filter IsRemote (fst (fst (ListBranchesDetailed t))))
       `sublist_of` map GoStrings.TrimSpace (split_lines out)).
Proof.
  destruct (listing_parts t) as (R & -> & HL & HR & Hnd & Hsub).
  rewrite (proj1 (filter_remote_app _ R
                    (Forall_impl _ _ _ HL (fun b Hb => proj1 Hb))
                    (Forall_impl _ _ _ HR (fun b Hb => proj1 Hb)))).
  split; [exact Hnd|]. intros out E. apply Hsub.
  unfold remote_answer. rewrite runGit_result, E. reflexivity.
Qed.

End Entries.

(** ** The two listings on the text git prints *)

Section GitText.

Import git.

Lemma rev_onto_acc (acc s : string) :
  GoStrings.rev_onto acc s = GoStrings.rev s +:+ acc.
Proof.
  revert acc. induction s as [|c s IH]; intros acc; [reflexivity|].
  unfold GoStrings.rev. cbn [GoStrings.rev_onto].
  rewrite (IH (String c acc)), (IH (String c "")), append_assoc. reflexivity.
Qed.

Lemma rev_app (a b : string) :
  GoStrings.rev (a +:+ b) = GoStrings.rev b +:+ GoStrings.rev a.
Proof.
  unfold GoStrings.rev at 1. rewrite rev_onto_app, rev_onto_acc. reflexivity.
Qed.

(** The scanner's line is the text between the newlines, or that text
    without its last byte, a carriage return. *)
Lemma dropCR_cases (s : string) :
  dropCR s = s \/ s = dropCR s +:+ String CR EmptyString.
Proof.
  unfold dropCR.
  destruct (GoStrings.cut_prefix (String CR "") (GoStrings.rev s)) as [r|] eqn:E;
    [right|left; reflexivity].
  apply cut_prefix_Some in E.
  rewrite <- (rev_rev s) at 1. rewrite E, rev_app. reflexivity.
Qed.

Lemma cut_prefix_before (c : ascii) (p a : string) :
  GoStrings.Contains p c = false ->
  GoStrings.cut_prefix p (a +:+ String c EmptyString) = None <->
  GoStrings.cut_prefix p a = None.
Proof.
  unfold GoStrings.Contains. revert a.
  induction p as [|d p IH]; intros a; ssimpl; [intros _; split; discriminate|].
  destruct (Ascii.eqb d c) eqn:Edc; [discriminate|].
  destruct (GoStrings.cut c p) as [[x y]|] eqn:Hc; [discriminate|]. intros _.
  destruct a as [|e a]; ssimpl.
  - rewrite Edc. split; reflexivity.
  - destruct (Ascii.eqb d e); [apply IH; reflexivity|split; reflexivity].
Qed.

Lemma opens_block_dropCR (s : string) : opens_block (dropCR s) = opens_block s.
Proof.
  destruct (dropCR_cases s) as [->|E]; [reflexivity|].
  rewrite E at 2. unfold opens_block, GoStrings.HasPrefix.
  pose proof (cut_prefix_before CR "worktree " (dropCR s) eq_refl) as [H1 H2].
  destruct (GoStrings.cut_prefix "worktree " (dropCR s)) as [r|] eqn:E1;
    destruct (GoStrings.cut_prefix "worktree " (dropCR s +:+ String CR "")) as [r'|] eqn:E2;
    try reflexivity.
  - discriminate (H1 eq_refl).
  - discriminate (H2 eq_refl).
Qed.

(** When every line fits the buffer, the scanner loses no block. *)
Lemma nblocks_scan_tokens (segs : list string) :
  Forall (fun seg => (N.of_nat (String.length seg) < MaxScanTokenSize)%N) segs ->
  nblocks (scan_tokens segs) = nblocks segs.
Proof.
  induction 1 as [|seg rest Hs Hrest IH]; [reflexivity|].
  apply N.ltb_lt in Hs. destruct rest as [|x rest].
  - cbn [scan_tokens]. destruct (String.eqb seg "") eqn:E.
    + apply String.eqb_eq in E. subst seg. reflexivity.
    + rewrite Hs. unfold nblocks. cbn [List.filter].
      rewrite opens_block_dropCR. destruct (opens_block seg); reflexivity.
  - rewrite scan_tokens_cons, Hs. unfold nblocks in *. cbn [List.filter].
    rewrite opens_block_dropCR.
    destruct (opens_block seg); cbn [length]; rewrite IH; reflexivity.
Qed.

(** C3, as the code has it.  For a listing text whose lines all fit the
    buffer of the scanner (each shorter than 65536 bytes) and that holds N
    blocks (N lines that open a block), [ListWorktrees] returns N records
    without error, the first marked primary and no other, whatever else
    the blocks hold; what it returns is what it returns for the text
    without the lines it has no case for. *)
Theorem ListWorktrees_blocks_of_text `{Host} (t : Trace) (out : string) :
  exec_git t worktree_list_args = ExecOk out ->
  short_lines out ->
  let r := fst (ListWorktrees t) in
  snd r = None /\
  length (fst r) = text_blocks out /\
  map IsMain (fst r) =
    match text_blocks out with
    | O => []
    | S n => true :: replicate n false
    end /\
  fst r = parse_lines (List.filter recognized (scan_lines out)).
Proof.
  intros E Hshort. rewrite (ListWorktrees_ok t out E). cbn [fst snd].
  unfold text_blocks. rewrite <- (nblocks_scan_tokens _ Hshort).
  fold (scan_lines out).
  split; [reflexivity|]. split; [apply parse_lines_length|]. split.
  - unfold parse_worktrees, parse_lines.
    rewrite mark_main_flags, fold_flush. reflexivity.
  - unfold parse_worktrees, parse_lines. rewrite fold_recognized. reflexivity.
Qed.

(** *** The local refs *)

Lemma trim_runes_stop (ps : list string) (fuel : nat) (s : string) :
  GoStrings.first_cut ps s = None -> GoStrings.trim_runes ps fuel s = s.
Proof. intros E. destruct fuel; [reflexivity|]. simpl. rewrite E. reflexivity. Qed.

Lemma TrimSpace_clean (s : string) :
  starts_clean s -> ends_clean s -> GoStrings.TrimSpace s = s.
Proof.
  intros Hs He. specialize (Hs ""). specialize (He "").
  rewrite append_nil_r in Hs, He.
  unfold GoStrings.TrimSpace, GoStrings.TrimLeftSpace, GoStrings.TrimRightSpace.
  rewrite (trim_runes_stop _ _ _ Hs), (trim_runes_stop _ _ _ He). apply rev_rev.
Qed.

Lemma starts_clean_app (a b : string) : starts_clean a -> starts_clean (a +:+ b).
Proof. intros Ha x. rewrite append_assoc. apply Ha. Qed.

Lemma ends_clean_app (a b : string) : ends_clean b -> ends_clean (a +:+ b).
Proof. intros Hb x. rewrite rev_app, append_assoc. apply Hb. Qed.

Lemma starts_clean_nonempty (s : string) : starts_clean s -> s <> "".
Proof. intros Hs ->. discriminate (Hs " "). Qed.

(** The newline at the end of a text is trimmed away, and no more when
    the text before it ends on no white space. *)
Lemma TrimSpace_final_newline (s : string) :
  starts_clean s -> ends_clean s -> GoStrings.TrimSpace (s +:+ nl) = s.
Proof.
  intros Hs He.
  unfold GoStrings.TrimSpace, GoStrings.TrimLeftSpace.
  rewrite (trim_runes_stop _ _ _ (Hs nl)).
  unfold GoStrings.TrimRightSpace. rewrite rev_app, length_append.
  change (GoStrings.rev nl +:+ GoStrings.rev s) with (String LF (GoStrings.rev s)).
  rewrite Nat.add_1_r. cbn [GoStrings.trim_runes].
  change (GoStrings.first_cut (map GoStrings.rev GoStrings.space_runes)
            (String LF (GoStrings.rev s))) with (Some (GoStrings.rev s)).
  cbv iota beta. specialize (He ""). rewrite append_nil_r in He.
  rewrite (trim_runes_stop _ _ _ He). apply rev_rev.
Qed.

Lemma unlines_app (eol : string) (a b : list string) :
  unlines eol (a ++ b)%list = unlines eol a +:+ unlines eol b.
Proof.
  induction a as [|x a IH]; [reflexivity|].
  cbn [app unlines fold_right]. fold (unlines eol (a ++ b)%list). fold (unlines eol a).
  rewrite IH, !append_assoc. reflexivity.
Qed.

Lemma Split_unlines (init : list string) (last : string) :
  Forall (fun l => GoStrings.Contains l LF = false) init ->
  GoStrings.Contains last LF = false ->
  GoStrings.Split (unlines nl init +:+ last) LF = (init ++ [last])%list.
Proof.
  intros Hi Hl. induction Hi as [|x init Hx _ IH].
  - apply Split_plain, Hl.
  - cbn [unlines fold_right]. fold (unlines nl init). rewrite !append_assoc.
    change (nl +:+ (unlines nl init +:+ last)) with (String LF (unlines nl init +:+ last)).
    rewrite Split_app by exact Hx. rewrite IH. reflexivity.
Qed.

(** What a printed line of a local ref is like. *)
Lemma ref_line_clean (r : local_ref) :
  ref_ok r ->
  GoStrings.Contains (ref_line r) LF = false /\
  starts_clean (ref_line r) /\ ends_clean (ref_line r).
Proof.
  destruct r as [name up]. unfold ref_ok, ref_line, printed_name. cbn [fst snd].
  intros ((Hn & Hs & He) & Hbar & Hup). split; [|split].
  - apply Contains_app; [exact Hn|].
    destruct Hup as [->|(Hu & _)]; [reflexivity|].
    apply (Contains_app LF "|" up); [reflexivity|exact Hu].
  - apply starts_clean_app, Hs.
  - destruct Hup as [->|(_ & _ & Hu)].
    + intros x. rewrite rev_app. reflexivity.
    + rewrite <- append_assoc. apply ends_clean_app, Hu.
Qed.

(** The lines the first loop goes through are the lines git printed. *)
Lemma split_lines_refs (refs : list local_ref) :
  Forall ref_ok refs -> refs <> [] ->
  split_lines (refs_text refs) = map ref_line refs.
Proof.
  intros Hok Hne. destruct (exists_last Hne) as (init & r & ->).
  apply Forall_app in Hok as [Hinit Hr]. apply Forall_inv in Hr.
  destruct (ref_line_clean r Hr) as (Hn & Hs & He).
  unfold split_lines, refs_text. rewrite map_app, unlines_app.
  cbn [map unlines fold_right]. rewrite append_nil_r, <- append_assoc.
  assert (Forall (fun l => GoStrings.Contains l LF = false) (map ref_line init)) as Hlf.
  { apply Forall_forall. intros l Hl. apply list_elem_of_fmap in Hl as (x & -> & Hx).
    rewrite Forall_forall in Hinit. apply (ref_line_clean x (Hinit x Hx)). }
  rewrite TrimSpace_final_newline.
  - apply Split_unlines; assumption.
  - destruct init as [|x init]; [exact Hs|].
    cbn [map unlines fold_right]. rewrite !append_assoc.
    apply starts_clean_app. apply Forall_inv in Hinit.
    apply (ref_line_clean x Hinit).
  - apply ends_clean_app, He.
Qed.

Lemma local_entry_name (r : local_ref) :
  ref_ok r -> Name (local_entry (ref_line r)) = fst r.
Proof.
  destruct r as [name up]. unfold ref_ok, ref_line, printed_name. cbn [fst snd].
  intros ((_ & Hs & He) & Hbar & _). unfold local_entry. cbv zeta.
  change (name +:+ "|" +:+ up) with (name +:+ String "|" up).
  assert (GoStrings.Contains (name +:+ String "|" up) "|" = true) as ->
    by (unfold GoStrings.Contains; rewrite (cut_app "|" name up Hbar); reflexivity).
  rewrite SplitN_2, (cut_app "|" name up Hbar).
  change (part [name; up] 0%nat) with name.
  rewrite (TrimSpace_clean name Hs He).
  destruct (String.eqb _ ""); reflexivity.
Qed.

(** The entries of the first loop are those of git's local refs, one for
    each ref and under its name. *)
Lemma local_phase_refs (refs : list local_ref) :
  Forall ref_ok refs ->
  fst (local_phase (refs_text refs, None)) = map (fun r => local_entry (ref_line r)) refs.
Proof.
  intros Hok. destruct refs as [|r0 refs0]; [reflexivity|].
  unfold local_phase. cbn [fst snd].
  rewrite split_lines_refs by (assumption || discriminate).
  rewrite local_fold_entries. cbn [fst app].
  set (refs := r0 :: refs0) in *. clearbody refs.
  induction Hok as [|r refs Hr _ IH]; [reflexivity|].
  destruct (ref_line_clean r Hr) as (_ & Hs & He).
  cbn [map]. rewrite (TrimSpace_clean _ Hs He). cbn [List.filter].
  assert (nonblank (ref_line r) = true) as ->.
  { unfold nonblank. apply negb_true_iff, String.eqb_neq.
    apply starts_clean_nonempty, Hs. }
  cbn [map]. rewrite IH. reflexivity.
Qed.

Lemma filter_name_one (L : list Branch) (b : Branch) :
  NoDup (map Name L) -> b ∈ L ->
  List.filter (fun x => String.eqb (Name x) (Name b)) L = [b].
Proof.
  induction L as [|x L IH]; intros Hnd Hb; [inversion Hb|].
  cbn [map] in Hnd. apply NoDup_cons in Hnd as [Hx Hnd].
  cbn [List.filter]. apply elem_of_cons in Hb as [->|Hb].
  - rewrite String.eqb_refl. rewrite (filter_name_none (Name x) L Hx). reflexivity.
  - assert (String.eqb (Name x) (Name b) = false) as ->.
    { apply String.eqb_neq. intros E. apply Hx. rewrite E.
      apply list_elem_of_fmap. exists b. split; [reflexivity|exact Hb]. }
    apply IH; assumption.
Qed.

(** C4, as the code has it.  Let git print its local refs, of distinct
    short names none of which holds a bar.  Then the listing is one local
    entry for each local ref, under its short name and in git's order,
    followed by the remote entries, none of which carries the short name
    of a local ref: whatever the remote refs are, the listing holds
    exactly one entry under the short name of a local branch, and it is
    the local one. *)
Theorem ListBranchesDetailed_locals_of_git `{Host} (t : Trace) (refs : list local_ref) :
  Forall ref_ok refs -> NoDup (map fst refs) ->
  exec_git t local_refs_args = ExecOk (refs_text refs) ->
  let bs := fst (fst (ListBranchesDetailed t)) in
  let locals := map (fun r => local_entry (ref_line r)) refs in
  exists remotes,
    bs = (locals ++ remotes)%list /\
    map Name locals = map fst refs /\
    Forall (fun b => IsRemote b = false) locals /\
    Forall (fun b => IsRemote b = true /\ Name b ∉ map fst refs) remotes /\
    (forall n, n ∈ map fst refs ->
       exists b, List.filter (fun x => String.eqb (Name x) n) bs = [b] /\
                 IsRemote b = false /\ b ∈ locals).
Proof.
  intros Hok Hnd E bs locals. subst bs.
  assert (map Name locals = map fst refs) as Hnames.
  { subst locals. clear Hnd E. induction Hok as [|r refs Hr _ IH]; [reflexivity|].
    cbn [map]. rewrite local_entry_name by exact Hr. rewrite IH. reflexivity. }
  assert (fst (local_phase (local_answer t)) = locals) as Hloc.
  { unfold local_answer. rewrite runGit_result, E. apply local_phase_refs, Hok. }
  rewrite ListBranchesDetailed_eq. cbn [fst]. unfold merge_branches.
  destruct (local_phase_spec (local_answer t)) as [Hs Hl].
  destruct (remote_phase_spec (remote_answer t) _ Hs) as (R & HR & Hrem & _ & Hdis).
  rewrite Hloc in HR, Hl, Hdis. rewrite Hnames in Hdis.
  exists R. split; [exact HR|]. split; [exact Hnames|].
  split; [eapply Forall_impl; [exact Hl|]; intros b Hb; apply Hb|].
  split.
  - apply Forall_forall. intros b Hb. split; [|apply Hdis, Hb].
    rewrite Forall_forall in Hrem. apply (Hrem b Hb).
  - intros n Hn. rewrite <- Hnames in Hn.
    apply list_elem_of_fmap in Hn as (b & -> & Hb).
    exists b. split; [|split; [|exact Hb]].
    + rewrite HR, List.filter_app, (filter_name_one locals b); [| |exact Hb].
      * rewrite (filter_name_none (Name b) R); [reflexivity|].
        intros Hin. apply list_elem_of_fmap in Hin as (x & Hx & HxR).
        apply (Hdis x HxR). rewrite <- Hx, <- Hnames.
        apply list_elem_of_fmap. exists b. split; [reflexivity|exact Hb].
      * rewrite Hnames. exact Hnd.
    + rewrite Forall_forall in Hl. apply (Hl b Hb).
Qed.

End GitText.

(** On a listing whose longest line has 65535 bytes, both blocks are
    read. *)
Lemma ListWorktrees_blocks_of_text_witness :
  let r := fst (@git.ListWorktrees (Sample.host_listing Sample.fitting_porcelain) []) in
  snd r = None /\
  length (fst r) = 2%nat /\
  map git.IsMain (fst r) = [true; false] /\
  map git.Path (fst r) = ["/a"; "/b"].
Proof.
  assert (git.short_lines Sample.fitting_porcelain) as Hshort.
  { unfold git.short_lines. apply (bool_decide_unpack _). vm_compute. exact I. }
  destruct (@ListWorktrees_blocks_of_text (Sample.host_listing Sample.fitting_porcelain) []
              Sample.fitting_porcelain eq_refl Hshort) as (He & Hn & Hm & _).
  split; [exact He|]. split; [|split].
  - rewrite Hn. vm_compute. reflexivity.
  - rewrite Hm. vm_compute. reflexivity.
  - vm_compute. reflexivity.
Defined.

(** C3 as stated fails on a line that does not fit the buffer of the
    scanner: the text holds two blocks, the line of 65536 bytes in the
    first one ends the scan, and one record comes back, without error. *)
Lemma ListWorktrees_long_line :
  git.text_blocks Sample.long_porcelain = 2%nat /\
  git.scan_lines Sample.long_porcelain = ["worktree /a"; "HEAD 1111"] /\
  @git.ListWorktrees (Sample.host_listing Sample.long_porcelain) [] =
    (([git.mkWorktree "/a" "" "1111" true], None), [EvGit git.worktree_list_args]).
Proof. vm_compute. repeat split; reflexivity. Qed.

(** The local branches [main], tracking [origin/main], and [b1]: one
    entry each, and the remote [origin/main] adds none. *)
Lemma ListBranchesDetailed_locals_of_git_witness :
  let bs := fst (fst (@git.ListBranchesDetailed Sample.host [])) in
  exists b, List.filter (fun x => String.eqb (git.Name x) "main") bs = [b] /\
            git.IsRemote b = false.
Proof.
  assert (git.ref_ok ("main", "origin/main") /\ git.ref_ok ("b1", "")) as [H1 H2].
  { unfold git.ref_ok, git.printed_name, git.starts_clean, git.ends_clean.
    cbn [fst snd]. repeat split; try reflexivity; try (intros x; reflexivity);
      try (left; reflexivity).
    right. repeat split; try reflexivity; intros x; reflexivity. }
  assert (NoDup (map fst [("main", "origin/main"); ("b1", "")])) as Hnd.
  { cbn [map fst]. apply NoDup_cons. split.
    - rewrite not_elem_of_cons. split; [discriminate|inversion 1].
    - apply NoDup_cons. split; [inversion 1|constructor]. }
  assert (Forall git.ref_ok [("main", "origin/main"); ("b1", "")]) as Hok
    by (repeat constructor; assumption).
  destruct (@ListBranchesDetailed_locals_of_git Sample.host []
              [("main", "origin/main"); ("b1", "")] Hok Hnd eq_refl)
    as (R & _ & _ & _ & _ & Hone).
  destruct (Hone "main") as (b & Hb & Hr & _).
  - cbn [map fst]. apply list_elem_of_here.
  - exists b. split; [exact Hb|exact Hr].
Defined.

(** C4 as stated fails for a local branch whose name holds a bar: the
    line git prints for [a|b] is read as the branch [a] tracking [b|], so
    that with the local branch [a] and the remote [origin/a] the listing
    holds two entries under the short name [a]. *)
Lemma ListBranchesDetailed_bar_in_name :
  let H := Sample.host_with Sample.git_bar in
  exec_git [] git.local_refs_args = ExecOk (git.refs_text [("a|b", ""); ("a", "")]) /\
  List.filter (fun x => String.eqb (git.Name x) "a") (fst (fst (git.ListBranchesDetailed [])))
  = [git.mkBranch "a" false "" "" true "b|" "b|"; git.mkBranch "a" false "" "" false "" ""].
Proof. vm_compute. split; reflexivity. Qed.

(** ** The two lists and the editor of the name, in every reachable state *)

Section Shape.

Import tui.

Context `{Host} `{Widgets}.

Lemma head_add_insert (l : list item) (i : nat) (x : item) :
  head_add l -> i <> 0%nat -> isAdd x = false -> head_add (<[i := x]> l).
Proof.
  destruct l as [|it0 rest]; [auto|]. intros [Ha Hr] Hi Hx.
  destruct i as [|j]; [congruence|]. simpl. split; [exact Ha|].
  apply Forall_insert; assumption.
Qed.

(** An entry that is not synthetic is not the first of such a list. *)
Lemma head_add_index (l : list item) (i : nat) (it : item) :
  head_add l -> l !! i = Some it -> isAdd it = false -> i <> 0%nat.
Proof.
  destruct l as [|it0 rest]; [discriminate|]. intros [Ha _] Hi Hit ->.
  simpl in Hi. injection Hi as ->. congruence.
Qed.

Lemma shape_same (m m' : model) :
  shape_ok m ->
  branchDel m' = branchDel m ->
  (m_state m' = m_state m \/ is_editing m = false \/ m_state m' = stateAddPick) ->
  Items (m_list m') = Items (m_list m) ->
  Items (branches m') = Items (branches m) ->
  (confirmIndex m' = -1 \/ confirmPrev m' = confirmPrev m /\ confirmIndex m' = confirmIndex m) ->
  shape_ok m'.
Proof.
  intros (Hd & He & Hl & Hb & Hp) Ed Es El Eb Ec. unfold shape_ok, is_editing in *.
  rewrite Ed, El, Eb. split; [exact Hd|]. split; [|split; [exact Hl|split; [exact Hb|]]].
  - intros E. destruct Es as [-> | [E' | ->]]; [auto|congruence|reflexivity].
  - destruct Ec as [-> | [-> ->]]; [intros []; reflexivity|exact Hp].
Qed.

Lemma shape_restore (m : model) :
  confirm_ok m -> shape_ok m -> shape_ok (restore_confirm m).
Proof.
  intros (_ & _ & Hc) (Hd & He & Hl & Hb & Hp).
  destruct (restore_confirm_frame m) as (E1 & E2 & _ & _ & E5 & _).
  assert (branchDel (restore_confirm m) = branchDel m) as Ed
    by (unfold restore_confirm; destruct (_ && _); reflexivity).
  unfold shape_ok, is_editing. rewrite Ed, E1, E2, E5.
  split; [exact Hd|]. split; [exact He|]. split; [|split; [exact Hb|intros []; reflexivity]].
  destruct (Z.eq_dec (confirmIndex m) (-1)) as [E|E].
  - unfold restore_confirm. rewrite E. exact Hl.
  - destruct (Hc E) as (Hr & it & Hit & _ & Hadd).
    rewrite restore_confirm_Items by exact Hr.
    apply head_add_insert; [exact Hl| |exact (Hp E)].
    exact (head_add_index _ _ _ Hl Hit Hadd).
Qed.

Lemma shape_settled (m : model) :
  confirm_ok m -> shape_ok m -> head_add (Items (m_list (settled m))).
Proof.
  intros Hc Hs. unfold settled. destruct (negb _); [|apply Hs].
  apply (shape_restore m Hc Hs).
Qed.

Lemma shape_list_d (m : model) :
  confirm_ok m -> shape_ok m -> shape_ok (fst (list_d m)).
Proof.
  intros Hc Hs. destruct (SelectedItem (m_list m)) as [it|] eqn:Hsel;
    [|unfold list_d; rewrite Hsel; exact Hs].
  destruct (isAdd it) eqn:Hadd; [unfold list_d; rewrite Hsel, Hadd; exact Hs|].
  destruct (git.IsMain (wt it)) eqn:Hmain;
    [unfold list_d; rewrite Hsel, Hadd, Hmain; exact Hs|].
  destruct (SelectedItem_Some _ _ Hsel) as [Hr Hit].
  destruct (list_d_spec m it Hsel Hadd Hmain) as (_ & HI & HC & HP & _ & HS & HB).
  assert (branchDel (fst (list_d m)) = branchDel m) as Ed.
  { unfold list_d. rewrite Hsel, Hadd, Hmain. cbv zeta. simpl.
    unfold restore_confirm. destruct (negb _); [|reflexivity].
    destruct (_ && _); reflexivity. }
  pose proof (shape_settled m Hc Hs) as Hset.
  destruct Hs as (Hd & He & Hl & Hb & Hp).
  unfold shape_ok, is_editing. rewrite Ed, HS, HI, HB, HP.
  split; [exact Hd|]. split; [exact He|]. split; [|split; [exact Hb|intros _; exact Hadd]].
  apply head_add_insert; [exact Hset| |exact Hadd].
  exact (head_add_index _ _ _ Hl Hit Hadd).
Qed.

Lemma shape_updateAddItemTitle (v : string) (m : model) :
  shape_ok m -> shape_ok (updateAddItemTitle v m).
Proof.
  intros Hs. unfold updateAddItemTitle.
  destruct (Items (branches m)) as [|it0 rest] eqn:Hi; [exact Hs|].
  destruct (isAdd it0) eqn:Hadd; [|exact Hs]. cbn [negb].
  destruct Hs as (Hd & He & Hl & Hb & Hp). rewrite Hi in Hb.
  unfold shape_ok, is_editing. simpl.
  split; [exact Hd|]. split; [exact He|]. split; [exact Hl|]. split; [|exact Hp].
  split; [reflexivity|apply Hb].
Qed.

Lemma is_editing_updateAddItemTitle (v : string) (m : model) :
  is_editing (updateAddItemTitle v m) = is_editing m.
Proof.
  unfold updateAddItemTitle. destruct (Items (branches m)) as [|it0 rest]; [reflexivity|].
  destruct (negb (isAdd it0)); reflexivity.
Qed.

Lemma shape_stop_editing (i : TextInput) (m : model) :
  shape_ok m -> m_state m = stateAddPick ->
  shape_ok (set_state stateList (resetAddItemTitle (set_input i (set_editing false m)))) /\
  shape_ok (resetAddItemTitle (set_input i (set_editing false m))).
Proof.
  intros Hs Hst.
  assert (shape_ok (set_input i (set_editing false m))) as H1.
  { destruct Hs as (Hd & He & Hl & Hb & Hp). unfold set_editing.
    destruct (branchDel m) eqn:E; [|congruence].
    unfold shape_ok, is_editing. simpl.
    split; [discriminate|]. split; [discriminate|]. auto. }
  pose proof (shape_updateAddItemTitle "" _ H1) as H2. fold (resetAddItemTitle) in H2.
  split; [|exact H2].
  assert (is_editing (resetAddItemTitle (set_input i (set_editing false m))) = false) as Hf.
  { unfold resetAddItemTitle. rewrite is_editing_updateAddItemTitle.
    unfold set_editing, is_editing. destruct (branchDel m) eqn:E; simpl; [reflexivity|].
    rewrite E. reflexivity. }
  destruct H2 as (Hd & He & Hl & Hb & Hp).
  unfold shape_ok. unfold is_editing in *. simpl. split; [exact Hd|].
  split; [intros E; rewrite Hf in E; discriminate E|]. auto.
Qed.

Lemma shape_start_editing (s0 : bool) (m : model) :
  shape_ok m -> m_state m = stateAddPick -> shape_ok (start_editing s0 m).
Proof.
  intros Hs Hst. unfold start_editing. destruct (branchDel m) eqn:E; [|exact Hs].
  apply shape_updateAddItemTitle.
  destruct Hs as (Hd & He & Hl & Hb & Hp).
  unfold set_editing. rewrite E.
  destruct s0; unfold shape_ok, is_editing; simpl;
    (split; [discriminate|]); (split; [intros _; exact Hst|]); auto.
Qed.

Lemma shape_Update (msg : Msg) (m : model) (t : Trace) :
  confirm_ok m -> shape_ok m -> shape_ok (fst (fst (Update msg m t))).
Proof.
  intros Hc Hs. pose proof Hc as (_ & Hst & _). pose proof Hs as (Hd & He & Hl & Hb & Hp).
  destruct msg as [w h|e|ws e|bs e|k|]; simpl; try exact Hs.
  - destruct e; simpl; [exact Hs|].
    unfold shape_ok, is_editing. simpl. split; [exact Hd|]. split; [exact He|].
    split; [|split; [exact Hb|intros []; reflexivity]].
    split; [reflexivity|]. apply Forall_forall. intros it Hit.
    apply list_elem_of_fmap in Hit as (w & -> & _). reflexivity.
  - destruct e; simpl; [exact Hs|].
    unfold shape_ok, is_editing. simpl. split; [exact Hd|]. split; [exact He|].
    split; [exact Hl|]. split; [|exact Hp].
    split; [reflexivity|]. apply Forall_forall. intros it Hit.
    apply list_elem_of_fmap in Hit as (b & -> & _). reflexivity.
  - destruct (String.eqb k "ctrl+c"); [exact Hs|].
    destruct Hst as [Hst|Hst]; rewrite Hst.
    + assert (is_editing m = false) as Hne.
      { destruct (is_editing m) eqn:E; [|reflexivity]. rewrite (He eq_refl) in Hst.
        discriminate Hst. }
      unfold update_list.
      destruct (String.eqb k "q" || String.eqb k "ctrl+c"); [exact Hs|].
      destruct (String.eqb k "esc").
      { destruct (negb _); [apply shape_restore; assumption|exact Hs]. }
      destruct (String.eqb k "r"); [apply (shape_same m); simpl; auto|].
      destruct (String.eqb k "a"); [apply (shape_same m); simpl; auto|].
      destruct (String.eqb k "enter").
      { unfold list_enter.
        destruct (negb (confirmIndex m =? -1) && (Index (m_list m) =? confirmIndex m)).
        - destruct (negb (String.eqb (git.Path (selected m)) "")); [|exact Hs].
          unfold bind. destruct (git.RemoveWorktree _ true t) as [[e|] t']; simpl.
          + apply shape_restore; assumption.
          + apply (shape_same m); simpl; auto.
        - destruct (SelectedItem (m_list m)) as [it|]; [|exact Hs].
          destruct (isAdd it); [apply (shape_same m); simpl; auto|].
          destruct (negb (String.eqb (git.Path (wt it)) "")); [|exact Hs].
          destruct (buildEditorCmd _); exact Hs. }
      destruct (String.eqb k "d"); [apply shape_list_d; assumption|].
      apply (shape_same m); simpl; auto.
    + destruct (is_editing m) eqn:Hed.
      * unfold update_editing.
        destruct (String.eqb k "esc"); [apply shape_stop_editing; assumption|].
        destruct (String.eqb k "enter").
        { cbv zeta. destruct (String.eqb _ ""); [exact Hs|].
          unfold bind. destruct (git.CreateWorktree _ _ true t) as [[e|] t']; [exact Hs|].
          apply shape_stop_editing; assumption. }
        simpl. apply shape_updateAddItemTitle. apply (shape_same m); simpl; auto.
      * unfold update_pick.
        destruct (String.eqb k "esc"); [apply (shape_same m); simpl; auto|].
        destruct (String.eqb k "n"); [apply shape_start_editing; assumption|].
        destruct (String.eqb k "enter").
        { destruct (SelectedItem (branches m)) as [it|]; [|exact Hs].
          destruct (isAdd it); [apply shape_start_editing; assumption|].
          cbv zeta. unfold bind.
          destruct (git.CreateWorktree _ _ false t) as [[e|] t']; [exact Hs|].
          apply (shape_same m); simpl; auto. }
        apply (shape_same m); simpl; auto.
Qed.

Lemma reachable_shape (m : model) : reachable m -> confirm_ok m /\ shape_ok m.
Proof.
  induction 1 as [|m msg t Hr [Hc Hs]].
  - split; [apply reachable_confirm_ok; constructor|].
    unfold shape_ok, initialModel, is_editing. simpl.
    split; [discriminate|]. split; [discriminate|]. split; [exact I|]. split; [exact I|].
    intros []. reflexivity.
  - split; [apply ok_Update, Hc|apply shape_Update; assumption].
Qed.

(** X10. In every state the program reaches the mode is the list or the
    branch picker: the modes of the older dialogs, [stateAddNewInput] and
    [stateConfirmDelete], are never entered.  The delegate of the picker
    is never nil, and a name is edited only in the picker. *)
Theorem modes_reached (m : model) :
  reachable m ->
  (m_state m = stateList \/ m_state m = stateAddPick) /\
  branchDel m <> None /\
  (m_state m = stateList -> is_editing m = false).
Proof.
  intros Hr. destruct (reachable_shape m Hr) as [(_ & Hst & _) (Hd & He & _)].
  split; [exact Hst|]. split; [exact Hd|].
  intros E. destruct (is_editing m); [|reflexivity].
  rewrite (He eq_refl) in E. discriminate E.
Qed.

(** X11. In every state the program reaches, each of the two lists is
    empty or starts with its synthetic entry, and no other entry is
    synthetic; a pending confirmation is never on the first entry, and
    the snapshot it holds is not the synthetic entry. *)
Theorem synthetic_entry_first (m : model) :
  reachable m ->
  head_add (Items (m_list m)) /\
  head_add (Items (branches m)) /\
  (confirmIndex m <> -1 -> 1 <= confirmIndex m /\ isAdd (confirmPrev m) = false).
Proof.
  intros Hr. destruct (reachable_shape m Hr) as [(_ & _ & Hc) (_ & _ & Hl & Hb & Hp)].
  split; [exact Hl|]. split; [exact Hb|]. intros E.
  destruct (Hc E) as (Hrange & it & Hit & _ & Hadd).
  split; [|exact (Hp E)].
  pose proof (head_add_index _ _ _ Hl Hit Hadd). lia.
Qed.

End Shape.

(** ** Keys and messages, one by one *)

Section Keys.

Import tui.

Context `{Host} `{Widgets}.

(** X12. Only [enter] reaches outside the program: on every other
    message, a key or not, [Update] calls neither git nor the file
    system. *)
Theorem only_enter_reaches_outside (msg : Msg) (m : model) (t : Trace) :
  msg <> KeyMsg "enter" -> snd (Update msg m t) = t.
Proof.
  intros Hne. destruct (trace_Update msg m t) as [E|[(b & p & c & E)|(Hmsg & _)]];
    [exact E| |congruence].
  destruct msg as [w h|e|ws e|bs e|k|]; try reflexivity.
  assert (String.eqb k "enter" = false) as Hk
    by (apply String.eqb_neq; intros ->; apply Hne; reflexivity).
  simpl. destruct (String.eqb k "ctrl+c"); [reflexivity|].
  destruct (m_state m).
  - unfold update_list. rewrite Hk.
    destruct (String.eqb k "q" || String.eqb k "ctrl+c"); [reflexivity|].
    destruct (String.eqb k "esc"); [destruct (negb _); reflexivity|].
    destruct (String.eqb k "r"); [reflexivity|].
    destruct (String.eqb k "a"); [reflexivity|].
    destruct (String.eqb k "d"); reflexivity.
  - destruct (is_editing m).
    + unfold update_editing. rewrite Hk. destruct (String.eqb k "esc"); reflexivity.
    + unfold update_pick. rewrite Hk.
      destruct (String.eqb k "esc"); [reflexivity|].
      destruct (String.eqb k "n"); reflexivity.
  - unfold update_newInput. rewrite Hk. destruct (String.eqb k "esc"); reflexivity.
  - unfold update_confirmDelete. rewrite Hk. destruct (String.eqb k "esc"); reflexivity.
Qed.

(** X13. [enter] in the list on the entry of a worktree, the cursor not
    on a pending confirmation, asks for the editor on the path of the
    worktree and calls nothing: the editor is [$VISUAL], or [$EDITOR]
    when [$VISUAL] is empty; when both are empty the list shows
    [No editor: $EDITOR not set].  The state is the same in each case. *)
Theorem enter_opens_editor (m : model) (t : Trace) (it : item) :
  m_state m = stateList ->
  confirmIndex m = -1 \/ Index (m_list m) <> confirmIndex m ->
  SelectedItem (m_list m) = Some it -> isAdd it = false -> git.Path (wt it) <> "" ->
  Update (KeyMsg "enter") m t =
    ((m, if negb (String.eqb (os_Getenv "VISUAL") "")
         then ExecProcess (os_Getenv "VISUAL") (git.Path (wt it))
         else if negb (String.eqb (os_Getenv "EDITOR") "")
              then ExecProcess (os_Getenv "EDITOR") (git.Path (wt it))
              else NewStatusMessage MainList "No editor: $EDITOR not set"), t).
Proof.
  intros Hst Hci Hsel Hadd Hp. rewrite Update_key by reflexivity. rewrite Hst.
  unfold update_list. eqb_lit. unfold list_enter.
  assert (negb (confirmIndex m =? -1) && (Index (m_list m) =? confirmIndex m) = false) as ->.
  { destruct Hci as [-> | Hci]; [reflexivity|].
    apply andb_false_iff. right. apply Z.eqb_neq. exact Hci. }
  rewrite Hsel, Hadd. apply String.eqb_neq in Hp. rewrite Hp. cbn [negb].
  unfold buildEditorCmd.
  destruct (String.eqb (os_Getenv "VISUAL") "") eqn:Ev; cbn [negb].
  - destruct (String.eqb (os_Getenv "EDITOR") ""); reflexivity.
  - rewrite Ev. reflexivity.
Qed.

Lemma list_d_Index (m : model) (it : item) :
  SelectedItem (m_list m) = Some it -> isAdd it = false -> git.IsMain (wt it) = false ->
  Index (m_list (fst (list_d m))) = Index (m_list m).
Proof.
  intros Hsel Hadd Hmain. destruct (SelectedItem_Some _ _ Hsel) as [Hr Hit].
  unfold list_d. rewrite Hsel, Hadd, Hmain. cbv zeta. fold (settled m).
  assert (Index (m_list (settled m)) = Index (m_list m) /\
          length (Items (m_list (settled m))) = length (Items (m_list m))) as [Hi Hl].
  { unfold settled. destruct (negb _); [|auto].
    split; [apply restore_confirm_Index, Hr|apply restore_confirm_frame]. }
  cbn [fst m_list set_list set_confirmPrev set_confirmIndex set_selected].
  rewrite SetItems_Index; [exact Hi|]. rewrite length_insert, Hl, Hi. exact Hr.
Qed.

(** X14. After [d] on an entry that can be removed, [enter] calls
    [RemoveWorktree] on the path of that entry, with force.  When the
    removal fails the list is again the one from before [d], no
    confirmation is pending and the error is shown; when it succeeds no
    confirmation is pending and a refresh is asked for, with a notice. *)
Theorem confirmed_removal (m : model) (t t' : Trace) (it : item) :
  m_state m = stateList -> confirmIndex m = -1 ->
  SelectedItem (m_list m) = Some it -> isAdd it = false -> git.IsMain (wt it) = false ->
  git.Path (wt it) <> "" ->
  let m1 := fst (fst (Update (KeyMsg "d") m t)) in
  let r := git.RemoveWorktree (git.Path (wt it)) true t' in
  Update (KeyMsg "enter") m1 t' =
    (match fst r with
     | None =>
         (set_confirmIndex (-1) m1,
          Batch loadWorktrees
            (NewStatusMessage MainList
               ("Removed worktree " +:+ filepath_Base (git.Path (wt it)))))
     | Some e => (restore_confirm m1, NewStatusMessage MainList ("Error: " +:+ e))
     end, snd r) /\
  snd r = (t' ++ [EvGit ["worktree"; "remove"; "--force"; git.Path (wt it)]])%list /\
  Items (m_list (restore_confirm m1)) = Items (m_list m) /\
  confirmIndex (restore_confirm m1) = -1.
Proof.
  intros Hst Hci Hsel Hadd Hmain Hp m1 r.
  destruct (SelectedItem_Some _ _ Hsel) as [Hr Hit].
  destruct (list_d_spec m it Hsel Hadd Hmain) as (_ & HI & HC & HP & HW & HS & _).
  pose proof (list_d_Index m it Hsel Hadd Hmain) as HX.
  assert (m1 = fst (list_d m)) as E1 by (unfold m1; rewrite Update_list_d by exact Hst; reflexivity).
  rewrite <- E1 in HI, HC, HP, HW, HS, HX.
  unfold settled in HI. rewrite Hci in HI. simpl in HI. rewrite Hst in HS.
  split; [|split; [|split]].
  - rewrite Update_key by reflexivity. rewrite HS. unfold update_list. eqb_lit.
    unfold list_enter. rewrite HC, HX, HW, Z.eqb_refl.
    assert ((Index (m_list m) =? -1) = false) as -> by (apply Z.eqb_neq; lia).
    apply String.eqb_neq in Hp. rewrite Hp. cbn [negb andb]. unfold bind. fold r.
    destruct r as [[e|] t'']; reflexivity.
  - unfold r, git.RemoveWorktree. apply String.eqb_neq in Hp. rewrite Hp. reflexivity.
  - rewrite restore_confirm_Items by (rewrite HI, length_insert, HC; exact Hr).
    rewrite HI, HC, HP, list_insert_insert_eq. apply list_insert_id, Hit.
  - apply restore_confirm_frame.
Qed.

(** X15. In the branch picker, [n] starts the edit of a new name: the
    buffer is empty and has the focus, the cursor is on the synthetic
    entry, whose title is the empty buffer.  [esc] after it ends the edit
    and gives back the list of branches as it was. *)
Theorem start_and_cancel_editing (m : model) (t t' : Trace) (it0 : item) (rest : list item) :
  m_state m = stateAddPick -> is_editing m = false -> branchDel m <> None ->
  Items (branches m) = it0 :: rest -> isAdd it0 = true ->
  title it0 = "[+] Create new branch" ->
  let m1 := fst (fst (Update (KeyMsg "n") m t)) in
  let m2 := fst (fst (Update (KeyMsg "esc") m1 t')) in
  (is_editing m1 = true /\ Value (input m1) = "" /\ Focused (input m1) = true /\
   Index (branches m1) = 0 /\
   Items (branches m1) = mkItem "" (desc it0) (wt it0) true (br it0) :: rest) /\
  (is_editing m2 = false /\ Focused (input m2) = false /\ m_state m2 = stateAddPick /\
   Items (branches m2) = Items (branches m)).
Proof.
  intros Hst Hed Hd Hi Hadd Ht m1 m2.
  destruct (branchDel m) as [d|] eqn:Ed; [|congruence].
  assert (m1 = start_editing true m) as E1.
  { unfold m1. rewrite Update_key by reflexivity. rewrite Hst, Hed.
    unfold update_pick. eqb_lit. reflexivity. }
  assert (Items (branches m1) = mkItem "" (desc it0) (wt it0) true (br it0) :: rest /\
          is_editing m1 = true /\ Value (input m1) = "" /\ Focused (input m1) = true /\
          Index (branches m1) = 0 /\ m_state m1 = stateAddPick /\
          branchDel m1 = Some (mkDelegate true)) as (I1 & D1 & V1 & F1 & X1 & S1 & B1).
  { rewrite E1. unfold start_editing, set_editing. rewrite Ed.
    unfold updateAddItemTitle, is_editing. simpl. rewrite Hi, Hadd. simpl.
    repeat split; try reflexivity; exact Hst. }
  split; [repeat split; assumption|].
  assert (m2 = resetAddItemTitle (set_input (Blur (input m1)) (set_editing false m1))) as E2.
  { unfold m2. rewrite Update_key by reflexivity. rewrite S1, D1.
    unfold update_editing. eqb_lit. reflexivity. }
  rewrite E2. unfold resetAddItemTitle, updateAddItemTitle, set_editing, is_editing.
  rewrite B1. simpl. rewrite I1. simpl. rewrite Hi.
  repeat split; try reflexivity; try exact S1.
  destruct it0 as [ti de w a b]. simpl in *. subst ti a. reflexivity.
Qed.

(** X16. While a name is edited, a key that is neither [esc] nor [enter]
    goes to the text input, and the title of the synthetic entry becomes
    the value of the input, blank or not; the other entries stay. *)
Theorem typing_is_mirrored (m : model) (t : Trace) (k : string)
    (it0 : item) (rest : list item) :
  m_state m = stateAddPick -> is_editing m = true ->
  k ∉ ["ctrl+c"; "esc"; "enter"] ->
  Items (branches m) = it0 :: rest -> isAdd it0 = true ->
  let m1 := fst (fst (Update (KeyMsg k) m t)) in
  input m1 = fst (input_key k (input m)) /\
  Items (branches m1) =
    mkItem (Value (input m1)) (desc it0) (wt it0) true (br it0) :: rest /\
  is_editing m1 = true /\ m_state m1 = stateAddPick.
Proof.
  intros Hst Hed Hk Hi Hadd m1.
  rewrite !not_elem_of_cons in Hk. destruct Hk as (Hc & He & Hen & _).
  apply String.eqb_neq in Hc, He, Hen.
  assert (m1 = updateAddItemTitle (Value (fst (input_key k (input m))))
                 (set_input (fst (input_key k (input m))) m)) as ->.
  { unfold m1. rewrite Update_key by exact Hc. rewrite Hst, Hed.
    unfold update_editing. rewrite He, Hen. reflexivity. }
  unfold updateAddItemTitle. cbn [branches set_input]. rewrite Hi, Hadd. cbn [negb].
  assert (is_editing (set_input (fst (input_key k (input m))) m) = true) as -> by exact Hed.
  rewrite andb_false_r. simpl. repeat split; try assumption.
Qed.

Lemma int_wrap_range (z : Z) : is_int (int_wrap z).
Proof.
  unfold is_int, int_wrap.
  pose proof (Z.mod_pos_bound (z + 2 ^ 63) (2 ^ 64) eq_refl). lia.
Qed.

Lemma int_wrap_id (z : Z) : is_int z -> int_wrap z = z.
Proof.
  unfold is_int, int_wrap. intros Hz.
  rewrite Z.mod_small by lia. lia.
Qed.

(** X17. A change of the size of the window changes sizes only: the mode,
    the entries of both lists, the buffer and the confirmation are as
    before.  The width of the frame is never negative and the text input
    is at least ten columns wide, both within the range of [int].  For a
    window at least four columns above the least [int], and so for every
    width a terminal has, the frame is two columns narrower than the
    window and the text input ten narrower, down to zero and to ten; for
    the four widths below, the subtraction wraps around. *)
Theorem window_size_bounds (m : model) (t : Trace) (w h : Z) :
  let m1 := fst (fst (Update (WindowSizeMsg w h) m t)) in
  Update (WindowSizeMsg w h) m t = ((m1, CmdNil), t) /\
  (0 <= frame m1 < 2 ^ 63 /\ 10 <= Width (input m1) < 2 ^ 63) /\
  frame m1 = Z.max 0 (int_wrap (w - 2)) /\
  Width (input m1) = Z.max 10 (Z.max 0 (int_wrap (w - 4)) - 6) /\
  (- 2 ^ 63 + 4 <= w < 2 ^ 63 ->
   frame m1 = Z.max 0 (w - 2) /\
   Width (input m1) = Z.max 10 (Z.max 0 (w - 4) - 6)) /\
  m_state m1 = m_state m /\
  Items (m_list m1) = Items (m_list m) /\ Items (branches m1) = Items (branches m) /\
  Value (input m1) = Value (input m) /\
  confirmIndex m1 = confirmIndex m /\ confirmPrev m1 = confirmPrev m.
Proof.
  intros m1. subst m1. cbn [Update]. unfold ret, on_WindowSize.
  cbn [fst snd frame input Width Value set_input set_branches set_list set_frame
       m_state m_list branches Items SetSize confirmIndex confirmPrev].
  pose proof (int_wrap_range (w - 2)) as R2.
  pose proof (int_wrap_range (w - 4)) as R4.
  set (a := int_wrap (w - 2)) in *. set (b := int_wrap (w - 4)) in *.
  set (innerW := if b <? 0 then 0 else b).
  assert (0 <= innerW < 2 ^ 63) as Hi
    by (subst innerW; unfold is_int in R4; destruct (b <? 0) eqn:E; lia).
  assert (int_wrap (innerW - 6) = innerW - 6) as Hw
    by (apply int_wrap_id; unfold is_int; lia).
  rewrite Hw.
  assert (frame_eq : (if a <? 0 then 0 else a) = Z.max 0 a)
    by (destruct (a <? 0) eqn:E; lia).
  assert (width_eq : (if innerW - 6 <? 10 then 10 else innerW - 6) = Z.max 10 (Z.max 0 b - 6))
    by (subst innerW; destruct (b <? 0) eqn:E1;
        [change (0 - 6 <? 10) with true; cbv iota; lia
        |destruct (b - 6 <? 10) eqn:E2; lia]).
  split; [reflexivity|]. rewrite frame_eq, width_eq. unfold is_int in R2, R4.
  split; [lia|]. split; [reflexivity|]. split; [reflexivity|].
  split; [|repeat split].
  intros Hr. subst a b.
  rewrite !int_wrap_id by (unfold is_int; lia). split; reflexivity.
Qed.

End Keys.

(** ** What the lists show after a load *)

Section Loaded.

Import tui.

Context `{Host} `{Widgets}.

Lemma strip_refs_heads (b : string) : strip_refs ("refs/heads/" +:+ b) = b.
Proof.
  unfold strip_refs, GoStrings.HasPrefix, GoStrings.TrimPrefix.
  rewrite cut_prefix_app. reflexivity.
Qed.

(** X18. A listing that was loaded fills the list with the synthetic entry
    and then one entry for each worktree, in order: the entry carries the
    worktree, its title is the base name of the path, and its description
    shows the branch without [refs/heads/] before the path, or the path
    alone when the worktree has neither branch nor head.  A listing that
    failed leaves the state as it is and shows the error. *)
Theorem loaded_worktrees_entries (m : model) (t : Trace) (ws : list git.Worktree) :
  let m1 := fst (fst (Update (loadedWorktreesMsg ws None) m t)) in
  length (Items (m_list m1)) = S (length ws) /\
  Items (m_list m1) !! 0%nat = Some add_worktree_item /\
  (forall i w,
     ws !! i = Some w ->
     exists it,
       Items (m_list m1) !! S i = Some it /\
       wt it = w /\ isAdd it = false /\ title it = filepath_Base (git.Path w) /\
       (forall b, git.BranchRef w = "refs/heads/" +:+ b -> b <> "" ->
          desc it = (Render Sky "Branch:" +:+ " " +:+ b) +:+ "  " +:+
                    (Render Green "Path:" +:+ " " +:+ git.Path w)) /\
       (git.BranchRef w = "" -> git.HEAD w = "" ->
          desc it = Render Green "Path:" +:+ " " +:+ git.Path w)) /\
  (forall e,
     Update (loadedWorktreesMsg ws (Some e)) m t =
       ((m, NewStatusMessage MainList ("Error: " +:+ e)), t)).
Proof.
  intros m1. subst m1. simpl. rewrite length_map.
  split; [reflexivity|]. split; [reflexivity|]. split; [|reflexivity].
  intros i w Hw. exists (worktree_item w).
  split; [rewrite list_lookup_fmap, Hw; reflexivity|].
  split; [reflexivity|]. split; [reflexivity|]. split; [reflexivity|]. split.
  - intros b Hb Hne. unfold worktree_item. rewrite Hb.
    change (String.eqb ("refs/heads/" +:+ b) "") with false. cbv iota.
    rewrite strip_refs_heads. apply String.eqb_neq in Hne. rewrite Hne. reflexivity.
  - intros Hb Hh. unfold worktree_item. rewrite Hb, Hh. reflexivity.
Qed.

(** X19. Branches that were loaded fill the picker with the synthetic
    entry and then one entry for each branch, in order: the entry carries
    the branch and is titled by its short name; a remote branch has no
    description, a local one shows the upstream it tracks or
    [No remote].  A load that failed leaves the state as it is and shows
    the error in the picker. *)
Theorem loaded_branches_entries (m : model) (t : Trace) (bs : list git.Branch) :
  let m1 := fst (fst (Update (loadedBranchesMsg bs None) m t)) in
  length (Items (branches m1)) = S (length bs) /\
  Items (branches m1) !! 0%nat = Some add_branch_item /\
  (forall i b,
     bs !! i = Some b ->
     exists it,
       Items (branches m1) !! S i = Some it /\
       br it = b /\ isAdd it = false /\ title it = git.Name b /\
       (git.IsRemote b = true -> desc it = "") /\
       (git.IsRemote b = false -> GoStrings.TrimSpace (git.Upstream b) = "" ->
          desc it = Render Surface1 "No remote") /\
       (git.IsRemote b = false -> GoStrings.TrimSpace (git.Upstream b) <> "" ->
          desc it = Render Blue "Tracking:" +:+ " " +:+ GoStrings.TrimSpace (git.Upstream b))) /\
  (forall e,
     Update (loadedBranchesMsg bs (Some e)) m t =
       ((m, NewStatusMessage BranchList ("Error: " +:+ e)), t)).
Proof.
  intros m1. subst m1. simpl. rewrite length_map.
  split; [reflexivity|]. split; [reflexivity|]. split; [|reflexivity].
  intros i b Hb. exists (branch_item b).
  split; [rewrite list_lookup_fmap, Hb; reflexivity|].
  split; [reflexivity|]. split; [reflexivity|]. split; [reflexivity|].
  unfold branch_item. cbn [desc]. split; [intros ->; reflexivity|]. split.
  - intros -> ->. reflexivity.
  - intros -> Hu. apply String.eqb_neq in Hu. rewrite Hu. reflexivity.
Qed.

End Loaded.

(** ** The further properties on the sample repository *)

Lemma listing_entries_well_formed_witness :
  git.entry_ok (git.mkBranch "release" true "origin" "origin/release" false "" "").
Proof.
  apply (@listing_entries_well_formed Sample.host []).
  assert (fst (fst (@git.ListBranchesDetailed Sample.host [])) =
          [git.mkBranch "main" false "" "" true "origin/main" "origin";
           git.mkBranch "b1" false "" "" false "" "";
           git.mkBranch "release" true "origin" "origin/release" false "" ""]) as E
    by (vm_compute; reflexivity).
  rewrite E, !elem_of_cons. auto.
Defined.

Lemma locals_follow_git_order_witness :
  List.filter (fun b => negb (git.IsRemote b))
    (fst (fst (@git.ListBranchesDetailed Sample.host []))) =
  map git.local_entry ["main|origin/main"; "b1|"].
Proof. exact (@locals_follow_git_order Sample.host [] Sample.local_refs eq_refl). Defined.

Lemma local_entry_decodes_witness :
  git.Name (git.local_entry "main|origin/main") = "main" /\
  git.Upstream (git.local_entry "main|origin/main") = "origin/main" /\
  git.UpstreamRemote (git.local_entry "main|origin/main") = "origin" /\
  git.local_entry "main" = git.mkBranch "main" false "" "" false "" "".
Proof.
  destruct (proj1 (local_entry_decodes "main" "origin/main" "main") eq_refl)
    as (Hn & Hu & _ & Hr).
  split; [exact Hn|]. split; [exact Hu|]. split.
  - exact (Hr "origin" "main" eq_refl eq_refl).
  - exact (proj2 (local_entry_decodes "main" "origin/main" "main") eq_refl).
Defined.

Lemma remotes_distinct_in_git_order_witness :
  map git.RemoteRef
    (List.filter git.IsRemote (fst (fst (@git.ListBranchesDetailed Sample.host []))))
    `sublist_of` ["origin/HEAD"; "origin/main"; "origin/release"; "fork/release"].
Proof.
  exact (proj2 (@remotes_distinct_in_git_order Sample.host []) Sample.remote_refs eq_refl).
Defined.

Lemma modes_reached_witness :
  tui.m_state Sample.confirming = tui.stateList \/
  tui.m_state Sample.confirming = tui.stateAddPick.
Proof.
  exact (proj1 (@modes_reached Sample.host Sample.widgets Sample.confirming
                  confirming_reachable)).
Defined.

Lemma synthetic_entry_first_witness :
  tui.head_add (tui.Items (tui.m_list Sample.confirming)) /\
  1 <= tui.confirmIndex Sample.confirming.
Proof.
  destruct (@synthetic_entry_first Sample.host Sample.widgets Sample.confirming
              confirming_reachable) as (Hl & _ & Hc).
  split; [exact Hl|]. apply Hc. vm_compute. discriminate.
Defined.

Lemma only_enter_reaches_outside_witness :
  snd (@tui.Update Sample.host Sample.widgets (tui.KeyMsg "d") Sample.on_b1 []) = [].
Proof.
  apply (@only_enter_reaches_outside Sample.host Sample.widgets). discriminate.
Defined.

Lemma enter_opens_editor_witness :
  @tui.Update Sample.host Sample.widgets (tui.KeyMsg "enter") Sample.on_b1 [] =
    ((Sample.on_b1, tui.ExecProcess "vi" "/w/repo-b1"), []).
Proof.
  apply (@enter_opens_editor Sample.host Sample.widgets Sample.on_b1 [] Sample.b1_item).
  - vm_compute. reflexivity.
  - left. vm_compute. reflexivity.
  - vm_compute. reflexivity.
  - reflexivity.
  - discriminate.
Defined.

Lemma confirmed_removal_witness :
  snd (@git.RemoveWorktree Sample.host "/w/repo-b1" true []) =
    [EvGit ["worktree"; "remove"; "--force"; "/w/repo-b1"]] /\
  tui.Items (tui.m_list (@tui.restore_confirm Sample.widgets Sample.confirming)) =
    tui.Items (tui.m_list Sample.on_b1).
Proof.
  destruct (@confirmed_removal Sample.host Sample.widgets Sample.on_b1 [] []
              Sample.b1_item) as (_ & Ht & Hi & _);
    try (vm_compute; reflexivity); [discriminate|].
  split; [exact Ht|exact Hi].
Defined.

Lemma start_and_cancel_editing_witness :
  tui.Items (tui.branches
    (Sample.run Sample.host [tui.KeyMsg "n"; tui.KeyMsg "esc"] Sample.picking)) =
  tui.Items (tui.branches Sample.picking).
Proof.
  apply (@start_and_cancel_editing Sample.host Sample.widgets Sample.picking [] []
           tui.add_branch_item
           (map (@tui.branch_item Sample.widgets)
              (fst (fst (@git.ListBranchesDetailed Sample.host [])))));
    try (vm_compute; reflexivity).
  vm_compute. discriminate.
Defined.

Lemma typing_is_mirrored_witness :
  map tui.title (tui.Items (tui.branches
    (Sample.run Sample.host [tui.KeyMsg "x"] Sample.typed))) =
  [" feature-x x"; "main"; "b1"; "release"].
Proof.
  assert ("x" ∉ ["ctrl+c"; "esc"; "enter"]) as Hk
    by (rewrite !not_elem_of_cons; repeat split; try discriminate; inversion 1).
  pose proof (@typing_is_mirrored Sample.host Sample.widgets Sample.typed [] "x"
                (tui.mkItem " feature-x " "Type a new branch name" git.Worktree_zero true
                   git.Branch_zero)
                (map (@tui.branch_item Sample.widgets)
                   (fst (fst (@git.ListBranchesDetailed Sample.host []))))
                ltac:(vm_compute; reflexivity) ltac:(vm_compute; reflexivity) Hk
                ltac:(vm_compute; reflexivity) ltac:(reflexivity))
    as (_ & Hi & _).
  change (Sample.run Sample.host [tui.KeyMsg "x"] Sample.typed)
    with (fst (fst (@tui.Update Sample.host Sample.widgets (tui.KeyMsg "x") Sample.typed []))).
  rewrite Hi. vm_compute. reflexivity.
Defined.

(** A terminal of 80 columns: a frame of 78 and a text input of 70; and
    the least [int] as a width wraps around to the two largest sizes. *)
Lemma window_size_bounds_witness :
  (let m1 := fst (fst (@tui.Update Sample.host Sample.widgets (tui.WindowSizeMsg 80 24)
                         Sample.typed [])) in
   tui.frame m1 = 78 /\ tui.Width (tui.input m1) = 70) /\
  (let m1 := fst (fst (@tui.Update Sample.host Sample.widgets
                         (tui.WindowSizeMsg (- 2 ^ 63) 24) Sample.typed [])) in
   tui.frame m1 = 2 ^ 63 - 2 /\ tui.Width (tui.input m1) = 2 ^ 63 - 10).
Proof.
  split.
  - destruct (@window_size_bounds Sample.host Sample.widgets Sample.typed [] 80 24)
      as (_ & _ & _ & _ & Hr & _).
    apply Hr. lia.
  - destruct (@window_size_bounds Sample.host Sample.widgets Sample.typed [] (- 2 ^ 63) 24)
      as (_ & _ & Hf & Hw & _).
    cbv zeta. rewrite Hf, Hw. vm_compute. split; reflexivity.
Defined.

Lemma loaded_worktrees_entries_witness :
  exists it,
    tui.Items (tui.m_list Sample.listing) !! 2%nat = Some it /\
    tui.wt it = git.mkWorktree "/w/repo-b1" "refs/heads/b1" "2222" false /\
    tui.title it = "repo-b1" /\
    tui.desc it = "Branch: b1  Path: /w/repo-b1".
Proof.
  destruct (proj1 (proj2 (proj2 (@loaded_worktrees_entries Sample.host Sample.widgets
              tui.initialModel [] (fst (fst (@git.ListWorktrees Sample.host []))))))
              1%nat (git.mkWorktree "/w/repo-b1" "refs/heads/b1" "2222" false) eq_refl)
    as (it & Hit & Hw & _ & Ht & Hd & _).
  exists it. split; [exact Hit|]. split; [exact Hw|]. split; [rewrite Ht; reflexivity|].
  rewrite (Hd "b1"); [reflexivity|reflexivity|discriminate].
Defined.

Lemma loaded_branches_entries_witness :
  exists it,
    tui.Items (tui.branches Sample.picking) !! 1%nat = Some it /\
    tui.title it = "main" /\ tui.desc it = "Tracking: origin/main".
Proof.
  destruct (proj1 (proj2 (proj2 (@loaded_branches_entries Sample.host Sample.widgets
              (Sample.run Sample.host [tui.KeyMsg "a"] Sample.listing) []
              (fst (fst (@git.ListBranchesDetailed Sample.host []))))))
              0%nat (git.mkBranch "main" false "" "" true "origin/main" "origin") eq_refl)
    as (it & Hit & Hb & _ & Ht & _ & _ & Hd).
  exists it. split; [exact Hit|]. split; [rewrite Ht; reflexivity|].
  rewrite Hd; [reflexivity|reflexivity|vm_compute; discriminate].
Defined.

(** ** The first rows *)

Section FirstRows.

Import tui.

Context `{Host} `{Widgets}.

Lemma SelectedItem_first (l : ListModel) :
  Index l = 0 ->
  SelectedItem l = match Items l with [] => None | it0 :: _ => Some it0 end.
Proof.
  intros E. unfold SelectedItem. cbv zeta. rewrite E.
  destruct (Items l) as [|it0 rest]; reflexivity.
Qed.

(** X20. In every state the program reaches, with the cursor on the first
    row of the list: [d] does nothing, and [enter] opens the branch
    picker and asks for the branches, or does nothing while the list is
    still empty.  Neither calls git. *)
Theorem first_row_of_list (m : model) (t : Trace) :
  reachable m -> m_state m = stateList -> Index (m_list m) = 0 ->
  Update (KeyMsg "d") m t = ((m, CmdNil), t) /\
  Update (KeyMsg "enter") m t =
    (match Items (m_list m) with
     | [] => (m, CmdNil)
     | _ :: _ => (set_state stateAddPick m, loadBranches)
     end, t).
Proof.
  intros Hr Hst Hi.
  destruct (reachable_shape m Hr) as [(_ & _ & Hc) (_ & _ & Hl & _ & _)].
  pose proof (SelectedItem_first (m_list m) Hi) as Hsel.
  assert (negb (confirmIndex m =? -1) && (Index (m_list m) =? confirmIndex m) = false) as Hno.
  { destruct (Z.eq_dec (confirmIndex m) (-1)) as [E|E]; [rewrite E; reflexivity|].
    destruct (Hc E) as (Hrange & it & Hit & _ & Hadd).
    pose proof (head_add_index _ _ _ Hl Hit Hadd).
    apply andb_false_iff. right. apply Z.eqb_neq. lia. }
  split.
  - rewrite Update_list_d by exact Hst. unfold list_d. rewrite Hsel.
    destruct (Items (m_list m)) as [|it0 rest]; [reflexivity|].
    destruct Hl as [-> _]. reflexivity.
  - rewrite Update_key by reflexivity. rewrite Hst. unfold update_list. eqb_lit.
    unfold list_enter. rewrite Hno, Hsel.
    destruct (Items (m_list m)) as [|it0 rest]; [reflexivity|].
    destruct Hl as [-> _]. reflexivity.
Qed.

(** X21. In every state the program reaches, in the branch picker with
    the branches loaded, no name being edited and the cursor on the first
    row, [enter] starts the edit of a new name and creates nothing. *)
Theorem first_row_of_picker (m : model) (t : Trace) :
  reachable m -> m_state m = stateAddPick -> is_editing m = false ->
  Index (branches m) = 0 -> Items (branches m) <> [] ->
  Update (KeyMsg "enter") m t = ((start_editing false m, CmdNil), t) /\
  is_editing (start_editing false m) = true /\
  Value (input (start_editing false m)) = "".
Proof.
  intros Hr Hst Hed Hi Hne.
  destruct (reachable_shape m Hr) as [_ (Hd & _ & _ & Hb & _)].
  pose proof (SelectedItem_first (branches m) Hi) as Hsel.
  destruct (Items (branches m)) as [|it0 rest] eqn:Hitems; [congruence|].
  destruct Hb as [Hadd _].
  split; [|split].
  - rewrite Update_key by reflexivity. rewrite Hst, Hed. unfold update_pick. eqb_lit.
    rewrite Hsel, Hadd. reflexivity.
  - unfold start_editing. destruct (branchDel m) eqn:E; [|congruence].
    rewrite is_editing_updateAddItemTitle. unfold set_editing, is_editing. rewrite E.
    reflexivity.
  - unfold start_editing. destruct (branchDel m) eqn:E; [|congruence].
    unfold updateAddItemTitle, set_editing. rewrite E. simpl. rewrite Hitems, Hadd.
    reflexivity.
Qed.

Lemma ListWorktrees_marked (t : Trace) :
  exists l, fst (fst (git.ListWorktrees t)) = git.mark_main l.
Proof.
  unfold git.ListWorktrees, bind, git.runGit.
  destruct (exec_git t git.worktree_list_args); simpl.
  - eexists. reflexivity.
  - exists []. reflexivity.
  - exists []. reflexivity.
Qed.

(** X22. After a refresh, the list is the synthetic entry and then the
    worktrees as git listed them: the entry on the second row is the
    primary worktree, and no entry below it is. *)
Theorem loaded_list_marks_primary (m : model) (t t0 : Trace) :
  snd (fst (git.ListWorktrees t0)) = None ->
  let m1 := fst (fst (Update (fst (run_loadWorktrees t0)) m t)) in
  Items (m_list m1) =
    add_worktree_item :: map worktree_item (fst (fst (git.ListWorktrees t0))) /\
  (forall it, Items (m_list m1) !! 1%nat = Some it ->
              isAdd it = false /\ git.IsMain (wt it) = true) /\
  (forall i it, (2 <= i)%nat -> Items (m_list m1) !! i = Some it ->
                isAdd it = false /\ git.IsMain (wt it) = false).
Proof.
  intros Hok m1.
  assert (Items (m_list m1) =
          add_worktree_item :: map worktree_item (fst (fst (git.ListWorktrees t0)))) as E.
  { unfold m1, run_loadWorktrees, bind, ret.
    destruct (git.ListWorktrees t0) as [[ws e] t1]. simpl in Hok. subst e. reflexivity. }
  split; [exact E|]. rewrite E.
  destruct (ListWorktrees_marked t0) as (l & ->).
  split.
  - intros it Hit. simpl in Hit. destruct l as [|w r]; [discriminate|].
    simpl in Hit. injection Hit as <-. split; reflexivity.
  - intros i it Hi Hit. destruct i as [|[|i]]; [lia|lia|].
    simpl in Hit. destruct l as [|w r]; [discriminate|]. simpl in Hit.
    rewrite list_lookup_fmap in Hit.
    destruct (map (git.set_IsMain false) r !! i) as [w'|] eqn:Hw; [|discriminate].
    injection Hit as <-. rewrite list_lookup_fmap in Hw.
    destruct (r !! i); [|discriminate]. injection Hw as <-. split; reflexivity.
Qed.

End FirstRows.

Lemma first_row_of_list_witness :
  @tui.Update Sample.host Sample.widgets (tui.KeyMsg "d") Sample.listing [] =
    ((Sample.listing, tui.CmdNil), []) /\
  tui.m_state (fst (fst (@tui.Update Sample.host Sample.widgets (tui.KeyMsg "enter")
                           Sample.listing []))) = tui.stateAddPick.
Proof.
  assert (@tui.reachable Sample.host Sample.widgets Sample.listing) as Hr
    by (repeat apply run_reachable; constructor).
  destruct (@first_row_of_list Sample.host Sample.widgets Sample.listing [] Hr
              ltac:(vm_compute; reflexivity) ltac:(vm_compute; reflexivity)) as [Hd He].
  split; [exact Hd|]. rewrite He. vm_compute. reflexivity.
Defined.

Lemma first_row_of_picker_witness :
  tui.is_editing (fst (fst (@tui.Update Sample.host Sample.widgets (tui.KeyMsg "enter")
     (Sample.run Sample.host [tui.KeyMsg "k"; tui.KeyMsg "k"; tui.KeyMsg "k"] Sample.picking)
     []))) = true.
Proof.
  assert (@tui.reachable Sample.host Sample.widgets
            (Sample.run Sample.host [tui.KeyMsg "k"; tui.KeyMsg "k"; tui.KeyMsg "k"]
               Sample.picking)) as Hr
    by (repeat apply run_reachable; constructor).
  destruct (@first_row_of_picker Sample.host Sample.widgets _ [] Hr
              ltac:(vm_compute; reflexivity) ltac:(vm_compute; reflexivity)
              ltac:(vm_compute; reflexivity) ltac:(vm_compute; discriminate))
    as (E & Hed & _).
  rewrite E. exact Hed.
Defined.

Lemma loaded_list_marks_primary_witness :
  map (fun it => git.IsMain (tui.wt it)) (tui.Items (tui.m_list Sample.listing)) =
    [false; true; false; false] /\
  git.IsMain (git.mkWorktree "/w/repo" "refs/heads/main" "1111" true) = true.
Proof.
  destruct (@loaded_list_marks_primary Sample.host Sample.widgets tui.initialModel [] []
              eq_refl) as (E & H1 & _).
  split; [vm_compute; reflexivity|].
  apply (H1 (tui.mkItem "repo" "Branch: main  Path: /w/repo"
               (git.mkWorktree "/w/repo" "refs/heads/main" "1111" true) false
               git.Branch_zero)).
  vm_compute. reflexivity.
Defined.
